(** * Payslip extractor: a shallow embedding of [extract_payslip.py]

    The development follows the source file top to bottom: the record
    model, the regular-expression patterns of [PatternConfig], the date
    parser, the three line parsers, the per-document processor and the
    collection driver.

    Modelling conventions.
    - A Python [str] is a [string]; a character is an [ascii], read as the
      code point 0..255 (the Latin-1 range).  The character classes below
      are Python's classes restricted to that range.
    - A Python [float] obtained from [float(token)] is represented by the
      exact decimal value of the token, a reduced rational.  The IEEE
      double is the rounding of that value; rounding is monotone and keeps
      zero, so sign and equality of equal literals are preserved.
    - [ValueError] is the only exception the parsers can raise; a
      computation that may raise has type [result A].
    - [datetime.strptime] is modelled in the C locale (English month
      abbreviations); [pdfplumber], [pandas] and the glob are outside the
      program and appear as data: page texts, rows, the files found. *)

From Stdlib Require Import String Ascii List ZArith QArith Lia Bool.
From stdpp Require Import gmap.
Import ListNotations.
Open Scope string_scope.

#[local] Arguments String.append !_ _ / : simpl nomatch.

(* ====================================================================== *)
(** ** Exceptions *)
(* ====================================================================== *)

Inductive result (A : Type) : Type :=
| Ok (a : A)
| ValueError.
Arguments Ok {A} a.
Arguments ValueError {A}.

Definition rbind {A B : Type} (m : result A) (k : A -> result B) : result B :=
  match m with
  | Ok a => k a
  | ValueError => ValueError
  end.

Notation "'let!' x ':=' m 'in' k" := (rbind m (fun x => k))
  (at level 10, x name, m at level 100, k at level 200).

(* ====================================================================== *)
(** ** Characters and the [str] methods the parsers use *)
(* ====================================================================== *)

Definition code (c : ascii) : N := N_of_ascii c.

(** [str.isspace] on 0..255: TAB..CR, FS..US, space, NEL, NBSP.  Both
    [str.strip()] and the pattern class [\s] use it. *)
Definition is_space (c : ascii) : bool :=
  let n := code c in
  ((9 <=? n) && (n <=? 13) || (28 <=? n) && (n <=? 32)
   || (n =? 133) || (n =? 160))%N.

(** [\d] on 0..255: the decimal digits. *)
Definition is_digit (c : ascii) : bool :=
  let n := code c in ((48 <=? n) && (n <=? 57))%N.

(** [[\d.]]: a digit or a dot. *)
Definition is_digit_or_dot (c : ascii) : bool :=
  is_digit c || (code c =? 46)%N.

(** [\w] on 0..255: [str.isalnum] or the underscore. *)
Definition is_word (c : ascii) : bool :=
  let n := code c in
  (is_digit c
   || (65 <=? n) && (n <=? 90) || (97 <=? n) && (n <=? 122) || (n =? 95)
   || (n =? 170) || (n =? 178) || (n =? 179) || (n =? 181)
   || (n =? 185) || (n =? 186) || (188 <=? n) && (n <=? 190)
   || (192 <=? n) && (n <=? 214) || (216 <=? n) && (n <=? 246)
   || (248 <=? n))%N.

(** [.] without [re.DOTALL]: anything but a line feed. *)
Definition is_not_newline (c : ascii) : bool := negb (code c =? 10)%N.

Definition newline : string := String (ascii_of_N 10) "".

(** [s.startswith(p)]. *)
Fixpoint startswith (p s : string) : bool :=
  match p with
  | "" => true
  | String a p' =>
      match s with
      | "" => false
      | String b s' => if Ascii.eqb a b then startswith p' s' else false
      end
  end.

(** [p in s]. *)
Fixpoint contains (p s : string) : bool :=
  startswith p s ||
  match s with
  | "" => false
  | String _ s' => contains p s'
  end.

(** [s[n:]]. *)
Fixpoint str_from (n : nat) (s : string) : string :=
  match n with
  | O => s
  | S n' => match s with "" => "" | String _ s' => str_from n' s' end
  end.

(** [s[:n]]. *)
Fixpoint str_upto (n : nat) (s : string) : string :=
  match n with
  | O => ""
  | S n' => match s with "" => "" | String c s' => String c (str_upto n' s') end
  end.

Fixpoint lstrip (s : string) : string :=
  match s with
  | "" => ""
  | String c s' => if is_space c then lstrip s' else s
  end.

(** Removes trailing white space: a character is kept when it is not a
    space or when something is kept after it. *)
Fixpoint rstrip (s : string) : string :=
  match s with
  | "" => ""
  | String c s' =>
      match rstrip s' with
      | "" => if is_space c then "" else String c ""
      | t => String c t
      end
  end.

(** [s.strip()]. *)
Definition strip (s : string) : string := rstrip (lstrip s).

(** [text.split('\n')]: always at least one piece. *)
Fixpoint split_lines (s : string) : list string :=
  match s with
  | "" => [""]
  | String c s' =>
      if (code c =? 10)%N then "" :: split_lines s'
      else match split_lines s' with
           | [] => [String c ""]
           | l :: ls => String c l :: ls
           end
  end.

(* ====================================================================== *)
(** ** Regular expressions

    The patterns of [PatternConfig] use literals, one-character classes,
    [+] and [+?] on a class, groups, [^] and [$]; the pattern [strptime]
    builds adds alternation and case-insensitive literals.  [run] is a
    backtracking matcher: it lists the ways a pattern can match at the
    current position in the order Python's engine tries them, so the
    match Python reports is the head of the list. *)
(* ====================================================================== *)

Inductive regex : Type :=
| Lit (s : string)                (* literal text *)
| LitI (s : string)               (* lower-case literal under IGNORECASE *)
| Cls (p : ascii -> bool)         (* one character of a class *)
| Plus (p : ascii -> bool)        (* class+ , greedy *)
| PlusLazy (p : ascii -> bool)    (* class+? , lazy *)
| Seq (r1 r2 : regex)
| Alt (r1 r2 : regex)
| Group (r : regex)               (* ( ... ) *)
| Bol                             (* ^ without MULTILINE *)
| Eol.                            (* $ without MULTILINE *)

(** A position in the subject: [pos] characters consumed, [rest] ahead,
    [caps] the groups closed so far, in closing order.  No pattern here
    nests groups or puts one under an alternative, so closing order is
    group number order. *)
Record mstate : Type := MState {
  pos : nat;
  rest : string;
  caps : list string
}.

Definition advance (n : nat) (st : mstate) : mstate :=
  MState (pos st + n) (str_from n (rest st)) (caps st).

(** ASCII lower-casing, the only case folding that reaches a-z within
    0..255. *)
Definition lower (c : ascii) : ascii :=
  let n := code c in
  if ((65 <=? n) && (n <=? 90))%N then ascii_of_N (n + 32) else c.

Fixpoint startswith_i (p s : string) : bool :=
  match p with
  | "" => true
  | String a p' =>
      match s with
      | "" => false
      | String b s' => if Ascii.eqb a (lower b) then startswith_i p' s' else false
      end
  end.

(** The numbers of characters [class+?] may take, fewest first; [n] is
    the number already taken. *)
Fixpoint spans (p : ascii -> bool) (n : nat) (s : string) : list nat :=
  match s with
  | "" => []
  | String c s' => if p c then S n :: spans p (S n) s' else []
  end.

Fixpoint run (r : regex) (st : mstate) : list mstate :=
  match r with
  | Lit s => if startswith s (rest st) then [advance (String.length s) st] else []
  | LitI s => if startswith_i s (rest st) then [advance (String.length s) st] else []
  | Cls p =>
      match rest st with
      | "" => []
      | String c _ => if p c then [advance 1 st] else []
      end
  | Plus p => map (fun n => advance n st) (rev (spans p 0 (rest st)))
  | PlusLazy p => map (fun n => advance n st) (spans p 0 (rest st))
  | Seq r1 r2 => flat_map (run r2) (run r1 st)
  | Alt r1 r2 => run r1 st ++ run r2 st
  | Group r' =>
      map (fun st' =>
             MState (pos st') (rest st')
                    (caps st' ++ [str_upto (pos st' - pos st) (rest st)]))
          (run r' st)
  | Bol => if Nat.eqb (pos st) 0 then [st] else []
  | Eol =>
      if String.eqb (rest st) "" || String.eqb (rest st) newline
      then [st] else []
  end.

(** A match object, reduced to what the callers read: the groups and the
    end offset. *)
Record rmatch : Type := RMatch {
  groups : list string;
  mend : nat
}.

(** [m.group(i)] for [i >= 1]. *)
Definition group (m : rmatch) (i : nat) : string := nth (i - 1) (groups m) "".

Definition first_match (r : regex) (start : nat) (s : string) : option rmatch :=
  match run r (MState start s []) with
  | [] => None
  | st :: _ => Some (RMatch (caps st) (pos st))
  end.

(** [re.match(r, s)]: a match at offset 0 only. *)
Definition re_match (r : regex) (s : string) : option rmatch :=
  first_match r 0 s.

(** [re.search(r, s)]: the leftmost offset at which a match exists. *)
Fixpoint search_from (r : regex) (start : nat) (s : string) : option rmatch :=
  match first_match r start s with
  | Some m => Some m
  | None =>
      match s with
      | "" => None
      | String _ s' => search_from r (S start) s'
      end
  end.

Definition re_search (r : regex) (s : string) : option rmatch :=
  search_from r 0 s.

Infix "~~" := Seq (at level 60, right associativity).

(* ====================================================================== *)
(** ** PatternConfig *)
(* ====================================================================== *)

Module PatternConfig.

(** [Pay Period (.+?) to (.+?) Paid (.+?)$] *)
Definition PAY_PERIOD_PATTERN : regex :=
  Lit "Pay Period " ~~ Group (PlusLazy is_not_newline) ~~
  Lit " to " ~~ Group (PlusLazy is_not_newline) ~~
  Lit " Paid " ~~ Group (PlusLazy is_not_newline) ~~ Eol.

(** [CAS OrdPay \(incCASloading\)\s+([\d.]+)\s+([\d.]+)\s+(\w+)\s+([\d.]+)] *)
Definition PAYMENT_PATTERN : regex :=
  Lit "CAS OrdPay (incCASloading)" ~~ Plus is_space ~~
  Group (Plus is_digit_or_dot) ~~ Plus is_space ~~
  Group (Plus is_digit_or_dot) ~~ Plus is_space ~~
  Group (Plus is_word) ~~ Plus is_space ~~
  Group (Plus is_digit_or_dot).

(** [Gross Pay\s+([\d.]+)\s+([\d.]+)] *)
Definition GROSS_PAY_PATTERN : regex :=
  Lit "Gross Pay" ~~ Plus is_space ~~
  Group (Plus is_digit_or_dot) ~~ Plus is_space ~~
  Group (Plus is_digit_or_dot).

(** [^Tax\s+([\d.]+)\s+([\d.]+)] *)
Definition TAX_PATTERN : regex :=
  Bol ~~ Lit "Tax" ~~ Plus is_space ~~
  Group (Plus is_digit_or_dot) ~~ Plus is_space ~~
  Group (Plus is_digit_or_dot).

(** [Nett Pay\s+([\d.]+)\s+([\d.]+)] *)
Definition NETT_PAY_PATTERN : regex :=
  Lit "Nett Pay" ~~ Plus is_space ~~
  Group (Plus is_digit_or_dot) ~~ Plus is_space ~~
  Group (Plus is_digit_or_dot).

(** [Commonwealth Bank of Australia\s+\d+\s+([\d.]+)] *)
Definition DISBURSEMENT_PATTERN : regex :=
  Lit "Commonwealth Bank of Australia" ~~ Plus is_space ~~
  Plus is_digit ~~ Plus is_space ~~
  Group (Plus is_digit_or_dot).

End PatternConfig.

(* ====================================================================== *)
(** ** Numbers *)
(* ====================================================================== *)

Definition digit_value (c : ascii) : Z := Z.of_N (code c) - 48.

(** Reads digits with at most one dot: the number of digits seen, the
    digits as one integer, and ten to the number of digits after the dot. *)
Fixpoint decimal (s : string) (dot : bool) (n : nat) (m : Z) (d : positive)
  : option (nat * Z * positive) :=
  match s with
  | "" => Some (n, m, d)
  | String c s' =>
      if is_digit c then
        decimal s' dot (S n) (10 * m + digit_value c) (if dot then (10 * d)%positive else d)
      else if (code c =? 46)%N && negb dot then decimal s' true n m d
      else None
  end.

(** [float(s)] on an optionally signed decimal literal without exponent.
    A literal with no digit or with two dots raises.  The other spellings
    [float] accepts (exponents, inf, nan, underscores, padding) contain a
    character outside [0-9.+-]; the patterns' numeric groups never do
    (lemmas [payment_groups_numeric] and [gross_pay_groups_numeric]). *)
Definition float (s : string) : result Q :=
  let '(neg, body) :=
    match s with
    | String "-" t => (true, t)
    | String "+" t => (false, t)
    | _ => (false, s)
    end in
  match decimal body false 0 0 1 with
  | Some (S _, m, d) => Ok (Qred ((if neg then - m else m) # d))
  | _ => ValueError
  end.

Definition digit_char (n : nat) : ascii := ascii_of_nat (48 + n mod 10).

(** A number below 100 written with two digits. *)
Definition pad2 (n : nat) : string :=
  String (digit_char (n / 10)) (String (digit_char n) "").

(** A number below 10000 written with four digits. *)
Definition pad4 (n : nat) : string := pad2 (n / 100) ++ pad2 (n mod 100).

(** [int(s)] on the pieces [strptime] converts: digits after optional
    leading white space. *)
Fixpoint int_digits (s : string) (acc : nat) : nat :=
  match s with
  | "" => acc
  | String c s' => int_digits s' (10 * acc + (N.to_nat (code c) - 48))
  end.

Definition int (s : string) : nat := int_digits (lstrip s) 0.

(* ====================================================================== *)
(** ** Data models *)
(* ====================================================================== *)

Module PayPeriodInfo.
Record t : Type := Make {
  period : option string;
  paid_date : option string
}.
End PayPeriodInfo.

Module PaymentRecord.
Record t : Type := Make {
  pdf_file : string;
  page : Z;
  pay_period : option string;
  paid_date : option string;
  work_date : string;
  hours : Q;
  rate : Q;
  amount : Q
}.
End PaymentRecord.

Module SummaryRecord.
Record t : Type := Make {
  pdf_file : string;
  page : Z;
  pay_period : option string;
  paid_date : option string;
  gross_pay : option Q;
  tax : option Q;
  nett_pay : option Q;
  ytd_gross_pay : option Q;
  ytd_tax : option Q;
  ytd_nett_pay : option Q;
  disbursement_amount : option Q
}.

Definition set_gross (g y : Q) (s : t) : t :=
  Make (pdf_file s) (page s) (pay_period s) (paid_date s)
       (Some g) (tax s) (nett_pay s) (Some y) (ytd_tax s) (ytd_nett_pay s)
       (disbursement_amount s).

Definition set_tax (x y : Q) (s : t) : t :=
  Make (pdf_file s) (page s) (pay_period s) (paid_date s)
       (gross_pay s) (Some x) (nett_pay s) (ytd_gross_pay s) (Some y)
       (ytd_nett_pay s) (disbursement_amount s).

Definition set_nett (n y : Q) (s : t) : t :=
  Make (pdf_file s) (page s) (pay_period s) (paid_date s)
       (gross_pay s) (tax s) (Some n) (ytd_gross_pay s) (ytd_tax s) (Some y)
       (disbursement_amount s).

Definition set_disbursement (a : Q) (s : t) : t :=
  Make (pdf_file s) (page s) (pay_period s) (paid_date s)
       (gross_pay s) (tax s) (nett_pay s) (ytd_gross_pay s) (ytd_tax s)
       (ytd_nett_pay s) (Some a).
End SummaryRecord.

(** A spreadsheet cell and a row as [to_dict] builds it: column names in
    the order of the dict literal. *)
Inductive cell : Type :=
| CStr (s : string)
| CInt (n : Z)
| CFloat (q : Q)
| CNone.

Definition row : Type := list (string * cell).

Definition opt_str (o : option string) : cell :=
  match o with Some s => CStr s | None => CNone end.

Definition opt_float (o : option Q) : cell :=
  match o with Some q => CFloat q | None => CNone end.

Definition payment_to_dict (p : PaymentRecord.t) : row :=
  [ ("PDF File", CStr (PaymentRecord.pdf_file p));
    ("Page", CInt (PaymentRecord.page p));
    ("Pay Period", opt_str (PaymentRecord.pay_period p));
    ("Paid Date", opt_str (PaymentRecord.paid_date p));
    ("Work Date", CStr (PaymentRecord.work_date p));
    ("Hours", CFloat (PaymentRecord.hours p));
    ("Rate", CFloat (PaymentRecord.rate p));
    ("Amount", CFloat (PaymentRecord.amount p)) ].

Definition summary_to_dict (s : SummaryRecord.t) : row :=
  [ ("PDF File", CStr (SummaryRecord.pdf_file s));
    ("Page", CInt (SummaryRecord.page s));
    ("Pay Period", opt_str (SummaryRecord.pay_period s));
    ("Paid Date", opt_str (SummaryRecord.paid_date s));
    ("Gross Pay", opt_float (SummaryRecord.gross_pay s));
    ("Tax", opt_float (SummaryRecord.tax s));
    ("Nett Pay", opt_float (SummaryRecord.nett_pay s));
    ("YTD Gross Pay", opt_float (SummaryRecord.ytd_gross_pay s));
    ("YTD Tax", opt_float (SummaryRecord.ytd_tax s));
    ("YTD Nett Pay", opt_float (SummaryRecord.ytd_nett_pay s));
    ("Disbursement Amount", opt_float (SummaryRecord.disbursement_amount s)) ].

(* ====================================================================== *)
(** ** datetime.strptime and strftime for the two formats in use

    [strptime(s, '%d%b%y')] compiles the format to the pattern
    [(?P<d>3[0-1]|[1-2]\d|0[1-9]|[1-9]| [1-9])(?P<b>jan|...|dec)(?P<y>\d\d)]
    with IGNORECASE (month names of the C locale), matches it at offset 0,
    rejects unconverted trailing data, maps the two-digit year to
    1969..2068 and builds a date, which rejects a day the month lacks. *)
(* ====================================================================== *)

Definition in_range (lo hi : N) (c : ascii) : bool :=
  ((lo <=? code c) && (code c <=? hi))%N.

Definition a_month : list string :=
  ["jan"; "feb"; "mar"; "apr"; "may"; "jun";
   "jul"; "aug"; "sep"; "oct"; "nov"; "dec"].

Definition day_regex : regex :=
  Alt (Cls (in_range 51 51) ~~ Cls (in_range 48 49))
 (Alt (Cls (in_range 49 50) ~~ Cls is_digit)
 (Alt (Cls (in_range 48 48) ~~ Cls (in_range 49 57))
 (Alt (Cls (in_range 49 57))
      (Cls (in_range 32 32) ~~ Cls (in_range 49 57))))).

Definition month_regex : regex :=
  Alt (LitI "jan") (Alt (LitI "feb") (Alt (LitI "mar") (Alt (LitI "apr")
 (Alt (LitI "may") (Alt (LitI "jun") (Alt (LitI "jul") (Alt (LitI "aug")
 (Alt (LitI "sep") (Alt (LitI "oct") (Alt (LitI "nov") (LitI "dec"))))))))))).

Definition year_regex : regex := Cls is_digit ~~ Cls is_digit.

Definition REFERENCE_DATE_REGEX : regex :=
  Group day_regex ~~ Group month_regex ~~ Group year_regex.

Fixpoint lower_string (s : string) : string :=
  match s with
  | "" => ""
  | String c s' => String (lower c) (lower_string s')
  end.

(** [a_month.index(name)], counted from 1 as [locale_time.a_month] is. *)
Fixpoint month_index (name : string) (names : list string) (i : nat) : nat :=
  match names with
  | [] => 0
  | m :: ms => if String.eqb m name then i else month_index name ms (S i)
  end.

Definition is_leap (y : nat) : bool :=
  (y mod 4 =? 0)%nat && (negb (y mod 100 =? 0)%nat || (y mod 400 =? 0)%nat).

Definition days_in_month (y m : nat) : nat :=
  match m with
  | 2 => if is_leap y then 29 else 28
  | 4 | 6 | 9 | 11 => 30
  | _ => 31
  end.

Record date : Type := Date { year : nat; month : nat; day : nat }.

Definition strptime (data_string : string) : result date :=
  match re_match REFERENCE_DATE_REGEX data_string with
  | None => ValueError
  | Some found =>
      if negb (Nat.eqb (String.length data_string) (mend found)) then ValueError
      else
        let d := int (group found 1) in
        let m := month_index (lower_string (group found 2)) a_month 1 in
        let y := int (group found 3) in
        let y := if (y <=? 68)%nat then y + 2000 else y + 1900 in
        if ((1 <=? d) && (d <=? days_in_month y m))%nat then Ok (Date y m d)
        else ValueError
  end.

(** [strftime('%Y-%m-%d')]. *)
Definition strftime (d : date) : string :=
  pad4 (year d) ++ "-" ++ pad2 (month d) ++ "-" ++ pad2 (day d).

Module DateParser.

Definition parse_reference_date (ref_date : string) : string :=
  match strptime ref_date with
  | Ok date_obj => strftime date_obj
  | ValueError => ref_date
  end.

End DateParser.

(* ====================================================================== *)
(** ** Text parsers *)
(* ====================================================================== *)

Module PayPeriodParser.

Fixpoint extract (lines : list string) : PayPeriodInfo.t :=
  match lines with
  | [] => PayPeriodInfo.Make None None
  | line :: lines' =>
      if contains "Pay Period" line && contains "Paid" line then
        match re_search PatternConfig.PAY_PERIOD_PATTERN line with
        | Some m =>
            let period := group m 1 ++ " to " ++ group m 2 in
            let paid_date := group m 3 in
            PayPeriodInfo.Make (Some period) (Some paid_date)
        | None => extract lines'
        end
      else extract lines'
  end.

End PayPeriodParser.

(** What one pass through a loop body does to the loop. *)
Inductive ctl (S : Type) : Type :=
| Next (s : S)        (* fall off the end of the body, or [continue] *)
| Break (s : S)       (* [break] *)
| Raise.              (* an exception leaves the loop *)
Arguments Next {S} s.
Arguments Break {S} s.
Arguments Raise {S}.

(** [enumerate(xs)]. *)
Definition enumerate {A : Type} (xs : list A) : list (nat * A) :=
  combine (seq 0 (List.length xs)) xs.

(** [for i, x in items: body]. *)
Fixpoint for_loop {A S : Type} (body : nat -> A -> S -> ctl S)
         (items : list (nat * A)) (s : S) : ctl S :=
  match items with
  | [] => Next s
  | (i, x) :: items' =>
      match body i x s with
      | Next s' => for_loop body items' s'
      | Break s' => Break s'
      | Raise => Raise
      end
  end.

Module PaymentParser.

(** The loop state: [in_payments_section] and [payments]. *)
Definition state : Type := (bool * list PaymentRecord.t)%type.

Definition is_end_marker (line : string) : bool :=
  startswith "Deductions" (strip line) || startswith "Benefits" (strip line).

Definition body (lines : list string) (pdf_filename : string) (page_num : Z)
           (pay_period_info : PayPeriodInfo.t)
           (i : nat) (line : string) (st : state) : ctl state :=
  let '(in_payments_section, payments) := st in
  let has_hours :=
    contains "Hours" line ||
    match nth_error lines (i + 1) with
    | Some next_line => contains "Hours" next_line
    | None => false
    end in
  if startswith "Payments" (strip line) && has_hours then
    Next (true, payments)
  else if in_payments_section then
    if is_end_marker line then Break (in_payments_section, payments)
    else
      match re_match PatternConfig.PAYMENT_PATTERN line with
      | Some m =>
          match
            (let! hours := float (group m 1) in
             let! rate := float (group m 2) in
             let reference_date := group m 3 in
             let! amount := float (group m 4) in
             Ok (PaymentRecord.Make
                   pdf_filename page_num
                   (PayPeriodInfo.period pay_period_info)
                   (PayPeriodInfo.paid_date pay_period_info)
                   (DateParser.parse_reference_date reference_date)
                   hours rate amount))
          with
          | Ok payment => Next (in_payments_section, (payments ++ [payment])%list)
          | ValueError => Raise
          end
      | None => Next (in_payments_section, payments)
      end
  else Next (in_payments_section, payments).

Definition extract (lines : list string) (pdf_filename : string) (page_num : Z)
           (pay_period_info : PayPeriodInfo.t) : result (list PaymentRecord.t) :=
  match for_loop (body lines pdf_filename page_num pay_period_info)
                 (enumerate lines) (false, []) with
  | Next (_, payments) | Break (_, payments) => Ok payments
  | Raise => ValueError
  end.

End PaymentParser.

Module SummaryParser.

Definition step (line : string) (summary : SummaryRecord.t) : result SummaryRecord.t :=
  let line_stripped := strip line in
  if startswith "Gross Pay" line_stripped then
    match re_search PatternConfig.GROSS_PAY_PATTERN line with
    | Some m =>
        let! g := float (group m 1) in
        let! y := float (group m 2) in
        Ok (SummaryRecord.set_gross g y summary)
    | None => Ok summary
    end
  else if startswith "Tax" line_stripped && negb (startswith "Tax" line) then
    match re_search PatternConfig.TAX_PATTERN line with
    | Some m =>
        let! x := float (group m 1) in
        let! y := float (group m 2) in
        Ok (SummaryRecord.set_tax x y summary)
    | None => Ok summary
    end
  else if startswith "Nett Pay" line_stripped then
    match re_search PatternConfig.NETT_PAY_PATTERN line with
    | Some m =>
        let! n := float (group m 1) in
        let! y := float (group m 2) in
        Ok (SummaryRecord.set_nett n y summary)
    | None => Ok summary
    end
  else if contains "Commonwealth Bank of Australia" line then
    match re_search PatternConfig.DISBURSEMENT_PATTERN line with
    | Some m =>
        let! a := float (group m 1) in
        Ok (SummaryRecord.set_disbursement a summary)
    | None => Ok summary
    end
  else Ok summary.

Fixpoint loop (lines : list string) (summary : SummaryRecord.t) : result SummaryRecord.t :=
  match lines with
  | [] => Ok summary
  | line :: lines' =>
      let! summary' := step line summary in
      loop lines' summary'
  end.

Definition init (pdf_filename : string) (page_num : Z)
           (pay_period_info : PayPeriodInfo.t) : SummaryRecord.t :=
  SummaryRecord.Make pdf_filename page_num
    (PayPeriodInfo.period pay_period_info)
    (PayPeriodInfo.paid_date pay_period_info)
    None None None None None None None.

Definition extract (lines : list string) (pdf_filename : string) (page_num : Z)
           (pay_period_info : PayPeriodInfo.t) : result SummaryRecord.t :=
  loop lines (init pdf_filename page_num pay_period_info).

End SummaryParser.

(* ====================================================================== *)
(** ** PDF processor

    [pdfplumber] is outside the program: a document is the list of what
    [page.extract_text()] returns for its pages, [None] or a string. *)
(* ====================================================================== *)

Module PDFProcessor.

Record t : Type := Make {
  pdf_path : string;
  pdf_filename : string;
  payments : list PaymentRecord.t;
  summaries : list SummaryRecord.t
}.

(** [__init__]; [file_name] is [Path(pdf_path).name], used when no file
    name is passed. *)
Definition init (pdf_path : string) (pdf_filename : option string)
           (file_name : string) : t :=
  Make pdf_path
       (match pdf_filename with
        | Some n => if String.eqb n "" then file_name else n
        | None => file_name
        end)
       [] [].

Definition _process_page (self : t) (text : string) (page_num : Z) : result t :=
  let lines := split_lines text in
  let pay_period_info := PayPeriodParser.extract lines in
  let! payments :=
    PaymentParser.extract lines (pdf_filename self) page_num pay_period_info in
  let self := Make (pdf_path self) (pdf_filename self)
                   (PDFProcessor.payments self ++ payments)%list (summaries self) in
  let! summary :=
    SummaryParser.extract lines (pdf_filename self) page_num pay_period_info in
  Ok (Make (pdf_path self) (pdf_filename self)
           (PDFProcessor.payments self) (summaries self ++ [summary])%list).

(** The truth value of [text]. *)
Definition truthy (text : option string) : option string :=
  match text with
  | Some "" => None
  | t => t
  end.

Fixpoint process_pages (self : t) (pages : list (option string)) (page_num : Z)
  : result t :=
  match pages with
  | [] => Ok self
  | text :: pages' =>
      match truthy text with
      | Some text =>
          let! self' := _process_page self text page_num in
          process_pages self' pages' (page_num + 1)
      | None => process_pages self pages' (page_num + 1)
      end
  end.

Definition process (self : t) (pages : list (option string))
  : result (t * (list PaymentRecord.t * list SummaryRecord.t)) :=
  let! self' := process_pages self pages 1 in
  Ok (self', (payments self', summaries self')).

End PDFProcessor.

(* ====================================================================== *)
(** ** Export and the collection driver

    The console and the file system are the program's only outputs.  A
    run threads a [World]: the messages printed so far and the workbooks
    written so far.  A [DataFrame] is its list of rows; [pd.DataFrame()]
    is the frame without rows, and [df.empty] asks whether there is none. *)
(* ====================================================================== *)

Definition DataFrame : Type := list row.

Definition df_empty (df : DataFrame) : bool :=
  match df with [] => true | _ => false end.

(** One constructor per [print] call of the source. *)
Inductive message : Type :=
| MsgNoPdfFound                          (* process_all_pdfs, no input *)
| MsgFound (n : nat)                     (* number of PDF files found *)
| MsgProcessing (name : string)
| MsgPaymentCount (n : nat)
| MsgSummaryCount (n : nat)
| MsgNoData                              (* process_all_pdfs, no payment *)
| MsgSaved (output_file : string)
| MsgSavedPayments (n : nat)
| MsgSavedSummaries (n : nat)
| MsgStatisticsHeader
| MsgTotalHours (q : Q)
| MsgTotalGross (q : Q)
| MsgTotalTax (q : Q)
| MsgTotalNett (q : Q)
| MsgSampleHeader (n : nat)
| MsgSampleRows (rows : DataFrame).

Record World : Type := MkWorld {
  console : list message;
  files : list (string * (DataFrame * DataFrame))
}.

Definition print (m : message) (w : World) : World :=
  MkWorld (console w ++ [m])%list (files w).

(** A file found by the glob: its path, its name, and the text of its
    pages as [pdfplumber] extracts it. *)
Record pdf_file : Type := PdfFile {
  path : string;
  name : string;
  pages : list (option string)
}.

Module DataExporter.

Definition to_dataframes (payments : list PaymentRecord.t)
           (summaries : list SummaryRecord.t) : DataFrame * DataFrame :=
  (map payment_to_dict payments, map summary_to_dict summaries).

Definition save_to_excel (payments_df summaries_df : DataFrame)
           (output_file : string) (w : World) : World :=
  MkWorld (console w) (files w ++ [(output_file, (payments_df, summaries_df))])%list.

Fixpoint lookup_column (col : string) (r : row) : cell :=
  match r with
  | [] => CNone
  | (k, v) :: r' => if String.eqb k col then v else lookup_column col r'
  end.

(** [df[col].sum()]: missing values are skipped. *)
Definition column_sum (col : string) (df : DataFrame) : Q :=
  fold_left (fun acc r =>
               match lookup_column col r with
               | CFloat q => Qred (acc + q)
               | _ => acc
               end) df 0%Q.

Definition print_statistics (payments_df summaries_df : DataFrame) (w : World) : World :=
  let w := print MsgStatisticsHeader w in
  let w := print (MsgTotalHours (column_sum "Hours" payments_df)) w in
  let w := print (MsgTotalGross (column_sum "Gross Pay" summaries_df)) w in
  let w := print (MsgTotalTax (column_sum "Tax" summaries_df)) w in
  print (MsgTotalNett (column_sum "Nett Pay" summaries_df)) w.

Definition print_sample_data (payments_df : DataFrame) (n : nat) (w : World) : World :=
  let w := print (MsgSampleHeader n) w in
  print (MsgSampleRows (firstn n payments_df)) w.

End DataExporter.

Module PayslipProcessor.

Record t : Type := Make {
  all_payments : list PaymentRecord.t;
  all_summaries : list SummaryRecord.t
}.

Definition init : t := Make [] [].

Definition _process_single_pdf (self : t) (f : pdf_file) (w : World)
  : result t * World :=
  let w := print (MsgProcessing (name f)) w in
  let processor := PDFProcessor.init (path f) (Some (name f)) (name f) in
  match PDFProcessor.process processor (pages f) with
  | ValueError => (ValueError, w)
  | Ok (_, (payments, summaries)) =>
      let self := Make (all_payments self ++ payments)%list
                       (all_summaries self ++ summaries)%list in
      let w := print (MsgPaymentCount (List.length payments)) w in
      let w := print (MsgSummaryCount (List.length summaries)) w in
      (Ok self, w)
  end.

Fixpoint process_each (self : t) (pdf_files : list pdf_file) (w : World)
  : result t * World :=
  match pdf_files with
  | [] => (Ok self, w)
  | f :: fs =>
      match _process_single_pdf self f w with
      | (Ok self', w') => process_each self' fs w'
      | (ValueError, w') => (ValueError, w')
      end
  end.

(** [pdf_files] is what [find_pdf_files] returns. *)
Definition process_all_pdfs (self : t) (pdf_files : list pdf_file) (w : World)
  : result (t * (DataFrame * DataFrame)) * World :=
  match pdf_files with
  | [] =>
      let w := print MsgNoPdfFound w in
      (Ok (self, ([], [])), w)
  | _ =>
      let w := print (MsgFound (List.length pdf_files)) w in
      match process_each self pdf_files w with
      | (ValueError, w') => (ValueError, w')
      | (Ok self', w') =>
          match all_payments self' with
          | _ :: _ =>
              (Ok (self', DataExporter.to_dataframes
                            (all_payments self') (all_summaries self')), w')
          | [] =>
              let w' := print MsgNoData w' in
              (Ok (self', ([], [])), w')
          end
      end
  end.

End PayslipProcessor.

(** [main()], given what the glob finds.  The value is [None] when the
    function falls off its end. *)
Definition main (pdf_files : list pdf_file) (w : World)
  : result (option (DataFrame * DataFrame)) * World :=
  let processor := PayslipProcessor.init in
  match PayslipProcessor.process_all_pdfs processor pdf_files w with
  | (ValueError, w') => (ValueError, w')
  | (Ok (_, (payments_df, summaries_df)), w') =>
      if negb (df_empty payments_df) then
        let output_file := "payslip_details.xlsx" in
        let w' := DataExporter.save_to_excel payments_df summaries_df output_file w' in
        let w' := print (MsgSaved output_file) w' in
        let w' := print (MsgSavedPayments (List.length payments_df)) w' in
        let w' := print (MsgSavedSummaries (List.length summaries_df)) w' in
        let w' := DataExporter.print_statistics payments_df summaries_df w' in
        let w' := DataExporter.print_sample_data payments_df 10 w' in
        (Ok (Some (payments_df, summaries_df)), w')
      else (Ok None, w')
  end.

(* ====================================================================== *)
(** ** PaymentParser.extract over a store of Python objects

    The arguments [lines] and [pay_period_info] are references to objects
    the caller owns.  This second rendering of [PaymentParser.extract]
    runs over a store: it allocates the [payments] list, reads [lines]
    and [pay_period_info] through their references at each pass, and its
    only write is [payments.append]. *)
(* ====================================================================== *)

Module Store.

Definition loc : Type := nat.

Inductive obj : Type :=
| OLines (lines : list string)
| OInfo (info : PayPeriodInfo.t)
| OPayments (payments : list PaymentRecord.t).

Inductive outcome : Type :=
| Returned (r : loc)      (* the reference the call returns *)
| Raised                  (* ValueError *)
| Stuck.                  (* an argument is not of the declared type *)

(** One pass of the loop: [None] when the iterator is exhausted or the
    loop is left, with the outcome reached. *)
Definition pass (lines_ref info_ref payments_ref : loc)
           (pdf_filename : string) (page_num : Z)
           (i : nat) (in_payments_section : bool) (σ : gmap loc obj)
  : (bool * gmap loc obj) + (outcome * gmap loc obj) :=
  match σ !! lines_ref, σ !! info_ref, σ !! payments_ref with
  | Some (OLines lines), Some (OInfo info), Some (OPayments payments) =>
      match nth_error lines i with
      | None => inr (Returned payments_ref, σ)
      | Some line =>
          match PaymentParser.body lines pdf_filename page_num info i line
                                   (in_payments_section, payments) with
          | Next (b, payments') =>
              inl (b, <[payments_ref := OPayments payments']> σ)
          | Break _ => inr (Returned payments_ref, σ)
          | Raise => inr (Raised, σ)
          end
      end
  | _, _, _ => inr (Stuck, σ)
  end.

Fixpoint loop (n : nat) (lines_ref info_ref payments_ref : loc)
         (pdf_filename : string) (page_num : Z)
         (i : nat) (in_payments_section : bool) (σ : gmap loc obj)
  : outcome * gmap loc obj :=
  match n with
  | O => (Returned payments_ref, σ)
  | S n' =>
      match pass lines_ref info_ref payments_ref pdf_filename page_num
                 i in_payments_section σ with
      | inl (b, σ') =>
          loop n' lines_ref info_ref payments_ref pdf_filename page_num (S i) b σ'
      | inr r => r
      end
  end.

(** The call: the loop runs once per element of [lines] as it is at
    entry. *)
Definition extract (lines_ref : loc) (pdf_filename : string) (page_num : Z)
           (info_ref : loc) (σ : gmap loc obj) : outcome * gmap loc obj :=
  match σ !! lines_ref with
  | Some (OLines lines) =>
      let payments_ref := fresh (dom σ) in
      let σ := <[payments_ref := OPayments []]> σ in
      loop (List.length lines) lines_ref info_ref payments_ref
           pdf_filename page_num 0 false σ
  | _ => (Stuck, σ)
  end.

End Store.

(* ====================================================================== *)
(** * Vocabulary of the properties

    Predicates and example data the statements below are written with. *)
(* ====================================================================== *)

Fixpoint all_chars (p : ascii -> bool) (s : string) : bool :=
  match s with
  | "" => true
  | String c s' => p c && all_chars p s'
  end.

(** [sem r w cs]: the pattern [r] can consume exactly [w], closing the
    groups [cs]. *)
Fixpoint sem (r : regex) (w : string) (cs : list string) : Prop :=
  match r with
  | Lit s => w = s /\ cs = []
  | LitI s => lower_string w = s /\ cs = []
  | Cls p => (exists c, w = String c "" /\ p c = true) /\ cs = []
  | Plus p | PlusLazy p => w <> "" /\ all_chars p w = true /\ cs = []
  | Seq r1 r2 =>
      exists w1 w2 c1 c2,
        w = w1 ++ w2 /\ cs = (c1 ++ c2)%list /\ sem r1 w1 c1 /\ sem r2 w2 c2
  | Alt r1 r2 => sem r1 w cs \/ sem r2 w cs
  | Group r' => exists c, sem r' w c /\ cs = (c ++ [w])%list
  | Bol | Eol => w = "" /\ cs = []
  end.

(** [stops p tl]: the text [tl] does not go on with a character of the
    class [p]. *)
Definition stops (p : ascii -> bool) (tl : string) : bool :=
  match tl with
  | "" => true
  | String c _ => negb (p c)
  end.

(** The state of the loop of [PaymentParser.extract] when it reaches
    line [k]: the loop run over the first [k] lines, from the initial
    state. *)
Definition scan_prefix (k : nat) (lines : list string) (pdf_filename : string)
           (page_num : Z) (pay_period_info : PayPeriodInfo.t)
  : ctl PaymentParser.state :=
  for_loop (PaymentParser.body lines pdf_filename page_num pay_period_info)
           (firstn k (enumerate lines)) (false, []).

(** The store during the loop of [Store.extract]: the caller's store
    [σ0] with the [payments] list added. *)
Definition during (payments_ref : Store.loc) (σ0 : gmap Store.loc Store.obj)
           (acc : list PaymentRecord.t) : gmap Store.loc Store.obj :=
  <[payments_ref := Store.OPayments acc]> σ0.

Definition nonneg_amounts (r : PaymentRecord.t) : Prop :=
  (0 <= PaymentRecord.hours r)%Q /\ (0 <= PaymentRecord.rate r)%Q
  /\ (0 <= PaymentRecord.amount r)%Q.

(** A page used as a running example: a section header, one ordinary-pay
    line, the end marker, and a payment-shaped line after it. *)
Definition example_info : PayPeriodInfo.t :=
  PayPeriodInfo.Make (Some "01/07/2024 to 14/07/2024") (Some "18/07/2024").

Definition example_payment_line : string :=
  "CAS OrdPay (incCASloading) 7.6 45.50 01Jul24 345.80".

Definition example_lines : list string :=
  [ "Payments Hours Rate Reference Amount";
    example_payment_line;
    "Deductions";
    "CAS OrdPay (incCASloading) 1.0 45.50 02Jul24 45.50" ].

Definition example_payment (f : string) (p : Z) (info : PayPeriodInfo.t)
  : PaymentRecord.t :=
  PaymentRecord.Make f p (PayPeriodInfo.period info) (PayPeriodInfo.paid_date info)
                     "2024-07-01" (Qred 7.6) (Qred 45.50) (Qred 345.80).

(** The header of a Payments section: a line that starts with "Payments"
    and holds "Hours", or one whose next line holds "Hours" and is
    neither an end marker nor a payment line. *)
Definition payments_header (header : list string) : bool :=
  match header with
  | [h] => startswith "Payments" (strip h) && contains "Hours" h
  | [h; n] =>
      startswith "Payments" (strip h) && contains "Hours" n
      && negb (PaymentParser.is_end_marker n)
      && match re_match PatternConfig.PAYMENT_PATTERN n with
         | Some _ => false
         | None => true
         end
  | _ => false
  end.

(** What the loop body finds on one line: the match, when the line holds
    both markers and the pattern matches it. *)
Definition pay_period_match (line : string) : option rmatch :=
  if contains "Pay Period" line && contains "Paid" line
  then re_search PatternConfig.PAY_PERIOD_PATTERN line
  else None.

(** A line that sets the gross pay fields: its trimmed form starts with
    "Gross Pay" and the pattern matches it. *)
Definition gross_pay_match (line : string) : option rmatch :=
  if startswith "Gross Pay" (strip line)
  then re_search PatternConfig.GROSS_PAY_PATTERN line
  else None.

Definition summary_label (line : string) : bool :=
  startswith "Gross Pay" (strip line) || startswith "Tax" (strip line)
  || startswith "Nett Pay" (strip line)
  || contains "Commonwealth Bank of Australia" line.

(** The first page of the two-page example document. *)
Definition example_page1 : string :=
  "Pay Period 01/07/2024 to 14/07/2024 Paid 18/07/2024
Payments Hours Rate Reference Amount
CAS OrdPay (incCASloading) 7.6 45.50 01Jul24 345.80
Deductions
Gross Pay 1200.00 24000.00
Nett Pay 1100.00 22000.00
Commonwealth Bank of Australia 12345678 1100.00".

Definition example_summary1 (f : string) : SummaryRecord.t :=
  SummaryRecord.Make f 1
    (Some "01/07/2024 to 14/07/2024") (Some "18/07/2024")
    (Some (Qred 1200.00)) None (Some (Qred 1100.00))
    (Some (Qred 24000.00)) None (Some (Qred 22000.00))
    (Some (Qred 1100.00)).

Definition example_store : gmap Store.loc Store.obj :=
  <[0 := Store.OLines example_lines]> (<[1 := Store.OInfo example_info]> ∅).

(** The month abbreviations as the locale writes them. *)
Definition month_abbr : list string :=
  ["Jan"; "Feb"; "Mar"; "Apr"; "May"; "Jun";
   "Jul"; "Aug"; "Sep"; "Oct"; "Nov"; "Dec"].

(** The year a two-digit year stands for. *)
Definition century (yy : nat) : nat :=
  if (yy <=? 68)%nat then 2000 + yy else 1900 + yy.

(** The compact token [DDMonYY] of a date, and its ISO rendering. *)
Definition compact_token (d m yy : nat) : string :=
  pad2 d ++ nth (m - 1) month_abbr "" ++ pad2 yy.

Definition short_token (d m yy : nat) : string :=
  String (digit_char d) (nth (m - 1) month_abbr "" ++ pad2 yy).

Definition iso (y m d : nat) : string :=
  pad4 y ++ "-" ++ pad2 m ++ "-" ++ pad2 d.

Definition is_month_abbr (a b c : ascii) : bool :=
  existsb (String.eqb (lower_string (String a (String b (String c ""))))) a_month.

(** The compact format as the specification describes it: a two-digit
    day, a three-letter month abbreviation, a two-digit year. *)
Definition is_compact_format (tok : string) : bool :=
  match tok with
  | String d1 (String d2 (String a (String b (String c (String y1 (String y2 "")))))) =>
      is_digit d1 && is_digit d2 && is_month_abbr a b c && is_digit y1 && is_digit y2
  | _ => false
  end.

(** The format [strptime] accepts: the day may also be one digit, or a
    space and a digit. *)
Definition is_lenient_format (tok : string) : bool :=
  match tok with
  | String d (String a (String b (String c (String y1 (String y2 ""))))) =>
      is_digit d && is_month_abbr a b c && is_digit y1 && is_digit y2
  | String d1 (String d2 (String a (String b (String c (String y1 (String y2 "")))))) =>
      (is_digit d1 || (code d1 =? 32)%N) && is_digit d2
      && is_month_abbr a b c && is_digit y1 && is_digit y2
  | _ => false
  end.

(** An amount that is unset or not negative. *)
Definition nonneg_opt (o : option Q) : Prop :=
  match o with
  | Some q => (0 <= q)%Q
  | None => True
  end.

Definition summary_amounts_nonneg (s : SummaryRecord.t) : Prop :=
  nonneg_opt (SummaryRecord.gross_pay s) /\ nonneg_opt (SummaryRecord.tax s)
  /\ nonneg_opt (SummaryRecord.nett_pay s)
  /\ nonneg_opt (SummaryRecord.ytd_gross_pay s)
  /\ nonneg_opt (SummaryRecord.ytd_tax s)
  /\ nonneg_opt (SummaryRecord.ytd_nett_pay s)
  /\ nonneg_opt (SummaryRecord.disbursement_amount s).

(** The line is taken by one of the three label branches of
    [SummaryParser.extract], which come before the bank branch. *)
Definition starts_with_label (line : string) : bool :=
  startswith "Gross Pay" (strip line)
  || startswith "Tax" (strip line) && negb (startswith "Tax" line)
  || startswith "Nett Pay" (strip line).

(** A page with all four kinds of summary line; the Tax line is indented
    and the second line carries two labels. *)
Definition example_summary_lines : list string :=
  [ "Gross Pay 1200.00 24000.00";
    "Nett Pay 1100.00 22000.00 Commonwealth Bank of Australia 1 9.99";
    "  Tax 100.00 2000.00";
    "Commonwealth Bank of Australia 12345678 1100.00" ].

Definition example_summary (f : string) (p : Z) : SummaryRecord.t :=
  SummaryRecord.Make f p
    (Some "01/07/2024 to 14/07/2024") (Some "18/07/2024")
    (Some (Qred 1200.00)) None (Some (Qred 1100.00))
    (Some (Qred 24000.00)) None (Some (Qred 22000.00))
    (Some (Qred 1100.00)).

Ltac open_sem H :=
  simpl in H;
  repeat match goal with
         | H : exists _, _ |- _ => destruct H
         | H : _ /\ _ |- _ => destruct H
         end;
  subst.

(** A non-empty run of characters of one class. *)
Definition token (p : ascii -> bool) (s : string) : bool :=
  all_chars p s && negb (String.eqb s "").

(** An ordinary-pay line as printed: the label, then hours, rate,
    reference date and amount, separated by white space, then text that
    does not go on with the amount. *)
Definition payment_line (sp1 h sp2 r sp3 d sp4 a tl : string) : string :=
  "CAS OrdPay (incCASloading)" ++ sp1 ++ h ++ sp2 ++ r ++ sp3 ++ d ++ sp4 ++ a ++ tl.

Definition payment_line_ok (sp1 h sp2 r sp3 d sp4 a tl : string) : bool :=
  token is_space sp1 && token is_digit_or_dot h
  && token is_space sp2 && token is_digit_or_dot r
  && token is_space sp3 && token is_word d
  && token is_space sp4 && token is_digit_or_dot a
  && stops is_digit_or_dot tl.

(** The record a printed ordinary-pay line stands for in a call. *)
Definition line_record (f : string) (p : Z) (info : PayPeriodInfo.t)
           (line : string) (rec : PaymentRecord.t) : Prop :=
  exists sp1 h sp2 r sp3 d sp4 a tl hours rate amount,
    line = payment_line sp1 h sp2 r sp3 d sp4 a tl
    /\ payment_line_ok sp1 h sp2 r sp3 d sp4 a tl = true
    /\ float h = Ok hours /\ float r = Ok rate /\ float a = Ok amount
    /\ rec = PaymentRecord.Make f p (PayPeriodInfo.period info)
               (PayPeriodInfo.paid_date info)
               (DateParser.parse_reference_date d) hours rate amount.

(** The fields every record of one call shares. *)
Definition payment_of_call (f : string) (p : Z) (info : PayPeriodInfo.t)
           (r : PaymentRecord.t) : Prop :=
  PaymentRecord.pdf_file r = f /\ PaymentRecord.page r = p
  /\ PaymentRecord.pay_period r = PayPeriodInfo.period info
  /\ PaymentRecord.paid_date r = PayPeriodInfo.paid_date info.

(** The numbers, counted from [n], of the pages that have text. *)
Fixpoint text_pages (pages : list (option string)) (n : Z) : list Z :=
  match pages with
  | [] => []
  | text :: pages' =>
      match PDFProcessor.truthy text with
      | Some _ => n :: text_pages pages' (n + 1)
      | None => text_pages pages' (n + 1)
      end
  end.

(** A summary that [SummaryParser.extract] returned for the file [f], and
    a payment that [PaymentParser.extract] returned for the file [f] on
    one of the pages [pgs]. *)
Definition summary_of_file (f : string) (s : SummaryRecord.t) : Prop :=
  exists lines info,
    SummaryParser.extract lines f (SummaryRecord.page s) info = Ok s.

Definition payment_of_file (f : string) (pgs : list Z) (r : PaymentRecord.t) : Prop :=
  exists lines info payments,
    PaymentParser.extract lines f (PaymentRecord.page r) info = Ok payments
    /\ In r payments /\ In (PaymentRecord.page r) pgs.

(** What processing one found file yields. *)
Definition document_result (f : pdf_file)
  : result (PDFProcessor.t * (list PaymentRecord.t * list SummaryRecord.t)) :=
  PDFProcessor.process (PDFProcessor.init (path f) (Some (name f)) (name f)) (pages f).

Definition document_payments (f : pdf_file) : list PaymentRecord.t :=
  match document_result f with
  | Ok (_, (payments, _)) => payments
  | ValueError => []
  end.

Definition document_summaries (f : pdf_file) : list SummaryRecord.t :=
  match document_result f with
  | Ok (_, (_, summaries)) => summaries
  | ValueError => []
  end.

Definition document_raises (f : pdf_file) : bool :=
  match document_result f with
  | Ok _ => false
  | ValueError => true
  end.

(** A three-page document: the example page, a page without text, a page
    with summary figures only. *)
Definition example_pages : list (option string) :=
  [ Some example_page1; Some ""; Some "Gross Pay 10.00 20.00
 Tax 1.00 2.00" ].

Definition example_pdf : pdf_file := PdfFile "data/a.pdf" "a.pdf" example_pages.

(** Documents with summary figures and no payment line, and one whose
    payment line holds a number that cannot be read. *)
Definition summary_only_pdf : pdf_file :=
  PdfFile "data/b.pdf" "b.pdf" [Some "Gross Pay 10.00 20.00"].

Definition broken_pdf : pdf_file :=
  PdfFile "data/c.pdf" "c.pdf"
    [Some "Payments Hours
CAS OrdPay (incCASloading) 7.6 45.5.0 01Jul24 345.80"].

(** What the driver prints for one file: its name, then the two counts
    unless processing it raises. *)
Definition document_messages (f : pdf_file) : list message :=
  match document_result f with
  | Ok (_, (payments, summaries)) =>
      [ MsgProcessing (name f); MsgPaymentCount (List.length payments);
        MsgSummaryCount (List.length summaries) ]
  | ValueError => [ MsgProcessing (name f) ]
  end.

(** The files the driver gets to: all of them, or those up to the first
    whose processing raises. *)
Fixpoint reached (pdf_files : list pdf_file) : list pdf_file :=
  match pdf_files with
  | [] => []
  | f :: fs => f :: (if document_raises f then [] else reached fs)
  end.

(** The Tax and YTD Tax cells of an exported summary row are empty. *)
Definition tax_cells_empty (r : row) : Prop :=
  DataExporter.lookup_column "Tax" r = CNone
  /\ DataExporter.lookup_column "YTD Tax" r = CNone.

(** The pattern ends with [$]. *)
Fixpoint ends_in_eol (r : regex) : bool :=
  match r with
  | Eol => true
  | Seq _ r2 => ends_in_eol r2
  | _ => false
  end.

(** A line that sets the disbursement amount: no label branch takes it,
    it holds the bank name, and the pattern matches it. *)
Definition disbursement_match (line : string) : option rmatch :=
  if starts_with_label line then None
  else if contains "Commonwealth Bank of Australia" line
       then re_search PatternConfig.DISBURSEMENT_PATTERN line
       else None.

(** A bank line as printed: the bank name, an account number, an amount. *)
Definition bank_line (sp1 account sp2 amount tl : string) : string :=
  "Commonwealth Bank of Australia" ++ sp1 ++ account ++ sp2 ++ amount ++ tl.

Definition bank_line_ok (sp1 account sp2 amount tl : string) : bool :=
  token is_space sp1 && token is_digit account
  && token is_space sp2 && token is_digit_or_dot amount
  && stops is_digit_or_dot tl.

(** [text.split('\n')] undone: the pieces joined by line feeds. *)
Fixpoint join_lines (lines : list string) : string :=
  match lines with
  | [] => ""
  | [l] => l
  | l :: ls => l ++ newline ++ join_lines ls
  end.

Ltac forall_cases tac :=
  repeat first [ apply List.Forall_nil | apply List.Forall_cons | tac ].

(* ====================================================================== *)
(** * Properties *)
(* ====================================================================== *)


(** ** Strings *)

Lemma append_empty_r (s : string) : s ++ "" = s.
Proof. induction s as [|c s IH]; simpl; [reflexivity | now rewrite IH]. Qed.

Lemma append_assoc (a b c : string) : (a ++ b) ++ c = a ++ b ++ c.
Proof. induction a as [|x a IH]; simpl; [reflexivity | now rewrite IH]. Qed.

Lemma length_append (a b : string) :
  String.length (a ++ b) = String.length a + String.length b.
Proof. induction a as [|x a IH]; simpl; [reflexivity | now rewrite IH]. Qed.

Lemma startswith_append (p s : string) : startswith p (p ++ s) = true.
Proof.
  induction p as [|a p IH]; simpl; [reflexivity |].
  now rewrite Ascii.eqb_refl.
Qed.

Lemma startswith_split (p s : string) :
  startswith p s = true -> s = p ++ str_from (String.length p) s.
Proof.
  revert s; induction p as [|a p IH]; intros s H; simpl in *; [reflexivity |].
  destruct s as [|b s]; [discriminate |].
  destruct (Ascii.eqb a b) eqn:E; [| discriminate].
  apply Ascii.eqb_eq in E; subst b. f_equal. now apply IH.
Qed.

Lemma startswith_i_split (p s : string) :
  startswith_i p s = true ->
  exists w, s = w ++ str_from (String.length p) s
         /\ String.length w = String.length p /\ lower_string w = p.
Proof.
  revert s; induction p as [|a p IH]; intros s H; simpl in *.
  - exists ""; auto.
  - destruct s as [|b s]; [discriminate |].
    destruct (Ascii.eqb a (lower b)) eqn:E; [| discriminate].
    apply Ascii.eqb_eq in E. destruct (IH _ H) as (w & Hs & Hl & Hw).
    exists (String b w); simpl. rewrite <- Hs, Hl, Hw, E. auto.
Qed.

Lemma str_upto_append (w x : string) : str_upto (String.length w) (w ++ x) = w.
Proof. induction w as [|c w IH]; simpl; [reflexivity | now rewrite IH]. Qed.

Lemma str_from_append (w x : string) : str_from (String.length w) (w ++ x) = x.
Proof. induction w as [|c w IH]; simpl; [reflexivity | exact IH]. Qed.

(** Two prefixes that differ at some position exclude each other. *)
Lemma startswith_trans (p q s : string) :
  startswith p s = true -> startswith q s = true ->
  startswith p q = true \/ startswith q p = true.
Proof.
  revert q s; induction p as [|a p IH]; intros q s Hp Hq; simpl; [now left |].
  destruct q as [|b q]; [now right |].
  destruct s as [|c s]; simpl in *; [discriminate |].
  destruct (Ascii.eqb a c) eqn:Ea; [| discriminate].
  destruct (Ascii.eqb b c) eqn:Eb; [| discriminate].
  apply Ascii.eqb_eq in Ea, Eb; subst.
  rewrite Ascii.eqb_refl. eauto.
Qed.

(** ** The matcher: what a reported match looks like *)

Lemma spans_sound (p : ascii -> bool) (s : string) (k n : nat) :
  In n (spans p k s) ->
  exists w, s = w ++ str_from (n - k) s /\ n = k + String.length w
         /\ w <> "" /\ all_chars p w = true.
Proof.
  revert k; induction s as [|c s IH]; intros k H; simpl in H; [contradiction |].
  destruct (p c) eqn:Hp; [| contradiction].
  destruct H as [<- | H].
  - exists (String c ""). replace (S k - k) with 1 by lia. simpl.
    rewrite Hp. repeat split; [lia | discriminate].
  - destruct (IH _ H) as (w & Hs & Hn & _ & Hall).
    exists (String c w). subst n.
    replace (S k + String.length w - k) with (S (String.length w)) by lia.
    replace (S k + String.length w - S k) with (String.length w) in Hs by lia.
    simpl. rewrite <- Hs, Hp, Hall. repeat split; [lia | discriminate].
Qed.

Lemma run_sound (r : regex) : forall st st',
  In st' (run r st) ->
  exists w cs,
    rest st = w ++ rest st' /\ pos st' = pos st + String.length w
    /\ caps st' = (caps st ++ cs)%list /\ sem r w cs.
Proof.
  induction r as [s | s | p | p | p | r1 IH1 r2 IH2 | r1 IH1 r2 IH2 | r IH | |];
    intros st st' H; simpl in H.
  - destruct (startswith s (rest st)) eqn:E; [| contradiction].
    destruct H as [<- | []]. exists s, []; simpl.
    rewrite app_nil_r. split; [now apply startswith_split | auto].
  - destruct (startswith_i s (rest st)) eqn:E; [| contradiction].
    destruct H as [<- | []].
    destruct (startswith_i_split _ _ E) as (w & Hs & Hl & Hw).
    exists w, []; simpl. rewrite app_nil_r, Hl. auto.
  - destruct (rest st) as [|c s] eqn:E; [contradiction |].
    destruct (p c) eqn:Hp; [| contradiction].
    destruct H as [<- | []]. exists (String c ""), []; simpl.
    rewrite E, app_nil_r. repeat split; eauto.
  - apply in_map_iff in H as (n & <- & H). apply in_rev in H.
    apply spans_sound in H as (w & Hs & Hn & Hne & Hall).
    rewrite Nat.sub_0_r in Hs. exists w, []; simpl.
    rewrite app_nil_r. subst n; simpl in *. repeat split; auto.
  - apply in_map_iff in H as (n & <- & H).
    apply spans_sound in H as (w & Hs & Hn & Hne & Hall).
    rewrite Nat.sub_0_r in Hs. exists w, []; simpl.
    rewrite app_nil_r. subst n; simpl in *. repeat split; auto.
  - apply in_flat_map in H as (mid & H1 & H2).
    destruct (IH1 _ _ H1) as (w1 & c1 & Hr1 & Hp1 & Hc1 & Hs1).
    destruct (IH2 _ _ H2) as (w2 & c2 & Hr2 & Hp2 & Hc2 & Hs2).
    exists (w1 ++ w2), (c1 ++ c2)%list.
    rewrite Hr1, Hr2, Hp2, Hp1, Hc2, Hc1, length_append, append_assoc, app_assoc.
    repeat split; [lia |]. simpl. exists w1, w2, c1, c2. auto.
  - apply in_app_iff in H as [H | H].
    + destruct (IH1 _ _ H) as (w & cs & ? & ? & ? & ?).
      exists w, cs; simpl; auto.
    + destruct (IH2 _ _ H) as (w & cs & ? & ? & ? & ?).
      exists w, cs; simpl; auto.
  - apply in_map_iff in H as (mid & <- & H).
    destruct (IH _ _ H) as (w & cs & Hr & Hp & Hc & Hs).
    exists w, (cs ++ [w])%list; simpl.
    rewrite Hc, Hp, Hr, app_assoc.
    replace (pos st + String.length w - pos st) with (String.length w) by lia.
    rewrite str_upto_append. repeat split; auto. exists cs; auto.
  - destruct (Nat.eqb (pos st) 0); [| contradiction].
    destruct H as [<- | []]. exists "", []; simpl. rewrite app_nil_r.
    repeat split; auto.
  - destruct (_ || _); [| contradiction].
    destruct H as [<- | []]. exists "", []; simpl. rewrite app_nil_r.
    repeat split; auto.
Qed.

(** A match reported by [re.match] or [re.search] is one of [run]'s. *)
Lemma first_match_sound (r : regex) (start : nat) (s : string) (m : rmatch) :
  first_match r start s = Some m ->
  exists w tl,
    s = w ++ tl /\ mend m = start + String.length w /\ sem r w (groups m).
Proof.
  unfold first_match. destruct (run r _) as [|st l] eqn:E; [discriminate |].
  intros [= <-]. assert (H : In st (run r (MState start s []))) by (rewrite E; now left).
  apply run_sound in H as (w & cs & Hr & Hp & Hc & Hs). simpl in *.
  exists w, (rest st). subst cs. auto.
Qed.

Lemma search_from_sound (r : regex) (s : string) : forall start m,
  search_from r start s = Some m ->
  exists pre w tl, s = pre ++ w ++ tl /\ sem r w (groups m).
Proof.
  induction s as [|c s IH]; intros start m H; simpl in H.
  - destruct (first_match r start "") eqn:E; [| discriminate].
    injection H as <-. apply first_match_sound in E as (w & tl & Hs & _ & Hsem).
    exists "", w, tl. auto.
  - destruct (first_match r start (String c s)) eqn:E.
    + injection H as <-. apply first_match_sound in E as (w & tl & Hs & _ & Hsem).
      exists "", w, tl. auto.
    + apply IH in H as (pre & w & tl & Hs & Hsem).
      exists (String c pre), w, tl. simpl. now rewrite Hs.
Qed.

(** ** Lines of the printed shape match

    The other direction for greedy patterns: when the text ahead is a
    run of the class followed by something outside it, the first way
    [run] lists takes the whole run. *)

Lemma all_chars_nonempty_head (p : ascii -> bool) (w tl : string) :
  all_chars p w = true -> w <> "" ->
  exists c r, w ++ tl = String c r /\ p c = true.
Proof.
  destruct w as [|c w]; [congruence |]. simpl. intros H _.
  apply andb_prop in H as [H _]. eauto.
Qed.

(** A run of one class stops a class disjoint from it. *)
Lemma stops_disjoint (p q : ascii -> bool) (w tl : string) :
  (forall c, q c = true -> p c = false) ->
  all_chars q w = true -> w <> "" -> stops p (w ++ tl) = true.
Proof.
  intros Hpq Hall Hne.
  destruct (all_chars_nonempty_head q w tl Hall Hne) as (c & r & -> & Hc).
  simpl. now rewrite (Hpq _ Hc).
Qed.

Lemma spans_stops (p : ascii -> bool) (tl : string) (k : nat) :
  stops p tl = true -> spans p k tl = [].
Proof.
  destruct tl as [|c tl]; simpl; [reflexivity |].
  now destruct (p c).
Qed.

Lemma spans_run (p : ascii -> bool) (w tl : string) : forall k,
  all_chars p w = true ->
  spans p k (w ++ tl)
  = (map (Nat.add k) (seq 1 (String.length w)) ++ spans p (k + String.length w) tl)%list.
Proof.
  induction w as [|c w IH]; intros k H; simpl in *.
  - now rewrite Nat.add_0_r.
  - apply andb_prop in H as [Hc Hw]. rewrite Hc, (IH _ Hw).
    rewrite <- (seq_shift (String.length w) 1), map_map.
    replace (k + 1) with (S k) by lia.
    replace (k + S (String.length w)) with (S k + String.length w) by lia.
    f_equal. f_equal. apply map_ext. intros i. lia.
Qed.

Lemma run_plus_greedy (p : ascii -> bool) (w tl : string) (n : nat) (cs : list string) :
  all_chars p w = true -> w <> "" -> stops p tl = true ->
  exists l, run (Plus p) (MState n (w ++ tl) cs)
            = MState (n + String.length w) tl cs :: l.
Proof.
  intros Hall Hne Hstop. cbn [run rest].
  rewrite (spans_run p w tl 0 Hall), (spans_stops _ _ _ Hstop), app_nil_r.
  destruct w as [|c w]; [congruence |]. cbn [String.length].
  rewrite seq_S, map_app, rev_app_distr. cbn [map rev app Nat.add].
  eexists. unfold advance at 1. cbn [pos rest caps].
  change (S (String.length w)) with (String.length (String c w)).
  now rewrite str_from_append.
Qed.

Lemma run_group_plus_greedy (p : ascii -> bool) (w tl : string) (n : nat)
      (cs : list string) :
  all_chars p w = true -> w <> "" -> stops p tl = true ->
  exists l, run (Group (Plus p)) (MState n (w ++ tl) cs)
            = MState (n + String.length w) tl (cs ++ [w])%list :: l.
Proof.
  intros Hall Hne Hstop.
  destruct (run_plus_greedy p w tl n cs Hall Hne Hstop) as [l Hl].
  change (run (Group (Plus p)) ?st)
    with (map (fun st' => MState (pos st') (rest st')
                                 (caps st' ++ [str_upto (pos st' - pos st) (rest st)])%list)
              (run (Plus p) st)).
  rewrite Hl. cbn [map pos rest caps]. eexists.
  replace (n + String.length w - n) with (String.length w) by lia.
  now rewrite str_upto_append.
Qed.

Lemma run_lit (s tl : string) (n : nat) (cs : list string) :
  run (Lit s) (MState n (s ++ tl) cs) = [MState (n + String.length s) tl cs].
Proof.
  cbn [run rest]. rewrite startswith_append. unfold advance. cbn [pos rest caps].
  now rewrite str_from_append.
Qed.

Lemma run_seq_head (r1 r2 : regex) (st st1 st2 : mstate) (l1 l2 : list mstate) :
  run r1 st = st1 :: l1 -> run r2 st1 = st2 :: l2 ->
  exists l, run (r1 ~~ r2) st = st2 :: l.
Proof. intros H1 H2. cbn [run]. rewrite H1. cbn [flat_map]. rewrite H2. eauto. Qed.

Lemma digit_or_dot_not_space (c : ascii) :
  is_digit_or_dot c = true -> is_space c = false.
Proof. destruct c as [[] [] [] [] [] [] [] []]; intros H; try reflexivity; discriminate H. Qed.

Lemma space_not_digit_or_dot (c : ascii) :
  is_space c = true -> is_digit_or_dot c = false.
Proof. destruct c as [[] [] [] [] [] [] [] []]; intros H; try reflexivity; discriminate H. Qed.

(** ** The numeric groups and [float] *)

Lemma decimal_nonneg (s : string) : forall dot n m d n' m' d',
  (0 <= m)%Z -> all_chars is_digit_or_dot s = true ->
  decimal s dot n m d = Some (n', m', d') -> (0 <= m')%Z.
Proof.
  induction s as [|c s IH]; intros dot n m d n' m' d' Hm Hall H; simpl in *.
  - now injection H as _ <- _.
  - apply andb_prop in Hall as [_ Hall].
    destruct (is_digit c) eqn:Hd.
    + eapply IH; [| exact Hall | exact H].
      unfold is_digit in Hd. apply andb_prop in Hd as [Hlo _].
      apply N.leb_le in Hlo. unfold digit_value. lia.
    + destruct ((code c =? 46)%N && negb dot); [| discriminate].
      eapply IH; eauto.
Qed.

Lemma float_nonneg (s : string) (q : Q) :
  all_chars is_digit_or_dot s = true -> float s = Ok q -> (0 <= q)%Q.
Proof.
  intros Hall H. unfold float in H.
  assert (Hbody : match s with
                  | String "-" t => (true, t)
                  | String "+" t => (false, t)
                  | _ => (false, s)
                  end = (false, s)).
  { destruct s as [|c t]; [reflexivity |]. simpl in Hall.
    apply andb_prop in Hall as [Hc _].
    destruct c as [[] [] [] [] [] [] [] []]; try reflexivity; discriminate Hc. }
  rewrite Hbody in H.
  destruct (decimal s false 0 0 1) as [[[n m] d]|] eqn:E; [| discriminate].
  destruct n; [discriminate |]. injection H as <-.
  rewrite Qred_correct. apply decimal_nonneg in E; [| lia | exact Hall].
  unfold Qle; simpl. lia.
Qed.

Lemma payment_groups_numeric (line : string) (m : rmatch) :
  re_match PatternConfig.PAYMENT_PATTERN line = Some m ->
  all_chars is_digit_or_dot (group m 1) = true
  /\ all_chars is_digit_or_dot (group m 2) = true
  /\ all_chars is_word (group m 3) = true
  /\ all_chars is_digit_or_dot (group m 4) = true.
Proof.
  intros H. apply first_match_sound in H as (w & tl & _ & _ & H).
  unfold group. simpl in H.
  repeat match goal with
         | H : exists _, _ |- _ => destruct H
         | H : _ /\ _ |- _ => destruct H
         end.
  subst. match goal with H : groups m = _ |- _ => rewrite H end.
  simpl. auto.
Qed.

Lemma gross_pay_groups_numeric (line : string) (m : rmatch) :
  re_search PatternConfig.GROSS_PAY_PATTERN line = Some m ->
  all_chars is_digit_or_dot (group m 1) = true
  /\ all_chars is_digit_or_dot (group m 2) = true.
Proof.
  intros H. apply search_from_sound in H as (pre & w & tl & _ & H).
  unfold group. simpl in H.
  repeat match goal with
         | H : exists _, _ |- _ => destruct H
         | H : _ /\ _ |- _ => destruct H
         end.
  subst. match goal with H : groups m = _ |- _ => rewrite H end.
  simpl. auto.
Qed.

(** ** SummaryParser: the Tax branch *)

Lemma search_bol_later (r : regex) (s : string) : forall n,
  search_from (Bol ~~ r) (S n) s = None.
Proof. induction s as [|c s IH]; intros n; simpl; [reflexivity | apply IH]. Qed.

(** [^Tax...] finds nothing in a line that does not start with [Tax]. *)
Lemma tax_search_none (line : string) :
  startswith "Tax" line = false ->
  re_search PatternConfig.TAX_PATTERN line = None.
Proof.
  intros H. unfold re_search, PatternConfig.TAX_PATTERN.
  assert (F : first_match
                (Bol ~~ Lit "Tax" ~~ Plus is_space ~~ Group (Plus is_digit_or_dot)
                     ~~ Plus is_space ~~ Group (Plus is_digit_or_dot)) 0 line = None).
  { unfold first_match. cbn [run flat_map pos rest Nat.eqb]. now rewrite H. }
  destruct line as [|c s]; cbn [search_from]; rewrite F; [reflexivity |].
  apply search_bol_later.
Qed.

Lemma summary_step_tax (line : string) (s s' : SummaryRecord.t) :
  SummaryParser.step line s = Ok s' ->
  SummaryRecord.tax s' = SummaryRecord.tax s
  /\ SummaryRecord.ytd_tax s' = SummaryRecord.ytd_tax s.
Proof.
  unfold SummaryParser.step. intros H.
  destruct (startswith "Gross Pay" (strip line)).
  { destruct (re_search _ line); [| now injection H as <-].
    destruct (float _); [| discriminate]. destruct (float _); [| discriminate].
    now injection H as <-. }
  destruct (startswith "Tax" (strip line) && negb (startswith "Tax" line)) eqn:E.
  { apply andb_prop in E as [_ E]. apply negb_true_iff in E.
    rewrite (tax_search_none _ E) in H. now injection H as <-. }
  destruct (startswith "Nett Pay" (strip line)).
  { destruct (re_search _ line); [| now injection H as <-].
    destruct (float _); [| discriminate]. destruct (float _); [| discriminate].
    now injection H as <-. }
  destruct (contains _ line); [| now injection H as <-].
  destruct (re_search _ line); [| now injection H as <-].
  destruct (float _); [| discriminate]. now injection H as <-.
Qed.

Lemma summary_loop_tax (lines : list string) : forall s s',
  SummaryParser.loop lines s = Ok s' ->
  SummaryRecord.tax s' = SummaryRecord.tax s
  /\ SummaryRecord.ytd_tax s' = SummaryRecord.ytd_tax s.
Proof.
  induction lines as [|l lines IH]; intros s s' H; simpl in H.
  - now injection H as <-.
  - destruct (SummaryParser.step l s) as [s1|] eqn:E; [| discriminate].
    simpl in H. apply summary_step_tax in E as [E1 E2].
    apply IH in H as [H1 H2]. now rewrite H1, H2.
Qed.

(** No page ever gets a tax figure: whatever the lines, a summary that
    is returned has [tax] and [ytd_tax] unset. *)
Lemma summary_tax_never_set (lines : list string) (f : string) (p : Z)
      (info : PayPeriodInfo.t) :
  match SummaryParser.extract lines f p info with
  | Ok s => SummaryRecord.tax s = None /\ SummaryRecord.ytd_tax s = None
  | ValueError => True
  end.
Proof.
  destruct (SummaryParser.extract lines f p info) as [s|] eqn:E; [| exact I].
  unfold SummaryParser.extract in E. now apply summary_loop_tax in E.
Qed.

(** C1 (code defect).  An indented Tax line with two amounts leaves the
    summary without tax figures: the line passes the guard of the Tax
    branch, and then the anchored pattern cannot match it, so [tax] and
    [ytd_tax] stay unset and the record is the initial one. *)
Theorem C1_indented_tax_line_sets_nothing (f : string) (p : Z) (info : PayPeriodInfo.t) :
  let line := "  Tax 100.00 2000.00" in
  startswith "Tax" (strip line) = true
  /\ startswith "Tax" line = false
  /\ re_search PatternConfig.TAX_PATTERN line = None
  /\ SummaryParser.extract [line] f p info = Ok (SummaryParser.init f p info)
  /\ SummaryRecord.tax (SummaryParser.init f p info) = None
  /\ SummaryRecord.ytd_tax (SummaryParser.init f p info) = None.
Proof. repeat split. Qed.

(** ** Loops *)

Lemma for_loop_app {A S : Type} (body : nat -> A -> S -> ctl S)
      (xs ys : list (nat * A)) : forall s,
  for_loop body (xs ++ ys)%list s =
  match for_loop body xs s with
  | Next s' => for_loop body ys s'
  | other => other
  end.
Proof.
  induction xs as [|[i x] xs IH]; intros s; simpl; [reflexivity |].
  destruct (body i x s); auto.
Qed.

Lemma for_loop_ext {A S : Type} (body1 body2 : nat -> A -> S -> ctl S)
      (items : list (nat * A)) : forall s,
  (forall i x s', In (i, x) items -> body1 i x s' = body2 i x s') ->
  for_loop body1 items s = for_loop body2 items s.
Proof.
  induction items as [|[i x] items IH]; intros s H; simpl; [reflexivity |].
  rewrite (H i x s) by now left.
  destruct (body2 i x s); auto. apply IH. intros; apply H; now right.
Qed.

(** An invariant kept by every pass holds when the loop is left. *)
Lemma for_loop_inv {A S : Type} (P : S -> Prop) (body : nat -> A -> S -> ctl S)
      (items : list (nat * A)) : forall s,
  P s ->
  (forall i x s1 s2, P s1 -> body i x s1 = Next s2 \/ body i x s1 = Break s2 -> P s2) ->
  match for_loop body items s with
  | Next s' | Break s' => P s'
  | Raise => True
  end.
Proof.
  induction items as [|[i x] items IH]; intros s Hs Hstep; simpl; [exact Hs |].
  destruct (body i x s) as [s'|s'|] eqn:E; [| eauto | exact I].
  apply IH; eauto.
Qed.

Lemma nth_error_enumerate_from {A : Type} (xs : list A) : forall a k,
  nth_error (combine (seq a (List.length xs)) xs) k =
  option_map (pair (a + k)) (nth_error xs k).
Proof.
  induction xs as [|x xs IH]; intros a k; simpl.
  - now destruct k.
  - destruct k as [|k]; simpl; [now rewrite Nat.add_0_r |].
    rewrite IH. now replace (S a + k) with (a + S k) by lia.
Qed.

Lemma nth_error_enumerate {A : Type} (xs : list A) (k : nat) :
  nth_error (enumerate xs) k = option_map (pair k) (nth_error xs k).
Proof. unfold enumerate. now rewrite nth_error_enumerate_from. Qed.

Lemma split_at_nth {A : Type} (l : list A) : forall k x,
  nth_error l k = Some x -> l = (firstn k l ++ x :: skipn (S k) l)%list.
Proof.
  induction l as [|y l IH]; intros [|k] x H; simpl in *; try discriminate.
  - now injection H as ->.
  - f_equal. now apply IH.
Qed.

(** The items of a prefix of [enumerate] carry their own index, below the
    length of the prefix. *)
Lemma in_firstn_enumerate {A : Type} (xs : list A) (k i : nat) (x : A) :
  In (i, x) (firstn k (enumerate xs)) -> i < k /\ nth_error xs i = Some x.
Proof.
  intros H. apply In_nth_error in H as [j H].
  rewrite nth_error_firstn, nth_error_enumerate in H.
  destruct (j <? k)%nat eqn:E; [| discriminate]. apply Nat.ltb_lt in E.
  destruct (nth_error xs j) eqn:Ej; [| discriminate].
  simpl in H. injection H as -> ->. auto.
Qed.

(** ** PaymentParser *)

Lemma payment_body_nonneg (lines : list string) (f : string) (p : Z)
      (info : PayPeriodInfo.t) (i : nat) (line : string)
      (s1 s2 : PaymentParser.state) :
  Forall nonneg_amounts (snd s1) ->
  PaymentParser.body lines f p info i line s1 = Next s2
  \/ PaymentParser.body lines f p info i line s1 = Break s2 ->
  Forall nonneg_amounts (snd s2).
Proof.
  destruct s1 as [b acc]. unfold PaymentParser.body. intros Hacc H.
  destruct (startswith "Payments" (strip line) && _).
  { destruct H as [[= <-] | [=]]; exact Hacc. }
  destruct b; [| destruct H as [[= <-] | [=]]; exact Hacc].
  destruct (PaymentParser.is_end_marker line).
  { destruct H as [[=] | [= <-]]; exact Hacc. }
  destruct (re_match _ line) as [m|] eqn:E;
    [| destruct H as [[= <-] | [=]]; exact Hacc].
  apply payment_groups_numeric in E as (G1 & G2 & _ & G4).
  destruct (float (group m 1)) as [h|] eqn:F1; simpl in H;
    [| destruct H; discriminate].
  destruct (float (group m 2)) as [r|] eqn:F2; simpl in H;
    [| destruct H; discriminate].
  destruct (float (group m 4)) as [a|] eqn:F4; simpl in H;
    [| destruct H; discriminate].
  destruct H as [[= <-] | [=]]. simpl.
  apply Forall_app; split; [exact Hacc |]. constructor; [| constructor].
  repeat split; simpl;
    [ apply (float_nonneg _ _ G1 F1) | apply (float_nonneg _ _ G2 F2)
    | apply (float_nonneg _ _ G4 F4) ].
Qed.

Lemma deductions_not_payments (s : string) :
  PaymentParser.is_end_marker s = true -> startswith "Payments" (strip s) = false.
Proof.
  unfold PaymentParser.is_end_marker. intros H.
  destruct (startswith "Payments" (strip s)) eqn:E; [| reflexivity].
  apply orb_prop in H as [H | H];
    destruct (startswith_trans _ _ _ H E) as [C | C]; discriminate C.
Qed.

(** When the loop stands in the section, an end marker leaves it with
    the payments as they are. *)
Lemma payment_body_end_marker (lines : list string) (f : string) (p : Z)
      (info : PayPeriodInfo.t) (i : nat) (line : string)
      (acc : list PaymentRecord.t) :
  PaymentParser.is_end_marker line = true ->
  PaymentParser.body lines f p info i line (true, acc) = Break (true, acc).
Proof.
  intros H. unfold PaymentParser.body.
  now rewrite (deductions_not_payments _ H), H.
Qed.

Lemma payment_body_lookahead (lines lines' : list string) (f : string) (p : Z)
      (info : PayPeriodInfo.t) (i : nat) (line : string) (s : PaymentParser.state) :
  nth_error lines (i + 1) = nth_error lines' (i + 1) ->
  PaymentParser.body lines f p info i line s
  = PaymentParser.body lines' f p info i line s.
Proof. intros H. unfold PaymentParser.body. now rewrite H. Qed.

Lemma nth_error_of_firstn_eq {A : Type} (l l' : list A) (n j : nat) :
  firstn n l = firstn n l' -> j < n -> nth_error l j = nth_error l' j.
Proof.
  intros H Hj. apply Nat.ltb_lt in Hj.
  pose proof (nth_error_firstn n l j) as E1.
  pose proof (nth_error_firstn n l' j) as E2.
  rewrite Hj in E1, E2. rewrite <- E1, <- E2. now rewrite H.
Qed.

(** The loop over the first [k] lines reads no line beyond index [k]. *)
Lemma scan_prefix_ext (k : nat) (lines lines' : list string) (f : string) (p : Z)
      (info : PayPeriodInfo.t) :
  firstn (S k) lines = firstn (S k) lines' ->
  scan_prefix k lines f p info
  = scan_prefix k lines' f p info.
Proof.
  intros H. unfold scan_prefix.
  assert (E : firstn k (enumerate lines) = firstn k (enumerate lines')).
  { apply nth_error_ext. intros j.
    rewrite !nth_error_firstn, !nth_error_enumerate.
    destruct (j <? k)%nat eqn:Hj; [| reflexivity]. apply Nat.ltb_lt in Hj.
    now rewrite (nth_error_of_firstn_eq _ _ _ j H) by lia. }
  rewrite <- E. apply for_loop_ext. intros i x s Hin.
  apply in_firstn_enumerate in Hin as [Hi _].
  apply payment_body_lookahead.
  apply (nth_error_of_firstn_eq _ _ _ _ H). lia.
Qed.

Lemma extract_at_end_marker (lines : list string) (f : string) (p : Z)
      (info : PayPeriodInfo.t) (k : nat) (t : string)
      (acc : list PaymentRecord.t) :
  nth_error lines k = Some t ->
  scan_prefix k lines f p info = Next (true, acc) ->
  PaymentParser.is_end_marker t = true ->
  PaymentParser.extract lines f p info = Ok acc.
Proof.
  intros Hk Hscan Hend. unfold PaymentParser.extract.
  assert (Hk' : nth_error (enumerate lines) k = Some (k, t))
    by now rewrite nth_error_enumerate, Hk.
  rewrite (split_at_nth _ _ _ Hk'), for_loop_app.
  unfold scan_prefix in Hscan. rewrite Hscan. cbn [for_loop].
  now rewrite payment_body_end_marker.
Qed.

(** C3.  Once the loop has entered the Payments section, a line whose
    trimmed form starts with "Deductions" or "Benefits" ends the scan:
    the returned list is the list of payments as it stood when the loop
    reached that line, whatever that line and the lines after it contain. *)
Theorem C3_end_marker_terminates_scan
        (lines : list string) (f : string) (p : Z) (info : PayPeriodInfo.t)
        (k : nat) (t : string) (acc : list PaymentRecord.t) :
  nth_error lines k = Some t ->
  scan_prefix k lines f p info = Next (true, acc) ->
  PaymentParser.is_end_marker t = true ->
  PaymentParser.extract lines f p info = Ok acc
  /\ forall after : list string,
       PaymentParser.extract (firstn (S k) lines ++ after)%list f p info = Ok acc.
Proof.
  intros Hk Hscan Hend. split; [eapply extract_at_end_marker; eauto |].
  intros after.
  assert (Hlen : k < List.length lines) by (apply nth_error_Some; congruence).
  assert (Hpre : firstn (S k) (firstn (S k) lines ++ after)%list = firstn (S k) lines).
  { rewrite firstn_app, firstn_firstn, Nat.min_id, length_firstn.
    replace (S k - Nat.min (S k) (List.length lines)) with 0 by lia.
    simpl. apply app_nil_r. }
  eapply extract_at_end_marker; [| | exact Hend].
  - rewrite <- (nth_error_of_firstn_eq _ _ (S k) k (eq_sym Hpre)) by lia. exact Hk.
  - rewrite <- Hscan. apply scan_prefix_ext. exact Hpre.
Qed.

(** C10.  Whenever [PaymentParser.extract] returns, every record has
    non-negative hours, rate and amount: the numeric groups of the
    payment pattern hold digits and dots only, which [float] reads as a
    non-negative number or rejects. *)
Theorem C10_payment_amounts_nonnegative
        (lines : list string) (f : string) (p : Z) (info : PayPeriodInfo.t)
        (payments : list PaymentRecord.t) :
  PaymentParser.extract lines f p info = Ok payments ->
  Forall nonneg_amounts payments.
Proof.
  unfold PaymentParser.extract. intros H.
  pose proof (for_loop_inv (fun s => Forall nonneg_amounts (snd s))
                (PaymentParser.body lines f p info) (enumerate lines)
                (false, []) (List.Forall_nil _)
                (fun i x s1 s2 => payment_body_nonneg lines f p info i x s1 s2)) as Inv.
  destruct (for_loop _ _ _) as [[b acc]|[b acc]|]; [| | discriminate];
    injection H as <-; exact Inv.
Qed.

Lemma C3_end_marker_terminates_scan_witness :
  nth_error example_lines 2 = Some "Deductions"
  /\ scan_prefix 2 example_lines "a.pdf" 1 example_info
     = Next (true, [example_payment "a.pdf" 1 example_info])
  /\ PaymentParser.is_end_marker "Deductions" = true
  /\ (PaymentParser.extract example_lines "a.pdf" 1 example_info
      = Ok [example_payment "a.pdf" 1 example_info]
      /\ forall after : list string,
           PaymentParser.extract (firstn 3 example_lines ++ after)%list
                                 "a.pdf" 1 example_info
           = Ok [example_payment "a.pdf" 1 example_info]).
Proof.
  split; [reflexivity |]. split; [vm_compute; reflexivity |].
  split; [reflexivity |].
  apply (C3_end_marker_terminates_scan example_lines "a.pdf" 1 example_info 2
           "Deductions" [example_payment "a.pdf" 1 example_info]);
    vm_compute; reflexivity.
Defined.

Lemma C10_payment_amounts_nonnegative_witness :
  PaymentParser.extract example_lines "a.pdf" 1 example_info
  = Ok [example_payment "a.pdf" 1 example_info]
  /\ Forall nonneg_amounts [example_payment "a.pdf" 1 example_info].
Proof.
  split; [vm_compute; reflexivity |].
  apply (C10_payment_amounts_nonnegative example_lines "a.pdf" 1 example_info).
  vm_compute; reflexivity.
Defined.

Lemma example_payment_line_body (lines : list string) (f : string) (p : Z)
      (info : PayPeriodInfo.t) (i : nat) (acc : list PaymentRecord.t) :
  PaymentParser.body lines f p info i example_payment_line (true, acc)
  = Next (true, (acc ++ [example_payment f p info])%list).
Proof.
  unfold PaymentParser.body.
  replace (startswith "Payments" (strip example_payment_line)) with false
    by (vm_compute; reflexivity).
  replace (PaymentParser.is_end_marker example_payment_line) with false
    by (vm_compute; reflexivity).
  replace (re_match PatternConfig.PAYMENT_PATTERN example_payment_line)
    with (Some (RMatch ["7.6"; "45.50"; "01Jul24"; "345.80"] 51))
    by (vm_compute; reflexivity).
  cbn [andb group groups nth Nat.sub].
  replace (float "7.6") with (Ok (Qred 7.6)) by (vm_compute; reflexivity).
  replace (float "45.50") with (Ok (Qred 45.50)) by (vm_compute; reflexivity).
  replace (float "345.80") with (Ok (Qred 345.80)) by (vm_compute; reflexivity).
  replace (DateParser.parse_reference_date "01Jul24") with "2024-07-01"
    by (vm_compute; reflexivity).
  reflexivity.
Qed.

(** C4.  A Payments section whose header holds "Hours" in the header
    line or in the next one, followed by the ordinary-pay line with hours
    7.6, rate 45.50, reference date 01Jul24 and amount 345.80, yields
    exactly one record with those values, work date 2024-07-01, and the
    pay period and paid date of the page-level PayPeriodInfo. *)
Theorem C4_single_payment_line
        (header : list string) (f : string) (p : Z) (info : PayPeriodInfo.t) :
  payments_header header = true ->
  PaymentParser.extract (header ++ [example_payment_line])%list f p info
  = Ok [ PaymentRecord.Make f p
           (PayPeriodInfo.period info) (PayPeriodInfo.paid_date info)
           "2024-07-01" (Qred 7.6) (Qred 45.50) (Qred 345.80) ].
Proof.
  intros H. destruct header as [|h [|n [|x header]]];
    unfold payments_header in H; try discriminate.
  - apply andb_prop in H as [H1 H2].
    unfold PaymentParser.extract, enumerate.
    cbn [app List.length seq combine for_loop].
    unfold PaymentParser.body at 1. rewrite H1, H2. cbn [andb orb].
    now rewrite example_payment_line_body.
  - apply andb_prop in H as [H H4]. apply andb_prop in H as [H H3].
    apply andb_prop in H as [H1 H2]. apply negb_true_iff in H3.
    unfold PaymentParser.extract, enumerate.
    cbn [app List.length seq combine for_loop].
    unfold PaymentParser.body at 1. cbn [nth_error Nat.add].
    rewrite H1, H2, orb_true_r. cbn [andb].
    unfold PaymentParser.body at 1. cbn [nth_error Nat.add].
    rewrite H2, H3. cbn [orb].
    destruct (re_match PatternConfig.PAYMENT_PATTERN n); [discriminate |].
    destruct (startswith "Payments" (strip n) && true);
      now rewrite example_payment_line_body.
Qed.

Lemma C4_single_payment_line_witness :
  payments_header ["Payments"; "Hours Rate Reference Amount"] = true
  /\ PaymentParser.extract
       ["Payments"; "Hours Rate Reference Amount"; example_payment_line]
       "a.pdf" 1 example_info
     = Ok [ PaymentRecord.Make "a.pdf" 1
              (Some "01/07/2024 to 14/07/2024") (Some "18/07/2024")
              "2024-07-01" (Qred 7.6) (Qred 45.50) (Qred 345.80) ].
Proof.
  split; [vm_compute; reflexivity |].
  apply (C4_single_payment_line ["Payments"; "Hours Rate Reference Amount"]
           "a.pdf" 1 example_info).
  vm_compute; reflexivity.
Defined.

(** ** PayPeriodParser *)

Lemma pay_period_skip (line : string) (lines : list string) :
  pay_period_match line = None ->
  PayPeriodParser.extract (line :: lines) = PayPeriodParser.extract lines.
Proof.
  unfold pay_period_match. cbn [PayPeriodParser.extract]. intros H.
  destruct (contains "Pay Period" line && contains "Paid" line); [| reflexivity].
  now rewrite H.
Qed.

Lemma pay_period_hit (line : string) (lines : list string) (m : rmatch) :
  pay_period_match line = Some m ->
  PayPeriodParser.extract (line :: lines)
  = PayPeriodInfo.Make (Some (group m 1 ++ " to " ++ group m 2)) (Some (group m 3)).
Proof.
  unfold pay_period_match. cbn [PayPeriodParser.extract]. intros H.
  destruct (contains "Pay Period" line && contains "Paid" line); [| discriminate].
  now rewrite H.
Qed.

(** The first matching line decides, and without a matching line both
    fields are unset. *)
Lemma first_pay_period_line
        (before : list string) (line : string) (after : list string) (m : rmatch) :
  Forall (fun l => pay_period_match l = None) before ->
  pay_period_match line = Some m ->
  PayPeriodParser.extract (before ++ line :: after)%list
  = PayPeriodInfo.Make (Some (group m 1 ++ " to " ++ group m 2)) (Some (group m 3))
  /\ PayPeriodParser.extract before = PayPeriodInfo.Make None None.
Proof.
  intros Hb Hm. induction Hb as [|l before Hl Hb IH].
  - split; [now apply pay_period_hit | reflexivity].
  - destruct IH as [IH1 IH2]. cbn [app]. rewrite !pay_period_skip by exact Hl. auto.
Qed.

(** ** A printed Pay Period line is matched

    For the lazy groups of the pay period pattern: a group takes the
    fewest characters after which the rest of the pattern matches.  When
    the text ahead is a word followed by the separator the pattern asks
    for, that is the whole word. *)

Lemma flat_map_nil {A B : Type} (f : A -> list B) (l : list A) :
  (forall x, In x l -> f x = []) -> flat_map f l = [].
Proof.
  induction l as [|x l IH]; intros H; simpl; [reflexivity |].
  rewrite (H x) by now left. apply IH. intros; apply H; now right.
Qed.

Lemma str_from_inside (q : ascii -> bool) (w tl : string) : forall n,
  all_chars q w = true -> n < String.length w ->
  exists c r, str_from n (w ++ tl) = String c r /\ q c = true.
Proof.
  induction w as [|a w IH]; intros n H Hn; simpl in *; [lia |].
  apply andb_prop in H as [Ha Hw].
  destruct n as [|n]; simpl; [eauto |]. apply IH; [exact Hw | lia].
Qed.

(** The continuation [K] fails inside the word and succeeds after it. *)
Lemma run_group_lazy_head (p : ascii -> bool) (K : regex) (w tl : string)
      (k : nat) (cs : list string) (st2 : mstate) (l : list mstate) :
  all_chars p w = true -> w <> "" ->
  (forall n pos' cs', n < String.length w ->
     run K (MState pos' (str_from n (w ++ tl)) cs') = []) ->
  run K (MState (k + String.length w) tl (cs ++ [w])%list) = st2 :: l ->
  exists l', run (Group (PlusLazy p) ~~ K) (MState k (w ++ tl) cs) = st2 :: l'.
Proof.
  intros Hall Hne Hfail Hok.
  change (run (Group (PlusLazy p) ~~ K) ?st)
    with (flat_map (run K)
            (map (fun st' => MState (pos st') (rest st')
                              (caps st' ++ [str_upto (pos st' - pos st) (rest st)])%list)
                 (map (fun n => advance n st) (spans p 0 (rest st))))).
  cbn [rest pos]. rewrite (spans_run p w tl 0 Hall).
  destruct w as [|c w]; [congruence |]. cbn [String.length] in *.
  rewrite seq_S, !map_app, !flat_map_app. cbn [map flat_map Nat.add].
  rewrite flat_map_nil.
  - cbn [app]. unfold advance. cbn [pos rest caps].
    replace (k + S (String.length w) - k) with (String.length (String c w))
      by (cbn [String.length]; lia).
    rewrite str_upto_append.
    change (S (String.length w)) with (String.length (String c w)).
    rewrite str_from_append. cbn [String.length]. rewrite Hok.
    cbn [app]. eauto.
  - intros st Hin.
    apply in_map_iff in Hin as (st0 & <- & Hin).
    apply in_map_iff in Hin as (n & <- & Hin).
    apply in_map_iff in Hin as (i & <- & Hin).
    apply in_seq in Hin. unfold advance. cbn [pos rest caps].
    apply Hfail. lia.
Qed.

Lemma separator_fails_on_word (sep : string) (R : regex) (c : ascii) (r : string)
      (n : nat) (cs : list string) :
  is_space c = false ->
  run (Lit (String " " sep) ~~ R) (MState n (String c r) cs) = [].
Proof.
  intros Hc. cbn [run rest startswith].
  destruct (Ascii.eqb " " c) eqn:E; [| reflexivity].
  apply Ascii.eqb_eq in E. subst c. discriminate Hc.
Qed.

Lemma eol_fails_on_word (c : ascii) (r : string) (n : nat) (cs : list string) :
  is_space c = false -> run Eol (MState n (String c r) cs) = [].
Proof.
  intros Hc. cbn [run rest]. unfold newline. cbn [String.eqb orb].
  destruct (Ascii.eqb c (ascii_of_N 10)) eqn:E; [| reflexivity].
  apply Ascii.eqb_eq in E. subst c. discriminate Hc.
Qed.

Lemma word_not_newline (w : string) :
  all_chars (fun c => negb (is_space c)) w = true ->
  all_chars is_not_newline w = true.
Proof.
  induction w as [|c w IH]; simpl; [reflexivity |]. intros H.
  apply andb_prop in H as [Hc Hw]. rewrite (IH Hw), andb_true_r.
  destruct c as [[] [] [] [] [] [] [] []]; try reflexivity; discriminate Hc.
Qed.

Lemma contains_append (p a b : string) : contains p (a ++ p ++ b) = true.
Proof.
  induction a as [|c a IH]; cbn [String.append].
  - pose proof (startswith_append p b) as H.
    destruct (p ++ b); cbn [contains]; now rewrite H.
  - cbn [contains]. rewrite IH. apply orb_true_r.
Qed.

(** A line that reads "Pay Period X to Y Paid Z", with [X], [Y] and [Z]
    words without white space, is matched with groups [X], [Y], [Z]. *)
Lemma pay_period_line_matches (X Y Z : string) :
  all_chars (fun c => negb (is_space c)) X = true -> X <> "" ->
  all_chars (fun c => negb (is_space c)) Y = true -> Y <> "" ->
  all_chars (fun c => negb (is_space c)) Z = true -> Z <> "" ->
  exists e,
    pay_period_match ("Pay Period " ++ X ++ " to " ++ Y ++ " Paid " ++ Z)
    = Some (RMatch [X; Y; Z] e).
Proof.
  intros HX NX HY NY HZ NZ.
  assert (word : forall (w tl : string) (n : nat),
             all_chars (fun c => negb (is_space c)) w = true ->
             n < String.length w ->
             exists c r, str_from n (w ++ tl) = String c r /\ is_space c = false).
  { intros w tl n Hw Hn.
    destruct (str_from_inside _ w tl n Hw Hn) as (c & r & E & Hc).
    exists c, r. split; [exact E | now apply negb_true_iff]. }
  (* the third group, up to the end of the line *)
  edestruct (run_group_lazy_head is_not_newline Eol Z ""
               (String.length "Pay Period " + String.length X + String.length " to "
                + String.length Y + String.length " Paid ")
               ([X] ++ [Y])%list) as [l3 R3];
    [ exact (word_not_newline _ HZ) | exact NZ | | reflexivity | ].
  { intros n pos' cs' Hn. destruct (word Z "" n HZ Hn) as (c & r & -> & Hc).
    now apply eol_fails_on_word. }
  (* the second group, up to " Paid " *)
  pose proof (run_lit " Paid " (Z ++ "")
                (String.length "Pay Period " + String.length X + String.length " to "
                 + String.length Y) ([X] ++ [Y])%list) as L2.
  destruct (run_seq_head _ _ _ _ _ _ _ L2 R3) as [l2' R2'].
  edestruct (run_group_lazy_head is_not_newline
               (Lit " Paid " ~~ Group (PlusLazy is_not_newline) ~~ Eol)
               Y (" Paid " ++ Z ++ "")
               (String.length "Pay Period " + String.length X + String.length " to ")
               ([] ++ [X])%list) as [l2 R2];
    [ exact (word_not_newline _ HY) | exact NY | | exact R2' | ].
  { intros n pos' cs' Hn.
    destruct (word Y (" Paid " ++ Z ++ "") n HY Hn) as (c & r & -> & Hc).
    now apply separator_fails_on_word. }
  (* the first group, up to " to " *)
  pose proof (run_lit " to " (Y ++ " Paid " ++ Z ++ "")
                (String.length "Pay Period " + String.length X) ([] ++ [X])%list) as L1.
  destruct (run_seq_head _ _ _ _ _ _ _ L1 R2) as [l1' R1'].
  edestruct (run_group_lazy_head is_not_newline
               (Lit " to " ~~ Group (PlusLazy is_not_newline) ~~ Lit " Paid "
                    ~~ Group (PlusLazy is_not_newline) ~~ Eol)
               X (" to " ++ Y ++ " Paid " ++ Z ++ "")
               (String.length "Pay Period ") []) as [l1 R1];
    [ exact (word_not_newline _ HX) | exact NX | | exact R1' | ].
  { intros n pos' cs' Hn.
    destruct (word X (" to " ++ Y ++ " Paid " ++ Z ++ "") n HX Hn) as (c & r & -> & Hc).
    now apply separator_fails_on_word. }
  pose proof (run_lit "Pay Period " (X ++ " to " ++ Y ++ " Paid " ++ Z ++ "") 0 []) as L0.
  destruct (run_seq_head _ _ _ _ _ _ _ L0 R1) as [l0 R0].
  rewrite append_empty_r in R0.
  unfold pay_period_match.
  replace (contains "Pay Period" ("Pay Period " ++ X ++ " to " ++ Y ++ " Paid " ++ Z))
    with true
    by (symmetry;
        exact (contains_append "Pay Period" "" (" " ++ X ++ " to " ++ Y ++ " Paid " ++ Z))).
  replace (contains "Paid" ("Pay Period " ++ X ++ " to " ++ Y ++ " Paid " ++ Z))
    with true.
  2:{ symmetry.
      replace ("Pay Period " ++ X ++ " to " ++ Y ++ " Paid " ++ Z)
        with (("Pay Period " ++ X ++ " to " ++ Y ++ " ") ++ "Paid" ++ " " ++ Z).
      - apply contains_append.
      - rewrite !append_assoc. reflexivity. }
  cbn [andb]. unfold re_search.
  exists (pos (MState (String.length "Pay Period " + String.length X
                       + String.length " to " + String.length Y
                       + String.length " Paid " + String.length Z) ""
                      ([X; Y] ++ [Z])%list)).
  unfold PatternConfig.PAY_PERIOD_PATTERN.
  destruct ("Pay Period " ++ X ++ " to " ++ Y ++ " Paid " ++ Z);
    cbn [search_from]; unfold first_match; rewrite R0; reflexivity.
Qed.

(** C5.  The pay period comes from the first line that holds both
    markers and matches the pattern: with [X], [Y], [Z] the three groups
    of that match, the result is period "X to Y" and paid date "Z",
    whatever the later lines hold; when no line matches, both fields are
    unset.  A line that reads "Pay Period X to Y Paid Z", with [X], [Y]
    and [Z] words without white space, matches with these as groups. *)
Theorem C5_first_pay_period_line
        (before : list string) (line : string) (after : list string) (m : rmatch)
        (X Y Z : string) :
  (Forall (fun l => pay_period_match l = None) before ->
   pay_period_match line = Some m ->
   PayPeriodParser.extract (before ++ line :: after)%list
   = PayPeriodInfo.Make (Some (group m 1 ++ " to " ++ group m 2)) (Some (group m 3))
   /\ PayPeriodParser.extract before = PayPeriodInfo.Make None None)
  /\ (all_chars (fun c => negb (is_space c)) X = true -> X <> "" ->
      all_chars (fun c => negb (is_space c)) Y = true -> Y <> "" ->
      all_chars (fun c => negb (is_space c)) Z = true -> Z <> "" ->
      exists e,
        pay_period_match ("Pay Period " ++ X ++ " to " ++ Y ++ " Paid " ++ Z)
        = Some (RMatch [X; Y; Z] e)).
Proof.
  split; [apply first_pay_period_line | apply pay_period_line_matches].
Qed.

Lemma C5_first_pay_period_line_witness :
  (Forall (fun l => pay_period_match l = None) ["Payslip"; "Pay Period and Paid"]
   /\ pay_period_match "Pay Period 01/07/2024 to 14/07/2024 Paid 18/07/2024"
      = Some (RMatch ["01/07/2024"; "14/07/2024"; "18/07/2024"] 51)
   /\ (PayPeriodParser.extract
         ["Payslip"; "Pay Period and Paid";
          "Pay Period 01/07/2024 to 14/07/2024 Paid 18/07/2024";
          "Pay Period 15/07/2024 to 28/07/2024 Paid 01/08/2024"]
       = PayPeriodInfo.Make (Some "01/07/2024 to 14/07/2024") (Some "18/07/2024")
       /\ PayPeriodParser.extract ["Payslip"; "Pay Period and Paid"]
          = PayPeriodInfo.Make None None))
  /\ exists e,
       pay_period_match
         ("Pay Period " ++ "01/07/2024" ++ " to " ++ "14/07/2024" ++ " Paid " ++ "18/07/2024")
       = Some (RMatch ["01/07/2024"; "14/07/2024"; "18/07/2024"] e).
Proof.
  pose proof (C5_first_pay_period_line
                ["Payslip"; "Pay Period and Paid"]
                "Pay Period 01/07/2024 to 14/07/2024 Paid 18/07/2024"
                ["Pay Period 15/07/2024 to 28/07/2024 Paid 01/08/2024"]
                (RMatch ["01/07/2024"; "14/07/2024"; "18/07/2024"] 51)
                "01/07/2024" "14/07/2024" "18/07/2024") as [H1 H2].
  split.
  - split; [repeat constructor |]. split; [vm_compute; reflexivity |].
    apply H1; [repeat constructor | vm_compute; reflexivity].
  - apply H2; (reflexivity || discriminate).
Defined.

(** ** SummaryParser: Gross Pay *)

Lemma summary_loop_app (xs ys : list string) : forall s,
  SummaryParser.loop (xs ++ ys)%list s
  = (let! s' := SummaryParser.loop xs s in SummaryParser.loop ys s').
Proof.
  induction xs as [|x xs IH]; intros s; simpl; [reflexivity |].
  destruct (SummaryParser.step x s); simpl; auto.
Qed.

Lemma summary_step_gross_hit (line : string) (m : rmatch) (s s' : SummaryRecord.t) :
  gross_pay_match line = Some m ->
  SummaryParser.step line s = Ok s' ->
  exists g y, float (group m 1) = Ok g /\ float (group m 2) = Ok y
           /\ s' = SummaryRecord.set_gross g y s.
Proof.
  unfold gross_pay_match, SummaryParser.step.
  destruct (startswith "Gross Pay" (strip line)); [| discriminate].
  intros -> H.
  destruct (float (group m 1)) as [g|]; [| discriminate].
  destruct (float (group m 2)) as [y|]; [| discriminate].
  injection H as <-. eauto.
Qed.

Lemma summary_step_gross_miss (line : string) (s s' : SummaryRecord.t) :
  gross_pay_match line = None ->
  SummaryParser.step line s = Ok s' ->
  SummaryRecord.gross_pay s' = SummaryRecord.gross_pay s
  /\ SummaryRecord.ytd_gross_pay s' = SummaryRecord.ytd_gross_pay s.
Proof.
  unfold gross_pay_match, SummaryParser.step.
  destruct (startswith "Gross Pay" (strip line)).
  { intros -> H. now injection H as <-. }
  intros _ H.
  destruct (startswith "Tax" (strip line) && negb (startswith "Tax" line)).
  { destruct (re_search _ line); [| now injection H as <-].
    destruct (float _); [| discriminate]. destruct (float _); [| discriminate].
    now injection H as <-. }
  destruct (startswith "Nett Pay" (strip line)).
  { destruct (re_search _ line); [| now injection H as <-].
    destruct (float _); [| discriminate]. destruct (float _); [| discriminate].
    now injection H as <-. }
  destruct (contains _ line); [| now injection H as <-].
  destruct (re_search _ line); [| now injection H as <-].
  destruct (float _); [| discriminate]. now injection H as <-.
Qed.

Lemma summary_loop_gross_miss (lines : list string) : forall s s',
  Forall (fun l => gross_pay_match l = None) lines ->
  SummaryParser.loop lines s = Ok s' ->
  SummaryRecord.gross_pay s' = SummaryRecord.gross_pay s
  /\ SummaryRecord.ytd_gross_pay s' = SummaryRecord.ytd_gross_pay s.
Proof.
  induction lines as [|l lines IH]; intros s s' Hall H; simpl in H.
  - now injection H as <-.
  - inversion Hall as [|? ? Hl Hrest]; subst.
    destruct (SummaryParser.step l s) as [s1|] eqn:E; [| discriminate].
    simpl in H. apply (summary_step_gross_miss _ _ _ Hl) in E as [E1 E2].
    apply (IH _ _ Hrest) in H as [H1 H2]. now rewrite H1, H2.
Qed.

(** On a returned summary the gross pay fields are those of the matching
    line after which no other line matches. *)
Lemma gross_pay_last_match
        (before : list string) (line : string) (after : list string)
        (f : string) (p : Z) (info : PayPeriodInfo.t)
        (m : rmatch) (s : SummaryRecord.t) :
  gross_pay_match line = Some m ->
  Forall (fun l => gross_pay_match l = None) after ->
  SummaryParser.extract (before ++ line :: after)%list f p info = Ok s ->
  exists g y,
    float (group m 1) = Ok g /\ float (group m 2) = Ok y
    /\ SummaryRecord.gross_pay s = Some g
    /\ SummaryRecord.ytd_gross_pay s = Some y.
Proof.
  intros Hm Hafter H. unfold SummaryParser.extract in H.
  rewrite summary_loop_app in H.
  destruct (SummaryParser.loop before _) as [s0|]; [| discriminate].
  cbn [rbind SummaryParser.loop] in H.
  destruct (SummaryParser.step line s0) as [s1|] eqn:E; [| discriminate].
  cbn [rbind] in H.
  destruct (summary_step_gross_hit _ _ _ _ Hm E) as (g & y & Fg & Fy & ->).
  apply (summary_loop_gross_miss _ _ _ Hafter) in H as [H1 H2].
  exists g, y. rewrite H1, H2. auto.
Qed.

(** ** A printed Gross Pay line is matched *)

Lemma lstrip_spaces (indent s : string) :
  all_chars is_space indent = true -> lstrip (indent ++ s) = lstrip s.
Proof.
  induction indent as [|c indent IH]; simpl; intros H; [reflexivity |].
  apply andb_prop in H as [Hc H]. rewrite Hc. now apply IH.
Qed.

Lemma rstrip_nonempty (w1 w2 : string) (c : ascii) :
  is_space c = false -> rstrip (w1 ++ String c w2) <> "".
Proof.
  intros Hc. induction w1 as [|d w1 IH]; simpl.
  - rewrite Hc. now destruct (rstrip w2).
  - now destruct (rstrip (w1 ++ String c w2)).
Qed.

Lemma rstrip_keeps_prefix (x s : string) :
  rstrip s <> "" -> rstrip (x ++ s) = x ++ rstrip s.
Proof.
  intros Hs. induction x as [|c x IH]; simpl; [reflexivity |].
  rewrite IH. destruct (x ++ rstrip s) eqn:E; [| reflexivity].
  destruct x; simpl in E; [contradiction | discriminate].
Qed.

Lemma search_skips_spaces (label : string) (r : regex) (indent s : string) :
  (forall c t, is_space c = true -> startswith label (String c t) = false) ->
  all_chars is_space indent = true -> forall k,
  search_from (Lit label ~~ r) k (indent ++ s)
  = search_from (Lit label ~~ r) (k + String.length indent) s.
Proof.
  intros Hlabel. induction indent as [|c indent IH]; simpl; intros H k.
  - now rewrite Nat.add_0_r.
  - apply andb_prop in H as [Hc H].
    unfold first_match. cbn [run rest]. rewrite (Hlabel _ _ Hc). cbn [flat_map].
    rewrite (IH H). f_equal. lia.
Qed.

Lemma gross_pay_pattern_at (sp1 a sp2 b tl : string) (n : nat) :
  all_chars is_space sp1 = true -> sp1 <> "" ->
  all_chars is_digit_or_dot a = true -> a <> "" ->
  all_chars is_space sp2 = true -> sp2 <> "" ->
  all_chars is_digit_or_dot b = true -> b <> "" ->
  stops is_digit_or_dot tl = true ->
  exists e,
    first_match PatternConfig.GROSS_PAY_PATTERN n
                ("Gross Pay" ++ sp1 ++ a ++ sp2 ++ b ++ tl)
    = Some (RMatch [a; b] e).
Proof.
  intros Hs1 Ns1 Ha Na Hs2 Ns2 Hb Nb Htl.
  pose proof (run_lit "Gross Pay" (sp1 ++ a ++ sp2 ++ b ++ tl) n []) as R0.
  destruct (run_plus_greedy is_space sp1 (a ++ sp2 ++ b ++ tl)
              (n + String.length "Gross Pay") [] Hs1 Ns1
              (stops_disjoint _ _ _ _ digit_or_dot_not_space Ha Na)) as [l1 R1].
  destruct (run_group_plus_greedy is_digit_or_dot a (sp2 ++ b ++ tl)
              (n + String.length "Gross Pay" + String.length sp1) [] Ha Na
              (stops_disjoint _ _ _ _ space_not_digit_or_dot Hs2 Ns2)) as [l2 R2].
  destruct (run_plus_greedy is_space sp2 (b ++ tl)
              (n + String.length "Gross Pay" + String.length sp1 + String.length a)
              ([] ++ [a])%list Hs2 Ns2
              (stops_disjoint _ _ _ _ digit_or_dot_not_space Hb Nb)) as [l3 R3].
  destruct (run_group_plus_greedy is_digit_or_dot b tl
              (n + String.length "Gross Pay" + String.length sp1 + String.length a
               + String.length sp2)
              ([] ++ [a])%list Hb Nb Htl) as [l4 R4].
  destruct (run_seq_head _ _ _ _ _ _ _ R3 R4) as [l5 R5].
  destruct (run_seq_head _ _ _ _ _ _ _ R2 R5) as [l6 R6].
  destruct (run_seq_head _ _ _ _ _ _ _ R1 R6) as [l7 R7].
  destruct (run_seq_head _ _ _ _ _ _ _ R0 R7) as [l8 R8].
  unfold first_match, PatternConfig.GROSS_PAY_PATTERN. rewrite R8.
  cbn [caps pos app]. eauto.
Qed.

(** A line that reads, after any indentation, "Gross Pay", white space,
    a number, white space, a number, is matched with the two numbers as
    its groups. *)
Lemma gross_pay_line_matches (indent sp1 a sp2 b tl : string) :
  all_chars is_space indent = true ->
  all_chars is_space sp1 = true -> sp1 <> "" ->
  all_chars is_digit_or_dot a = true -> a <> "" ->
  all_chars is_space sp2 = true -> sp2 <> "" ->
  all_chars is_digit_or_dot b = true -> b <> "" ->
  stops is_digit_or_dot tl = true ->
  exists e,
    gross_pay_match (indent ++ "Gross Pay" ++ sp1 ++ a ++ sp2 ++ b ++ tl)
    = Some (RMatch [a; b] e).
Proof.
  intros Hi Hs1 Ns1 Ha Na Hs2 Ns2 Hb Nb Htl. unfold gross_pay_match.
  assert (Hstrip : startswith "Gross Pay"
                     (strip (indent ++ "Gross Pay" ++ sp1 ++ a ++ sp2 ++ b ++ tl)) = true).
  { unfold strip. rewrite (lstrip_spaces _ _ Hi).
    replace (lstrip ("Gross Pay" ++ sp1 ++ a ++ sp2 ++ b ++ tl))
      with ("Gross Pay" ++ sp1 ++ a ++ sp2 ++ b ++ tl) by reflexivity.
    rewrite rstrip_keeps_prefix; [apply startswith_append |].
    destruct a as [|c a]; [congruence |]. simpl in Ha.
    apply andb_prop in Ha as [Hc _].
    change (String c a ++ sp2 ++ b ++ tl) with (String c (a ++ sp2 ++ b ++ tl)).
    apply rstrip_nonempty. now apply digit_or_dot_not_space. }
  rewrite Hstrip. unfold re_search, PatternConfig.GROSS_PAY_PATTERN.
  rewrite search_skips_spaces; [| | exact Hi].
  - destruct (gross_pay_pattern_at sp1 a sp2 b tl (0 + String.length indent)
                Hs1 Ns1 Ha Na Hs2 Ns2 Hb Nb Htl) as [e He].
    unfold PatternConfig.GROSS_PAY_PATTERN in He.
    exists e. destruct ("Gross Pay" ++ sp1 ++ a ++ sp2 ++ b ++ tl);
      cbn [search_from]; now rewrite He.
  - intros c t Hc. destruct c as [[] [] [] [] [] [] [] []]; try reflexivity;
      discriminate Hc.
Qed.

(** C6.  A line whose trimmed form starts with "Gross Pay" and that the
    pattern matches with two numbers sets [gross_pay] to the first and
    [ytd_gross_pay] to the second; when several lines match, the last of
    them decides: the values of the returned summary are those of the
    matching line after which no other line matches.  A line that reads,
    after any indentation, "Gross Pay", white space, a number, white
    space, a number, is such a line, with the two numbers as groups. *)
Theorem C6_gross_pay_last_match_wins
        (before : list string) (line : string) (after : list string)
        (f : string) (p : Z) (info : PayPeriodInfo.t)
        (m : rmatch) (s : SummaryRecord.t)
        (indent sp1 a sp2 b tl : string) :
  (gross_pay_match line = Some m ->
   Forall (fun l => gross_pay_match l = None) after ->
   SummaryParser.extract (before ++ line :: after)%list f p info = Ok s ->
   exists g y,
     float (group m 1) = Ok g /\ float (group m 2) = Ok y
     /\ SummaryRecord.gross_pay s = Some g
     /\ SummaryRecord.ytd_gross_pay s = Some y)
  /\ (all_chars is_space indent = true ->
      all_chars is_space sp1 = true -> sp1 <> "" ->
      all_chars is_digit_or_dot a = true -> a <> "" ->
      all_chars is_space sp2 = true -> sp2 <> "" ->
      all_chars is_digit_or_dot b = true -> b <> "" ->
      stops is_digit_or_dot tl = true ->
      exists e,
        gross_pay_match (indent ++ "Gross Pay" ++ sp1 ++ a ++ sp2 ++ b ++ tl)
        = Some (RMatch [a; b] e)).
Proof.
  split; [apply gross_pay_last_match | apply gross_pay_line_matches].
Qed.

Lemma C6_gross_pay_last_match_wins_witness :
  (gross_pay_match "Gross Pay 1200.00 24000.00"
   = Some (RMatch ["1200.00"; "24000.00"] 26)
   /\ Forall (fun l => gross_pay_match l = None) ["Nett Pay 1100.00 22000.00"]
   /\ SummaryParser.extract
        ["Gross Pay 1.00 2.00"; "Gross Pay 1200.00 24000.00";
         "Nett Pay 1100.00 22000.00"] "a.pdf" 1 example_info
      = Ok (SummaryRecord.Make "a.pdf" 1
              (Some "01/07/2024 to 14/07/2024") (Some "18/07/2024")
              (Some (Qred 1200.00)) None (Some (Qred 1100.00))
              (Some (Qred 24000.00)) None (Some (Qred 22000.00)) None)
   /\ exists g y,
        float "1200.00" = Ok g /\ float "24000.00" = Ok y
        /\ Some (Qred 1200.00) = Some g /\ Some (Qred 24000.00) = Some y)
  /\ exists e,
       gross_pay_match ("" ++ "Gross Pay" ++ " " ++ "1200.00" ++ " " ++ "24000.00" ++ "")
       = Some (RMatch ["1200.00"; "24000.00"] e).
Proof.
  pose proof (C6_gross_pay_last_match_wins
                ["Gross Pay 1.00 2.00"] "Gross Pay 1200.00 24000.00"
                ["Nett Pay 1100.00 22000.00"] "a.pdf" 1 example_info
                (RMatch ["1200.00"; "24000.00"] 26)
                (SummaryRecord.Make "a.pdf" 1
                   (Some "01/07/2024 to 14/07/2024") (Some "18/07/2024")
                   (Some (Qred 1200.00)) None (Some (Qred 1100.00))
                   (Some (Qred 24000.00)) None (Some (Qred 22000.00)) None)
                "" " " "1200.00" " " "24000.00" "") as [H1 H2].
  split.
  - split; [vm_compute; reflexivity |]. split; [repeat constructor |].
    split; [vm_compute; reflexivity |].
    apply H1; [vm_compute; reflexivity | repeat constructor | vm_compute; reflexivity].
  - apply H2; (reflexivity || discriminate).
Defined.

(** ** Pages without payment lines or summary labels *)

Lemma payment_body_no_match (lines : list string) (f : string) (p : Z)
      (info : PayPeriodInfo.t) (i : nat) (line : string) (b : bool)
      (acc : list PaymentRecord.t) :
  re_match PatternConfig.PAYMENT_PATTERN line = None ->
  exists b', PaymentParser.body lines f p info i line (b, acc) = Next (b', acc)
          \/ PaymentParser.body lines f p info i line (b, acc) = Break (b', acc).
Proof.
  intros H. unfold PaymentParser.body. rewrite H.
  destruct (startswith "Payments" (strip line) && _); [eauto |].
  destruct b; [| eauto].
  destruct (PaymentParser.is_end_marker line); eauto.
Qed.

Lemma payment_loop_no_match (lines : list string) (f : string) (p : Z)
      (info : PayPeriodInfo.t) (items : list (nat * string)) : forall b,
  Forall (fun it => re_match PatternConfig.PAYMENT_PATTERN (snd it) = None) items ->
  exists b',
    for_loop (PaymentParser.body lines f p info) items (b, []) = Next (b', [])
    \/ for_loop (PaymentParser.body lines f p info) items (b, []) = Break (b', []).
Proof.
  induction items as [|[i x] items IH]; intros b Hall; cbn [for_loop]; [eauto |].
  inversion Hall as [|? ? Hx Hrest]; subst. cbn [snd] in Hx.
  destruct (payment_body_no_match lines f p info i x b [] Hx) as [b' [E | E]];
    rewrite E; [apply IH; exact Hrest | eauto].
Qed.

Lemma payment_extract_no_match (lines : list string) (f : string) (p : Z)
      (info : PayPeriodInfo.t) :
  Forall (fun l => re_match PatternConfig.PAYMENT_PATTERN l = None) lines ->
  PaymentParser.extract lines f p info = Ok [].
Proof.
  intros H. unfold PaymentParser.extract.
  assert (Hitems : Forall (fun it => re_match PatternConfig.PAYMENT_PATTERN (snd it) = None)
                          (enumerate lines)).
  { apply List.Forall_forall. intros [i x] Hin. simpl.
    apply in_combine_r in Hin. rewrite List.Forall_forall in H. now apply H. }
  destruct (payment_loop_no_match lines f p info _ false Hitems) as [b' [E | E]];
    now rewrite E.
Qed.

Lemma summary_step_no_label (line : string) (s : SummaryRecord.t) :
  summary_label line = false -> SummaryParser.step line s = Ok s.
Proof.
  unfold summary_label, SummaryParser.step. intros H.
  apply orb_false_elim in H as [H H4]. apply orb_false_elim in H as [H H3].
  apply orb_false_elim in H as [H1 H2].
  now rewrite H1, H2, H3, H4.
Qed.

Lemma summary_loop_no_label (lines : list string) (s : SummaryRecord.t) :
  Forall (fun l => summary_label l = false) lines ->
  SummaryParser.loop lines s = Ok s.
Proof.
  induction 1 as [|l lines Hl _ IH]; simpl; [reflexivity |].
  now rewrite summary_step_no_label.
Qed.

(** A page that has text but neither payment lines nor summary labels
    adds no payment and one summary with every amount unset. *)
Lemma process_page_without_data (self : PDFProcessor.t) (text : string) (n : Z) :
  Forall (fun l => re_match PatternConfig.PAYMENT_PATTERN l = None) (split_lines text) ->
  Forall (fun l => summary_label l = false) (split_lines text) ->
  PDFProcessor._process_page self text n
  = Ok (PDFProcessor.Make
          (PDFProcessor.pdf_path self) (PDFProcessor.pdf_filename self)
          (PDFProcessor.payments self)
          (PDFProcessor.summaries self ++
             [SummaryParser.init (PDFProcessor.pdf_filename self) n
                (PayPeriodParser.extract (split_lines text))])%list).
Proof.
  intros Hp Hs. unfold PDFProcessor._process_page.
  rewrite (payment_extract_no_match _ _ _ _ Hp). cbn [rbind].
  unfold SummaryParser.extract. cbn [PDFProcessor.pdf_filename].
  rewrite (summary_loop_no_label _ _ Hs). cbn [rbind].
  cbn [PDFProcessor.pdf_path PDFProcessor.pdf_filename PDFProcessor.payments
       PDFProcessor.summaries].
  now rewrite app_nil_r.
Qed.

Lemma process_example_page1 (pdf_path f : string) :
  PDFProcessor._process_page (PDFProcessor.Make pdf_path f [] []) example_page1 1
  = Ok (PDFProcessor.Make pdf_path f
          [example_payment f 1 example_info] [example_summary1 f]).
Proof. vm_compute. reflexivity. Qed.



(** A page without text is skipped: it gets no summary. *)
Lemma blank_second_page_is_skipped (pdf_path f : string) (blank : option string) :
  PDFProcessor.truthy blank = None ->
  PDFProcessor.process (PDFProcessor.init pdf_path None f)
                       [Some example_page1; blank]
  = Ok (PDFProcessor.Make pdf_path f
          [example_payment f 1 example_info] [example_summary1 f],
        ([example_payment f 1 example_info], [example_summary1 f])).
Proof.
  intros H. unfold PDFProcessor.process, PDFProcessor.init.
  cbn [PDFProcessor.process_pages]. rewrite H.
  replace (PDFProcessor.truthy (Some example_page1)) with (Some example_page1)
    by reflexivity.
  now rewrite process_example_page1.
Qed.

(** ** The driver without input *)

(** C8.  When the glob finds no document, [process_all_pdfs] prints the
    one message that says so and returns two empty frames, and [main]
    then writes no file and prints nothing more. *)
Theorem C8_no_documents (w : World) :
  PayslipProcessor.process_all_pdfs PayslipProcessor.init [] w
  = (Ok (PayslipProcessor.init, ([], [])), print MsgNoPdfFound w)
  /\ df_empty [] = true
  /\ snd (main [] w) = print MsgNoPdfFound w
  /\ files (snd (main [] w)) = files w
  /\ console (snd (main [] w)) = (console w ++ [MsgNoPdfFound])%list
  /\ fst (main [] w) = Ok None.
Proof. repeat split. Qed.

(** ** PaymentParser.extract leaves the caller's objects alone *)

Lemma skipn_at_nth {A : Type} (l : list A) : forall i x,
  nth_error l i = Some x -> skipn i l = x :: skipn (S i) l.
Proof.
  induction l as [|y l IH]; intros [|i] x H; simpl in *; try discriminate.
  - now injection H as ->.
  - now apply IH.
Qed.

Section StoreFrame.

Variables (lines_ref info_ref payments_ref : Store.loc).
Variables (pdf_filename : string) (page_num : Z).
Variables (lines : list string) (info : PayPeriodInfo.t).
Variable σ0 : gmap Store.loc Store.obj.

Hypothesis lines_at : σ0 !! lines_ref = Some (Store.OLines lines).
Hypothesis info_at : σ0 !! info_ref = Some (Store.OInfo info).
Hypothesis payments_fresh : σ0 !! payments_ref = None.

#[local] Abbreviation during_loop := (during payments_ref σ0).

Lemma during_lookup_caller (acc : list PaymentRecord.t) (l : Store.loc) :
  is_Some (σ0 !! l) -> during_loop acc !! l = σ0 !! l.
Proof using payments_fresh.
  intros [o Ho]. unfold during. apply lookup_insert_ne. congruence.
Qed.

Lemma during_lookup_payments (acc : list PaymentRecord.t) :
  during_loop acc !! payments_ref = Some (Store.OPayments acc).
Proof using Type. unfold during. apply lookup_insert_eq. Qed.

Lemma store_loop_spec (n : nat) : forall i b acc,
  i + n = List.length lines ->
  exists out acc',
    Store.loop n lines_ref info_ref payments_ref pdf_filename page_num i b (during_loop acc)
    = (out, during_loop acc')
    /\ match for_loop (PaymentParser.body lines pdf_filename page_num info)
                      (combine (seq i n) (skipn i lines)) (b, acc) with
       | Next (_, payments) | Break (_, payments) =>
           out = Store.Returned payments_ref /\ acc' = payments
       | Raise => out = Store.Raised
       end.
Proof using lines_at info_at payments_fresh.
  induction n as [|n IH]; intros i b acc Hlen.
  - exists (Store.Returned payments_ref), acc. simpl. auto.
  - destruct (nth_error lines i) as [line|] eqn:Hline;
      [| apply nth_error_None in Hline; lia].
    cbn [Store.loop]. unfold Store.pass.
    rewrite (during_lookup_caller acc lines_ref), lines_at by (rewrite lines_at; eauto).
    rewrite (during_lookup_caller acc info_ref), info_at by (rewrite info_at; eauto).
    rewrite during_lookup_payments, Hline.
    rewrite (skipn_at_nth _ _ _ Hline). cbn [seq combine for_loop].
    destruct (PaymentParser.body lines pdf_filename page_num info i line (b, acc))
      as [[b' acc']|[b' acc']|] eqn:E.
    + replace (<[payments_ref := Store.OPayments acc']> (during_loop acc))
        with (during_loop acc') by (unfold during; now rewrite insert_insert_eq).
      apply IH. lia.
    + exists (Store.Returned payments_ref), acc. split; [reflexivity |].
      unfold PaymentParser.body in E.
      destruct (startswith "Payments" (strip line) && _); [discriminate |].
      destruct b; [| discriminate].
      destruct (PaymentParser.is_end_marker line); [now injection E as _ -> |].
      destruct (re_match _ line); [| discriminate].
      destruct (rbind _ _); discriminate.
    + exists Store.Raised, acc. auto.
Qed.

End StoreFrame.



(** ** DateParser *)

(** *** The pattern of [strptime] on well-formed tokens *)

Lemma flat_map_flat_map {A B C : Type} (f : A -> list B) (g : B -> list C)
      (l : list A) :
  flat_map g (flat_map f l) = flat_map (fun x => flat_map g (f x)) l.
Proof.
  induction l as [|x l IH]; simpl; [reflexivity |].
  now rewrite flat_map_app, IH.
Qed.

Lemma run_seq_assoc (a b c : regex) (st : mstate) :
  run (a ~~ b ~~ c) st = run ((a ~~ b) ~~ c) st.
Proof. simpl. now rewrite flat_map_flat_map. Qed.

(** A two-digit day and a month name: one way to match, five characters. *)
Lemma run_day_month :
  Forall (fun d =>
    Forall (fun m =>
      forall r : string,
        run (Group day_regex ~~ Group month_regex)
            (MState 0 (pad2 d ++ nth (m - 1) month_abbr "" ++ r) [])
        = [MState 5 r [pad2 d; nth (m - 1) month_abbr ""]])
      (seq 1 12))
    (seq 1 31).
Proof. forall_cases ltac:(intros r; vm_compute; reflexivity). Qed.

(** A one-digit day and a month name: one way to match, four characters. *)
Lemma run_short_day_month :
  Forall (fun d =>
    Forall (fun m =>
      forall r : string,
        run (Group day_regex ~~ Group month_regex)
            (MState 0 (String (digit_char d) (nth (m - 1) month_abbr "" ++ r)) [])
        = [MState 4 r [String (digit_char d) ""; nth (m - 1) month_abbr ""]])
      (seq 1 12))
    (seq 1 9).
Proof. forall_cases ltac:(intros r; vm_compute; reflexivity). Qed.

Lemma is_digit_digit_char (n : nat) : is_digit (digit_char n) = true.
Proof.
  unfold digit_char.
  assert (H : n mod 10 < 10) by (apply Nat.mod_upper_bound; lia).
  revert H. generalize (n mod 10). intros k Hk.
  do 10 (destruct k as [|k]; [reflexivity |]). lia.
Qed.

Lemma run_year (n : nat) (y1 y2 : ascii) (cs : list string) :
  is_digit y1 = true -> is_digit y2 = true ->
  run (Group year_regex) (MState n (String y1 (String y2 "")) cs)
  = [MState (n + 1 + 1) "" (cs ++ [String y1 (String y2 "")])%list].
Proof.
  intros H1 H2. cbn [run year_regex rest flat_map]. rewrite H1.
  cbn [flat_map advance rest str_from run app]. rewrite H2.
  cbn [map app advance pos rest caps str_from].
  replace (n + 1 + 1 - n) with 2 by lia. reflexivity.
Qed.

Lemma int_pad2 : Forall (fun n => int (pad2 n) = n) (seq 0 100).
Proof. forall_cases ltac:(vm_compute; reflexivity). Qed.

Lemma int_digit_char :
  Forall (fun n => int (String (digit_char n) "") = n) (seq 1 9).
Proof. forall_cases ltac:(vm_compute; reflexivity). Qed.

Lemma month_index_abbr :
  Forall (fun m =>
            month_index (lower_string (nth (m - 1) month_abbr "")) a_month 1 = m
            /\ String.length (nth (m - 1) month_abbr "") = 3)
         (seq 1 12).
Proof. forall_cases ltac:(vm_compute; split; reflexivity). Qed.

Lemma days_in_month_le_31 (y m : nat) : days_in_month y m <= 31.
Proof.
  unfold days_in_month.
  do 12 (destruct m as [|m]; [try destruct (is_leap y); lia |]). lia.
Qed.

(** What [strptime] makes of a matched token whose groups are a day, a
    month name and a two-digit year. *)
Lemma strptime_of_match (tok D : string) (d m yy : nat) :
  re_match REFERENCE_DATE_REGEX tok
  = Some (RMatch [D; nth (m - 1) month_abbr ""; pad2 yy] (String.length tok)) ->
  int D = d -> 1 <= m <= 12 -> yy < 100 ->
  1 <= d <= days_in_month (century yy) m ->
  DateParser.parse_reference_date tok = iso (century yy) m d.
Proof.
  intros Hm HD Hmr Hy Hd. unfold DateParser.parse_reference_date, strptime.
  rewrite Hm. cbn [mend group groups nth Nat.sub]. rewrite Nat.eqb_refl. cbn [negb].
  pose proof (proj1 (List.Forall_forall _ _) month_index_abbr m
                    ltac:(apply in_seq; lia)) as [Hidx _].
  pose proof (proj1 (List.Forall_forall _ _) int_pad2 yy
                    ltac:(apply in_seq; lia)) as Hyy.
  rewrite HD, Hidx, Hyy.
  replace (if (yy <=? 68)%nat then yy + 2000 else yy + 1900) with (century yy)
    by (unfold century; destruct (yy <=? 68)%nat; lia).
  destruct Hd as [Hd1 Hd2]. apply Nat.leb_le in Hd1, Hd2.
  rewrite Hd1, Hd2. reflexivity.
Qed.

Lemma first_match_of_run (r : regex) (s : string) (st : mstate) (l : list mstate) :
  run r (MState 0 s []) = st :: l ->
  re_match r s = Some (RMatch (caps st) (pos st)).
Proof. unfold re_match, first_match. now intros ->. Qed.

Lemma parse_compact_token (d m yy : nat) :
  1 <= m <= 12 -> yy < 100 -> 1 <= d <= days_in_month (century yy) m ->
  DateParser.parse_reference_date (compact_token d m yy) = iso (century yy) m d.
Proof.
  intros Hm Hy Hd.
  pose proof (days_in_month_le_31 (century yy) m) as H31.
  pose proof (proj1 (List.Forall_forall _ _) run_day_month d
                    ltac:(apply in_seq; lia)) as Hrun.
  pose proof (proj1 (List.Forall_forall _ _) Hrun m ltac:(apply in_seq; lia)) as Hrun'.
  pose proof (proj1 (List.Forall_forall _ _) month_index_abbr m
                    ltac:(apply in_seq; lia)) as [_ Hlen].
  cbv beta in Hrun'.
  assert (Hlen7 : String.length (compact_token d m yy) = 7).
  { unfold compact_token, pad2. cbn [String.append String.length].
    rewrite length_append, Hlen. reflexivity. }
  apply (strptime_of_match _ (pad2 d)); try assumption.
  - rewrite Hlen7. unfold re_match, first_match, REFERENCE_DATE_REGEX, compact_token.
    rewrite run_seq_assoc.
    change (run ((Group day_regex ~~ Group month_regex) ~~ Group year_regex) ?st)
      with (flat_map (run (Group year_regex))
                     (run (Group day_regex ~~ Group month_regex) st)).
    rewrite Hrun'. cbn [flat_map]. unfold pad2.
    rewrite (run_year 5) by apply is_digit_digit_char. reflexivity.
  - apply (proj1 (List.Forall_forall _ _) int_pad2 d). apply in_seq. lia.
Qed.

Lemma parse_short_token (d m yy : nat) :
  1 <= m <= 12 -> yy < 100 -> 1 <= d <= 9 ->
  d <= days_in_month (century yy) m ->
  DateParser.parse_reference_date (short_token d m yy) = iso (century yy) m d.
Proof.
  intros Hm Hy Hd Hdim.
  pose proof (proj1 (List.Forall_forall _ _) run_short_day_month d
                    ltac:(apply in_seq; lia)) as Hrun.
  pose proof (proj1 (List.Forall_forall _ _) Hrun m ltac:(apply in_seq; lia)) as Hrun'.
  pose proof (proj1 (List.Forall_forall _ _) month_index_abbr m
                    ltac:(apply in_seq; lia)) as [_ Hlen].
  cbv beta in Hrun'.
  assert (Hlen6 : String.length (short_token d m yy) = 6).
  { unfold short_token, pad2. cbn [String.length].
    rewrite length_append, Hlen. reflexivity. }
  apply (strptime_of_match _ (String (digit_char d) "")); try assumption; [| | lia].
  - rewrite Hlen6. unfold re_match, first_match, REFERENCE_DATE_REGEX, short_token.
    rewrite run_seq_assoc.
    change (run ((Group day_regex ~~ Group month_regex) ~~ Group year_regex) ?st)
      with (flat_map (run (Group year_regex))
                     (run (Group day_regex ~~ Group month_regex) st)).
    rewrite Hrun'. cbn [flat_map]. unfold pad2.
    rewrite (run_year 4) by apply is_digit_digit_char. reflexivity.
  - apply (proj1 (List.Forall_forall _ _) int_digit_char d). apply in_seq. lia.
Qed.

(** *** Tokens [strptime] rejects *)

Lemma in_range_digit (lo hi : N) (c : ascii) :
  (48 <= lo)%N -> (hi <= 57)%N -> in_range lo hi c = true -> is_digit c = true.
Proof.
  unfold in_range, is_digit. intros Hlo Hhi H.
  apply andb_prop in H as [H1 H2]. apply N.leb_le in H1, H2.
  apply andb_true_intro. split; apply N.leb_le; lia.
Qed.

Lemma in_range_blank (c : ascii) :
  in_range 32 32 c = true -> (code c =? 32)%N = true.
Proof.
  unfold in_range. intros H. apply andb_prop in H as [H1 H2].
  apply N.leb_le in H1, H2. apply N.eqb_eq. lia.
Qed.

Lemma sem_day (w : string) (cs : list string) :
  sem day_regex w cs ->
  (exists a, w = String a "" /\ is_digit a = true)
  \/ (exists a b, w = String a (String b "")
               /\ (is_digit a = true \/ (code a =? 32)%N = true)
               /\ is_digit b = true).
Proof.
  unfold day_regex. cbn [sem].
  intros [H | [H | [H | [H | H]]]];
    repeat match goal with
           | H : exists _, _ |- _ => destruct H
           | H : _ /\ _ |- _ => destruct H
           end; subst; cbn [String.append].
  - right. do 2 eexists. split; [reflexivity |]. split; [left |];
      eapply in_range_digit; try eassumption; lia.
  - right. do 2 eexists. split; [reflexivity |]. split; [left |]; try assumption.
    eapply in_range_digit; try eassumption; lia.
  - right. do 2 eexists. split; [reflexivity |]. split; [left |];
      eapply in_range_digit; try eassumption; lia.
  - left. eexists. split; [reflexivity |].
    eapply in_range_digit; try eassumption; lia.
  - right. do 2 eexists. split; [reflexivity |]. split.
    + right. now apply in_range_blank.
    + eapply in_range_digit; try eassumption; lia.
Qed.

Lemma lower_string_three (w : string) (x y z : ascii) :
  lower_string w = String x (String y (String z "")) ->
  exists a b c, w = String a (String b (String c "")).
Proof.
  destruct w as [|a [|b [|c [|e w]]]]; simpl; intros H; try discriminate.
  eauto.
Qed.

Lemma sem_month (w : string) (cs : list string) :
  sem month_regex w cs ->
  exists a b c, w = String a (String b (String c "")) /\ is_month_abbr a b c = true.
Proof.
  unfold month_regex. cbn [sem].
  intros H.
  repeat match goal with
         | H : _ \/ _ |- _ => destruct H as [H | H]
         end;
    destruct H as [H _];
    destruct (lower_string_three _ _ _ _ H) as (a & b & c & ->);
    exists a, b, c; (split; [reflexivity |]);
    unfold is_month_abbr; rewrite H; reflexivity.
Qed.

Lemma sem_year (w : string) (cs : list string) :
  sem year_regex w cs ->
  exists a b, w = String a (String b "") /\ is_digit a = true /\ is_digit b = true.
Proof.
  unfold year_regex. cbn [sem]. intros H.
  repeat match goal with
         | H : exists _, _ |- _ => destruct H
         | H : _ /\ _ |- _ => destruct H
         end; subst. cbn [String.append]. eauto.
Qed.

Lemma length_zero_empty (s : string) : String.length s = 0 -> s = "".
Proof. destruct s; [reflexivity | discriminate]. Qed.

(** Whatever [strptime] converts has the lenient format. *)
Lemma strptime_lenient (tok : string) (d : date) :
  strptime tok = Ok d -> is_lenient_format tok = true.
Proof.
  unfold strptime. intros H.
  destruct (re_match REFERENCE_DATE_REGEX tok) as [found|] eqn:E; [| discriminate].
  destruct (Nat.eqb (String.length tok) (mend found)) eqn:L; [| discriminate].
  clear H. apply Nat.eqb_eq in L.
  apply first_match_sound in E as (w & tl & Htok & Hend & Hsem).
  assert (tl = "").
  { apply length_zero_empty. rewrite Htok, length_append in L. lia. }
  subst tl. rewrite append_empty_r in Htok. subst w.
  unfold REFERENCE_DATE_REGEX in Hsem. cbn [sem] in Hsem.
  destruct Hsem as (w1 & w23 & c1 & c23 & -> & _ & (cd & Hd & _)
                    & (w2 & w3 & c2 & c3 & -> & _ & (cm & Hm & _) & (cy & Hy & _))).
  apply sem_month in Hm as (a & b & c & -> & Hm).
  apply sem_year in Hy as (y1 & y2 & -> & Hy1 & Hy2).
  apply sem_day in Hd as [(d1 & -> & Hd1) | (d1 & d2 & -> & Hd1 & Hd2)];
    cbn [String.append is_lenient_format].
  - now rewrite Hd1, Hm, Hy1, Hy2.
  - rewrite Hd2, Hm, Hy1, Hy2.
    destruct Hd1 as [-> | ->]; [reflexivity | now rewrite orb_true_r].
Qed.

Lemma parse_not_lenient (tok : string) :
  is_lenient_format tok = false -> DateParser.parse_reference_date tok = tok.
Proof.
  intros H. unfold DateParser.parse_reference_date.
  destruct (strptime tok) as [d|] eqn:E; [| reflexivity].
  apply strptime_lenient in E. congruence.
Qed.

(** C2, as stated, fails: the token 1Jul24 is not in the compact format
    of a two-digit day, a month abbreviation and a two-digit year, and it
    is not returned unchanged. *)
Lemma C2_counterexample_one_digit_day :
  is_compact_format "1Jul24" = false
  /\ DateParser.parse_reference_date "1Jul24" = "2024-07-01"
  /\ DateParser.parse_reference_date "1Jul24" <> "1Jul24".
Proof. repeat split. discriminate. Qed.

(** C2, amended.  A valid compact DDMonYY token is rendered as its ISO
    date, the two-digit year read as 1969..2068; a token is returned
    unchanged, and no error is raised, when it is not made of a day of
    one or two digits (or a space and a digit), a three-letter month
    abbreviation in any letter case, and a two-digit year. *)
Theorem C2_parse_reference_date (d m yy : nat) (tok : string) :
  (1 <= m <= 12 -> yy < 100 -> 1 <= d <= days_in_month (century yy) m ->
   DateParser.parse_reference_date (compact_token d m yy) = iso (century yy) m d)
  /\ (is_lenient_format tok = false -> DateParser.parse_reference_date tok = tok).
Proof. split; [apply parse_compact_token | apply parse_not_lenient]. Qed.

Lemma C2_parse_reference_date_witness :
  (1 <= 7 <= 12 /\ 24 < 100 /\ 1 <= 1 <= days_in_month (century 24) 7
   /\ DateParser.parse_reference_date "01Jul24" = "2024-07-01")
  /\ (is_lenient_format "2024-07-01" = false
      /\ DateParser.parse_reference_date "2024-07-01" = "2024-07-01").
Proof.
  split.
  - split; [lia |]. split; [lia |]. split; [simpl; lia |].
    apply (proj1 (C2_parse_reference_date 1 7 24 "2024-07-01")); simpl; lia.
  - split; [reflexivity |].
    apply (proj2 (C2_parse_reference_date 1 7 24 "2024-07-01")). reflexivity.
Defined.

(* ====================================================================== *)
(** * Further properties of the parsers and the driver *)
(* ====================================================================== *)

(** ** SummaryParser: what a returned summary looks like *)

Lemma nett_pay_groups_numeric (line : string) (m : rmatch) :
  re_search PatternConfig.NETT_PAY_PATTERN line = Some m ->
  all_chars is_digit_or_dot (group m 1) = true
  /\ all_chars is_digit_or_dot (group m 2) = true.
Proof.
  intros H. apply search_from_sound in H as (pre & w & tl & _ & H).
  unfold group. open_sem H.
  match goal with H : groups m = _ |- _ => rewrite H end. simpl. auto.
Qed.

Lemma disbursement_groups_numeric (line : string) (m : rmatch) :
  re_search PatternConfig.DISBURSEMENT_PATTERN line = Some m ->
  all_chars is_digit_or_dot (group m 1) = true.
Proof.
  intros H. apply search_from_sound in H as (pre & w & tl & _ & H).
  unfold group. open_sem H.
  match goal with H : groups m = _ |- _ => rewrite H end. simpl. auto.
Qed.

(** What one line can do to the summary: nothing, or set one of three
    groups of fields to numbers that are not negative. *)
Lemma summary_step_cases (line : string) (s s' : SummaryRecord.t) :
  SummaryParser.step line s = Ok s' ->
  s' = s
  \/ (exists g y, (0 <= g)%Q /\ (0 <= y)%Q /\ s' = SummaryRecord.set_gross g y s)
  \/ (exists n y, (0 <= n)%Q /\ (0 <= y)%Q /\ s' = SummaryRecord.set_nett n y s)
  \/ (exists a, (0 <= a)%Q /\ starts_with_label line = false
             /\ s' = SummaryRecord.set_disbursement a s).
Proof.
  unfold SummaryParser.step, starts_with_label. intros H.
  destruct (startswith "Gross Pay" (strip line)).
  { destruct (re_search _ line) as [m|] eqn:E; [| left; now injection H as <-].
    apply gross_pay_groups_numeric in E as [G1 G2].
    destruct (float (group m 1)) as [g|] eqn:F1; [| discriminate].
    destruct (float (group m 2)) as [y|] eqn:F2; [| discriminate].
    injection H as <-. right; left. exists g, y.
    split; [apply (float_nonneg _ _ G1 F1) |].
    split; [apply (float_nonneg _ _ G2 F2) | reflexivity]. }
  destruct (startswith "Tax" (strip line) && negb (startswith "Tax" line)) eqn:ET.
  { apply andb_prop in ET as [_ ET]. apply negb_true_iff in ET.
    rewrite (tax_search_none _ ET) in H. left. now injection H as <-. }
  destruct (startswith "Nett Pay" (strip line)).
  { destruct (re_search _ line) as [m|] eqn:E; [| left; now injection H as <-].
    apply nett_pay_groups_numeric in E as [G1 G2].
    destruct (float (group m 1)) as [n|] eqn:F1; [| discriminate].
    destruct (float (group m 2)) as [y|] eqn:F2; [| discriminate].
    injection H as <-. right; right; left. exists n, y.
    split; [apply (float_nonneg _ _ G1 F1) |].
    split; [apply (float_nonneg _ _ G2 F2) | reflexivity]. }
  destruct (contains _ line); [| left; now injection H as <-].
  destruct (re_search _ line) as [m|] eqn:E; [| left; now injection H as <-].
  apply disbursement_groups_numeric in E.
  destruct (float (group m 1)) as [a|] eqn:F1; [| discriminate].
  injection H as <-. right; right; right. exists a.
  split; [apply (float_nonneg _ _ E F1) |]. split; reflexivity.
Qed.

Lemma summary_loop_inv (P : SummaryRecord.t -> Prop) (lines : list string) :
  (forall l s s', In l lines -> P s -> SummaryParser.step l s = Ok s' -> P s') ->
  forall s s', P s -> SummaryParser.loop lines s = Ok s' -> P s'.
Proof.
  induction lines as [|l lines IH]; intros Hstep s s' Hs H; simpl in H.
  - now injection H as <-.
  - destruct (SummaryParser.step l s) as [s1|] eqn:E; [| discriminate].
    simpl in H. eapply IH; [| | exact H].
    + intros; eapply Hstep; eauto. now right.
    + eapply Hstep; eauto. now left.
Qed.

(** The identifying fields of a summary are those of the call. *)
Lemma summary_extract_identity
        (lines : list string) (f : string) (p : Z) (info : PayPeriodInfo.t)
        (s : SummaryRecord.t) :
  SummaryParser.extract lines f p info = Ok s ->
  SummaryRecord.pdf_file s = f /\ SummaryRecord.page s = p
  /\ SummaryRecord.pay_period s = PayPeriodInfo.period info
  /\ SummaryRecord.paid_date s = PayPeriodInfo.paid_date info.
Proof.
  unfold SummaryParser.extract. intros H.
  apply (summary_loop_inv
           (fun s => SummaryRecord.pdf_file s = f /\ SummaryRecord.page s = p
                     /\ SummaryRecord.pay_period s = PayPeriodInfo.period info
                     /\ SummaryRecord.paid_date s = PayPeriodInfo.paid_date info)
           lines) in H; [exact H | | repeat split].
  intros l s0 s1 _ Hs0 Hstep.
  destruct (summary_step_cases _ _ _ Hstep)
    as [-> | [(g & y & _ & _ & ->) | [(n & y & _ & _ & ->) | (a & _ & _ & ->)]]];
    exact Hs0.
Qed.


(** X1.  A returned summary carries the file name, the page number and
    the pay period and paid date it was called with: no line changes
    them. *)
Theorem X1_summary_keeps_identity
        (lines : list string) (f : string) (p : Z) (info : PayPeriodInfo.t)
        (s : SummaryRecord.t) :
  SummaryParser.extract lines f p info = Ok s ->
  SummaryRecord.pdf_file s = f /\ SummaryRecord.page s = p
  /\ SummaryRecord.pay_period s = PayPeriodInfo.period info
  /\ SummaryRecord.paid_date s = PayPeriodInfo.paid_date info.
Proof. apply summary_extract_identity. Qed.

Lemma X1_summary_keeps_identity_witness :
  SummaryParser.extract example_summary_lines "a.pdf" 3 example_info
  = Ok (example_summary "a.pdf" 3)
  /\ (SummaryRecord.pdf_file (example_summary "a.pdf" 3) = "a.pdf"
      /\ SummaryRecord.page (example_summary "a.pdf" 3) = 3%Z
      /\ SummaryRecord.pay_period (example_summary "a.pdf" 3)
         = PayPeriodInfo.period example_info
      /\ SummaryRecord.paid_date (example_summary "a.pdf" 3)
         = PayPeriodInfo.paid_date example_info).
Proof.
  split; [vm_compute; reflexivity |].
  apply (X1_summary_keeps_identity example_summary_lines "a.pdf" 3 example_info).
  vm_compute; reflexivity.
Defined.

(** X2.  No amount of a returned summary is negative: every amount is
    unset or read from a group of digits and dots. *)
Theorem X2_summary_amounts_nonnegative
        (lines : list string) (f : string) (p : Z) (info : PayPeriodInfo.t)
        (s : SummaryRecord.t) :
  SummaryParser.extract lines f p info = Ok s -> summary_amounts_nonneg s.
Proof.
  unfold SummaryParser.extract. intros H.
  apply (summary_loop_inv summary_amounts_nonneg lines) in H;
    [exact H | | repeat split].
  intros l s0 s1 _ (H1 & H2 & H3 & H4 & H5 & H6 & H7) Hstep.
  destruct (summary_step_cases _ _ _ Hstep)
    as [-> | [(g & y & Hg & Hy & ->) | [(n & y & Hn & Hy & ->) | (a & Ha & _ & ->)]]];
    repeat split; assumption.
Qed.

Lemma X2_summary_amounts_nonnegative_witness :
  SummaryParser.extract example_summary_lines "a.pdf" 3 example_info
  = Ok (example_summary "a.pdf" 3)
  /\ summary_amounts_nonneg (example_summary "a.pdf" 3).
Proof.
  split; [vm_compute; reflexivity |].
  apply (X2_summary_amounts_nonnegative example_summary_lines "a.pdf" 3 example_info).
  vm_compute; reflexivity.
Defined.

(** X3.  Whatever the lines, a returned summary has no tax figure: the
    Tax branch is entered only for lines that do not start with "Tax",
    and its pattern matches only lines that do. *)
Theorem X3_summary_never_has_tax
        (lines : list string) (f : string) (p : Z) (info : PayPeriodInfo.t)
        (s : SummaryRecord.t) :
  SummaryParser.extract lines f p info = Ok s ->
  SummaryRecord.tax s = None /\ SummaryRecord.ytd_tax s = None.
Proof. unfold SummaryParser.extract. intros H. now apply summary_loop_tax in H. Qed.

Lemma X3_summary_never_has_tax_witness :
  SummaryParser.extract example_summary_lines "a.pdf" 3 example_info
  = Ok (example_summary "a.pdf" 3)
  /\ (SummaryRecord.tax (example_summary "a.pdf" 3) = None
      /\ SummaryRecord.ytd_tax (example_summary "a.pdf" 3) = None).
Proof.
  split; [vm_compute; reflexivity |].
  apply (X3_summary_never_has_tax example_summary_lines "a.pdf" 3 example_info).
  vm_compute; reflexivity.
Defined.

(** X4.  The bank branch comes last: a line taken by a label branch
    never sets the disbursement amount, even when it holds the bank name
    and an amount.  When every line is such a line the amount stays
    unset. *)
Theorem X4_label_lines_never_set_disbursement
        (lines : list string) (f : string) (p : Z) (info : PayPeriodInfo.t)
        (s : SummaryRecord.t) :
  Forall (fun l => starts_with_label l = true) lines ->
  SummaryParser.extract lines f p info = Ok s ->
  SummaryRecord.disbursement_amount s = None.
Proof.
  unfold SummaryParser.extract. intros Hall H.
  apply (summary_loop_inv (fun s => SummaryRecord.disbursement_amount s = None)
                          lines) in H; [exact H | | reflexivity].
  intros l s0 s1 Hin Hs0 Hstep.
  destruct (summary_step_cases _ _ _ Hstep)
    as [-> | [(g & y & _ & _ & ->) | [(n & y & _ & _ & ->) | (a & _ & Hl & ->)]]];
    try exact Hs0.
  rewrite List.Forall_forall in Hall. rewrite (Hall _ Hin) in Hl. discriminate.
Qed.

Lemma X4_label_lines_never_set_disbursement_witness :
  Forall (fun l => starts_with_label l = true)
         ["Nett Pay 1100.00 22000.00 Commonwealth Bank of Australia 1 9.99"]
  /\ SummaryParser.extract
       ["Nett Pay 1100.00 22000.00 Commonwealth Bank of Australia 1 9.99"]
       "a.pdf" 3 example_info
     = Ok (SummaryRecord.Make "a.pdf" 3
             (Some "01/07/2024 to 14/07/2024") (Some "18/07/2024")
             None None (Some (Qred 1100.00)) None None (Some (Qred 22000.00)) None)
  /\ SummaryRecord.disbursement_amount
       (SummaryRecord.Make "a.pdf" 3
             (Some "01/07/2024 to 14/07/2024") (Some "18/07/2024")
             None None (Some (Qred 1100.00)) None None (Some (Qred 22000.00)) None)
     = None.
Proof.
  split; [repeat constructor |]. split; [vm_compute; reflexivity |].
  apply (X4_label_lines_never_set_disbursement
           ["Nett Pay 1100.00 22000.00 Commonwealth Bank of Australia 1 9.99"]
           "a.pdf" 3 example_info);
    [repeat constructor | vm_compute; reflexivity].
Defined.

(** ** PaymentParser: what is captured, what is skipped, what raises *)

Lemma payment_loop_outside (lines : list string) (f : string) (p : Z)
      (info : PayPeriodInfo.t) (items : list (nat * string)) :
  (forall i x, In (i, x) items ->
     PaymentParser.body lines f p info i x (false, []) = Next (false, [])) ->
  for_loop (PaymentParser.body lines f p info) items (false, []) = Next (false, []).
Proof.
  induction items as [|[i x] items IH]; intros H; cbn [for_loop]; [reflexivity |].
  rewrite (H i x) by now left. apply IH. intros; apply H; now right.
Qed.

(** X5.  Without a section header nothing is captured and nothing is
    raised: when no line starts (trimmed) with "Payments", or no line
    holds "Hours", the result is the empty list, payment-shaped lines or
    not. *)
Theorem X5_no_header_no_payments
        (lines : list string) (f : string) (p : Z) (info : PayPeriodInfo.t) :
  Forall (fun l => startswith "Payments" (strip l) = false) lines
  \/ Forall (fun l => contains "Hours" l = false) lines ->
  PaymentParser.extract lines f p info = Ok [].
Proof.
  intros H. unfold PaymentParser.extract.
  rewrite payment_loop_outside; [reflexivity |].
  intros i x Hin. unfold PaymentParser.body.
  assert (Hx : In x lines) by (apply in_combine_r in Hin; exact Hin).
  destruct H as [H | H]; rewrite List.Forall_forall in H.
  - now rewrite (H x Hx).
  - rewrite (H x Hx).
    destruct (nth_error lines (i + 1)) as [n|] eqn:E.
    + apply nth_error_In in E. rewrite (H n E). now rewrite andb_false_r.
    + now rewrite andb_false_r.
Qed.

Lemma X5_no_header_no_payments_witness :
  (Forall (fun l => startswith "Payments" (strip l) = false)
          ["Hours Rate"; example_payment_line]
   \/ Forall (fun l => contains "Hours" l = false)
             ["Hours Rate"; example_payment_line])
  /\ PaymentParser.extract ["Hours Rate"; example_payment_line]
                           "a.pdf" 1 example_info = Ok [].
Proof.
  split; [left; repeat constructor |].
  apply (X5_no_header_no_payments ["Hours Rate"; example_payment_line]
           "a.pdf" 1 example_info).
  left; repeat constructor.
Defined.

Lemma payment_body_of_call (lines : list string) (f : string) (p : Z)
      (info : PayPeriodInfo.t) (i : nat) (line : string)
      (s1 s2 : PaymentParser.state) :
  Forall (payment_of_call f p info) (snd s1) ->
  PaymentParser.body lines f p info i line s1 = Next s2
  \/ PaymentParser.body lines f p info i line s1 = Break s2 ->
  Forall (payment_of_call f p info) (snd s2).
Proof.
  destruct s1 as [b acc]. unfold PaymentParser.body. intros Hacc H.
  destruct (startswith "Payments" (strip line) && _).
  { destruct H as [[= <-] | [=]]; exact Hacc. }
  destruct b; [| destruct H as [[= <-] | [=]]; exact Hacc].
  destruct (PaymentParser.is_end_marker line).
  { destruct H as [[=] | [= <-]]; exact Hacc. }
  destruct (re_match _ line) as [m|];
    [| destruct H as [[= <-] | [=]]; exact Hacc].
  destruct (float (group m 1)); simpl in H; [| destruct H; discriminate].
  destruct (float (group m 2)); simpl in H; [| destruct H; discriminate].
  destruct (float (group m 4)); simpl in H; [| destruct H; discriminate].
  destruct H as [[= <-] | [=]]. simpl.
  apply Forall_app; split; [exact Hacc |]. constructor; [| constructor].
  repeat split.
Qed.

(** The records of a call carry the fields of the call. *)
Lemma payment_extract_of_call
        (lines : list string) (f : string) (p : Z) (info : PayPeriodInfo.t)
        (payments : list PaymentRecord.t) :
  PaymentParser.extract lines f p info = Ok payments ->
  Forall (payment_of_call f p info) payments.
Proof.
  unfold PaymentParser.extract. intros H.
  pose proof (for_loop_inv (fun s => Forall (payment_of_call f p info) (snd s))
                (PaymentParser.body lines f p info) (enumerate lines)
                (false, []) (List.Forall_nil _)
                (fun i x s1 s2 => payment_body_of_call lines f p info i x s1 s2)) as Inv.
  destruct (for_loop _ _ _) as [[b acc]|[b acc]|]; [| | discriminate];
    injection H as <-; exact Inv.
Qed.


(** X6.  Every record of a call carries the file name, the page number,
    the pay period and the paid date the call was given. *)
Theorem X6_payments_carry_call_fields
        (lines : list string) (f : string) (p : Z) (info : PayPeriodInfo.t)
        (payments : list PaymentRecord.t) :
  PaymentParser.extract lines f p info = Ok payments ->
  Forall (payment_of_call f p info) payments.
Proof. apply payment_extract_of_call. Qed.

Lemma X6_payments_carry_call_fields_witness :
  PaymentParser.extract example_lines "a.pdf" 1 example_info
  = Ok [example_payment "a.pdf" 1 example_info]
  /\ Forall (payment_of_call "a.pdf" 1 example_info)
            [example_payment "a.pdf" 1 example_info].
Proof.
  split; [vm_compute; reflexivity |].
  apply (X6_payments_carry_call_fields example_lines "a.pdf" 1 example_info).
  vm_compute; reflexivity.
Defined.

Lemma payment_match_needs_label (line : string) :
  startswith "CAS OrdPay (incCASloading)" line = false ->
  re_match PatternConfig.PAYMENT_PATTERN line = None.
Proof.
  intros H. unfold re_match, first_match, PatternConfig.PAYMENT_PATTERN.
  cbn [run rest flat_map]. now rewrite H.
Qed.

(** X7.  The payment pattern is matched at the start of the raw line:
    when no raw line starts with the ordinary-pay label, as when every
    payment line is indented, nothing is captured, header or not. *)
Theorem X7_indented_payment_lines_are_skipped
        (lines : list string) (f : string) (p : Z) (info : PayPeriodInfo.t) :
  Forall (fun l => startswith "CAS OrdPay (incCASloading)" l = false) lines ->
  PaymentParser.extract lines f p info = Ok [].
Proof.
  intros H. apply payment_extract_no_match.
  eapply List.Forall_impl; [| exact H]. intros l Hl.
  now apply payment_match_needs_label.
Qed.

Lemma X7_indented_payment_lines_are_skipped_witness :
  Forall (fun l => startswith "CAS OrdPay (incCASloading)" l = false)
         ["Payments Hours Rate"; " " ++ example_payment_line]
  /\ PaymentParser.extract ["Payments Hours Rate"; " " ++ example_payment_line]
                           "a.pdf" 1 example_info = Ok [].
Proof.
  split; [repeat constructor |].
  apply (X7_indented_payment_lines_are_skipped
           ["Payments Hours Rate"; " " ++ example_payment_line]
           "a.pdf" 1 example_info).
  repeat constructor.
Defined.

Lemma token_elim (p : ascii -> bool) (s : string) :
  token p s = true -> all_chars p s = true /\ s <> "".
Proof.
  unfold token. intros H. apply andb_prop in H as [H1 H2]. split; [exact H1 |].
  intros ->. discriminate H2.
Qed.

Lemma word_not_space (c : ascii) : is_word c = true -> is_space c = false.
Proof. destruct c as [[] [] [] [] [] [] [] []]; intros H; try reflexivity; discriminate H. Qed.

Lemma space_not_word (c : ascii) : is_space c = true -> is_word c = false.
Proof. destruct c as [[] [] [] [] [] [] [] []]; intros H; try reflexivity; discriminate H. Qed.

(** A printed ordinary-pay line is matched, with its four fields as
    groups. *)
Lemma payment_line_matches (sp1 h sp2 r sp3 d sp4 a tl : string) :
  payment_line_ok sp1 h sp2 r sp3 d sp4 a tl = true ->
  exists e,
    re_match PatternConfig.PAYMENT_PATTERN (payment_line sp1 h sp2 r sp3 d sp4 a tl)
    = Some (RMatch [h; r; d; a] e).
Proof.
  unfold payment_line_ok. intros H.
  repeat match goal with
         | H : _ && _ = true |- _ => apply andb_prop in H as [H ?]
         end.
  repeat match goal with
         | H : token _ _ = true |- _ => apply token_elim in H as [? ?]
         end.
  pose (n0 := String.length "CAS OrdPay (incCASloading)").
  pose proof (run_lit "CAS OrdPay (incCASloading)"
                (sp1 ++ h ++ sp2 ++ r ++ sp3 ++ d ++ sp4 ++ a ++ tl) 0 []) as R0.
  edestruct (run_plus_greedy is_space sp1 (h ++ sp2 ++ r ++ sp3 ++ d ++ sp4 ++ a ++ tl)
               (0 + n0) []) as [l1 R1]; [eassumption | assumption | |].
  { eapply stops_disjoint; [exact digit_or_dot_not_space | eassumption | assumption]. }
  edestruct (run_group_plus_greedy is_digit_or_dot h
               (sp2 ++ r ++ sp3 ++ d ++ sp4 ++ a ++ tl)
               (0 + n0 + String.length sp1) []) as [l2 R2];
    [eassumption | assumption | |].
  { eapply stops_disjoint; [exact space_not_digit_or_dot | eassumption | assumption]. }
  edestruct (run_plus_greedy is_space sp2 (r ++ sp3 ++ d ++ sp4 ++ a ++ tl)
               (0 + n0 + String.length sp1 + String.length h) ([] ++ [h])%list)
    as [l3 R3]; [eassumption | assumption | |].
  { eapply stops_disjoint; [exact digit_or_dot_not_space | eassumption | assumption]. }
  edestruct (run_group_plus_greedy is_digit_or_dot r (sp3 ++ d ++ sp4 ++ a ++ tl)
               (0 + n0 + String.length sp1 + String.length h + String.length sp2)
               ([] ++ [h])%list) as [l4 R4]; [eassumption | assumption | |].
  { eapply stops_disjoint; [exact space_not_digit_or_dot | eassumption | assumption]. }
  edestruct (run_plus_greedy is_space sp3 (d ++ sp4 ++ a ++ tl)
               (0 + n0 + String.length sp1 + String.length h + String.length sp2
                + String.length r) (([] ++ [h]) ++ [r])%list)
    as [l5 R5]; [eassumption | assumption | |].
  { eapply stops_disjoint; [exact word_not_space | eassumption | assumption]. }
  edestruct (run_group_plus_greedy is_word d (sp4 ++ a ++ tl)
               (0 + n0 + String.length sp1 + String.length h + String.length sp2
                + String.length r + String.length sp3) (([] ++ [h]) ++ [r])%list)
    as [l6 R6]; [eassumption | assumption | |].
  { eapply stops_disjoint; [exact space_not_word | eassumption | assumption]. }
  edestruct (run_plus_greedy is_space sp4 (a ++ tl)
               (0 + n0 + String.length sp1 + String.length h + String.length sp2
                + String.length r + String.length sp3 + String.length d)
               ((([] ++ [h]) ++ [r]) ++ [d])%list)
    as [l7 R7]; [eassumption | assumption | |].
  { eapply stops_disjoint; [exact digit_or_dot_not_space | eassumption | assumption]. }
  edestruct (run_group_plus_greedy is_digit_or_dot a tl
               (0 + n0 + String.length sp1 + String.length h + String.length sp2
                + String.length r + String.length sp3 + String.length d
                + String.length sp4)
               ((([] ++ [h]) ++ [r]) ++ [d])%list)
    as [l8 R8]; [eassumption | assumption | assumption |].
  destruct (run_seq_head _ _ _ _ _ _ _ R7 R8) as [k7 S7].
  destruct (run_seq_head _ _ _ _ _ _ _ R6 S7) as [k6 S6].
  destruct (run_seq_head _ _ _ _ _ _ _ R5 S6) as [k5 S5].
  destruct (run_seq_head _ _ _ _ _ _ _ R4 S5) as [k4 S4].
  destruct (run_seq_head _ _ _ _ _ _ _ R3 S4) as [k3 S3].
  destruct (run_seq_head _ _ _ _ _ _ _ R2 S3) as [k2 S2].
  destruct (run_seq_head _ _ _ _ _ _ _ R1 S2) as [k1 S1].
  destruct (run_seq_head _ _ _ _ _ _ _ R0 S1) as [k0 S0].
  unfold re_match, first_match, PatternConfig.PAYMENT_PATTERN, payment_line.
  rewrite S0. cbn [caps pos app]. eauto.
Qed.

Lemma rstrip_head (c : ascii) (s : string) :
  is_space c = false -> exists t, rstrip (String c s) = String c t.
Proof. intros H. simpl. rewrite H. destruct (rstrip s); eauto. Qed.

(** In the section, a printed ordinary-pay line adds the record read
    from its fields, or raises when a number cannot be read. *)
Lemma payment_line_body (lines : list string) (f : string) (p : Z)
      (info : PayPeriodInfo.t) (i : nat) (acc : list PaymentRecord.t)
      (sp1 h sp2 r sp3 d sp4 a tl : string) :
  payment_line_ok sp1 h sp2 r sp3 d sp4 a tl = true ->
  PaymentParser.body lines f p info i (payment_line sp1 h sp2 r sp3 d sp4 a tl)
                     (true, acc)
  = match float h, float r, float a with
    | Ok hours, Ok rate, Ok amount =>
        Next (true,
              (acc ++ [PaymentRecord.Make f p (PayPeriodInfo.period info)
                         (PayPeriodInfo.paid_date info)
                         (DateParser.parse_reference_date d)
                         hours rate amount])%list)
    | _, _, _ => Raise
    end.
Proof.
  intros Hok. destruct (payment_line_matches _ _ _ _ _ _ _ _ _ Hok) as [e He].
  unfold PaymentParser.body, PaymentParser.is_end_marker. rewrite He.
  assert (Hs : exists t, strip (payment_line sp1 h sp2 r sp3 d sp4 a tl) = String "C" t).
  { unfold strip, payment_line. cbn [String.append lstrip].
    replace (is_space "C") with false by reflexivity.
    now apply rstrip_head. }
  destruct Hs as [t ->]. cbn [startswith Ascii.eqb Bool.eqb andb orb].
  cbn [group groups nth Nat.sub].
  destruct (float h); cbn [rbind]; [| reflexivity].
  destruct (float r); cbn [rbind]; [| reflexivity].
  destruct (float a); cbn [rbind]; reflexivity.
Qed.

Lemma combine_seq_app {A : Type} (a b : list A) : forall k,
  combine (seq k (List.length (a ++ b)%list)) (a ++ b)%list
  = (combine (seq k (List.length a)) a
     ++ combine (seq (k + List.length a) (List.length b)) b)%list.
Proof.
  induction a as [|x a IH]; intros k; cbn [app List.length seq combine].
  - now rewrite Nat.add_0_r.
  - rewrite IH. now replace (S k + List.length a) with (k + S (List.length a)) by lia.
Qed.

(** Lines before the header leave the loop outside the section, and
    after the header the loop stands in the section with no payment. *)
Lemma after_header (pre header rest : list string) (f : string) (p : Z)
      (info : PayPeriodInfo.t) :
  Forall (fun l => startswith "Payments" (strip l) = false) pre ->
  payments_header header = true ->
  for_loop (PaymentParser.body (pre ++ header ++ rest)%list f p info)
           (enumerate (pre ++ header ++ rest)%list) (false, [])
  = for_loop (PaymentParser.body (pre ++ header ++ rest)%list f p info)
             (combine (seq (List.length pre + List.length header) (List.length rest))
                      rest)
             (true, []).
Proof.
  intros Hpre H. unfold enumerate.
  rewrite combine_seq_app, for_loop_app, payment_loop_outside.
  2:{ intros i x Hin. apply in_combine_r in Hin.
      rewrite List.Forall_forall in Hpre. unfold PaymentParser.body.
      now rewrite (Hpre x Hin). }
  cbn [Nat.add].
  assert (Hnext : forall n tl,
             nth_error (pre ++ n :: tl)%list (List.length pre) = Some n).
  { intros n tl. rewrite nth_error_app2 by lia. now rewrite Nat.sub_diag. }
  destruct header as [|h [|n [|x header]]];
    unfold payments_header in H; try discriminate.
  - apply andb_prop in H as [H1 H2].
    cbn [app List.length seq combine for_loop].
    unfold PaymentParser.body at 1. rewrite H1, H2. cbn [orb andb].
    now rewrite Nat.add_1_r.
  - apply andb_prop in H as [H H4]. apply andb_prop in H as [H H3].
    apply andb_prop in H as [H1 H2]. apply negb_true_iff in H3.
    cbn [app List.length seq combine for_loop].
    unfold PaymentParser.body at 1.
    replace (nth_error (pre ++ h :: n :: rest)%list (List.length pre + 1))
      with (Some n).
    2:{ symmetry. rewrite nth_error_app2 by lia.
        now replace (List.length pre + 1 - List.length pre) with 1 by lia. }
    rewrite H1, H2, orb_true_r. cbn [andb].
    unfold PaymentParser.body at 1. rewrite H2, H3. cbn [orb].
    replace (S (S (List.length pre))) with (List.length pre + 2) by lia.
    destruct (re_match PatternConfig.PAYMENT_PATTERN n); [discriminate |].
    destruct (startswith "Payments" (strip n) && true); reflexivity.
Qed.

Lemma payment_lines_loop (lines : list string) (f : string) (p : Z)
      (info : PayPeriodInfo.t) (rest : list string)
      (ls : list string) (recs : list PaymentRecord.t) :
  Forall2 (line_record f p info) ls recs ->
  forall (k : nat) (acc : list PaymentRecord.t),
  for_loop (PaymentParser.body lines f p info)
           (combine (seq k (List.length (ls ++ rest)%list)) (ls ++ rest)%list) (true, acc)
  = for_loop (PaymentParser.body lines f p info)
             (combine (seq (k + List.length ls) (List.length rest)) rest)
             (true, (acc ++ recs)%list).
Proof.
  induction 1 as [|l r ls recs Hl _ IH]; intros k acc.
  - cbn [app List.length]. now rewrite Nat.add_0_r, app_nil_r.
  - destruct Hl as (sp1 & h & sp2 & rt & sp3 & d & sp4 & a & tl & hours & rate & amount
                    & -> & Hok & Fh & Fr & Fa & ->).
    cbn [app List.length seq combine for_loop].
    rewrite (payment_line_body _ _ _ _ _ _ _ _ _ _ _ _ _ _ _ Hok), Fh, Fr, Fa.
    rewrite IH. rewrite <- app_assoc. cbn [app].
    now replace (S k + List.length ls) with (k + S (List.length ls)) by lia.
Qed.

(** X8.  After a section header, printed ordinary-pay lines whose
    numbers can be read yield one record each, in the order of the
    lines: hours, rate and amount are the numbers, the work date is the
    reference date as [DateParser] renders it, the other fields are
    those of the call.  Lines before the header have no effect, end
    markers and payment lines among them, as long as none starts
    (trimmed) with "Payments". *)
Theorem X8_payment_lines_yield_their_records
        (pre header ls : list string) (f : string) (p : Z) (info : PayPeriodInfo.t)
        (recs : list PaymentRecord.t) :
  Forall (fun l => startswith "Payments" (strip l) = false) pre ->
  payments_header header = true ->
  Forall2 (line_record f p info) ls recs ->
  PaymentParser.extract (pre ++ header ++ ls)%list f p info = Ok recs.
Proof.
  intros Hpre Hh Hls. unfold PaymentParser.extract.
  rewrite (after_header _ _ _ _ _ _ Hpre Hh).
  rewrite <- (app_nil_r ls) at 2 3.
  rewrite (payment_lines_loop _ _ _ _ [] _ _ Hls). reflexivity.
Qed.

Lemma X8_payment_lines_yield_their_records_witness :
  Forall (fun l => startswith "Payments" (strip l) = false)
         ["Deductions"; example_payment_line]
  /\ payments_header ["Payments Hours Rate"] = true
  /\ Forall2 (line_record "a.pdf" 2 example_info)
       [ "CAS OrdPay (incCASloading)  3 50.25 15Aug24   150.75 paid";
         example_payment_line ]
       [ PaymentRecord.Make "a.pdf" 2
           (Some "01/07/2024 to 14/07/2024") (Some "18/07/2024")
           "2024-08-15" (Qred 3) (Qred 50.25) (Qred 150.75);
         example_payment "a.pdf" 2 example_info ]
  /\ PaymentParser.extract
       [ "Deductions"; example_payment_line; "Payments Hours Rate";
         "CAS OrdPay (incCASloading)  3 50.25 15Aug24   150.75 paid";
         example_payment_line ]
       "a.pdf" 2 example_info
     = Ok [ PaymentRecord.Make "a.pdf" 2
              (Some "01/07/2024 to 14/07/2024") (Some "18/07/2024")
              "2024-08-15" (Qred 3) (Qred 50.25) (Qred 150.75);
            example_payment "a.pdf" 2 example_info ].
Proof.
  assert (H : Forall2 (line_record "a.pdf" 2 example_info)
       [ "CAS OrdPay (incCASloading)  3 50.25 15Aug24   150.75 paid";
         example_payment_line ]
       [ PaymentRecord.Make "a.pdf" 2
           (Some "01/07/2024 to 14/07/2024") (Some "18/07/2024")
           "2024-08-15" (Qred 3) (Qred 50.25) (Qred 150.75);
         example_payment "a.pdf" 2 example_info ]).
  { constructor; [| constructor; [| constructor]].
    - exists "  ", "3", " ", "50.25", " ", "15Aug24", "   ", "150.75", " paid",
        (Qred 3), (Qred 50.25), (Qred 150.75). repeat split.
    - exists " ", "7.6", " ", "45.50", " ", "01Jul24", " ", "345.80", "",
        (Qred 7.6), (Qred 45.50), (Qred 345.80). repeat split. }
  split; [repeat constructor |]. split; [reflexivity |]. split; [exact H |].
  apply (X8_payment_lines_yield_their_records
           ["Deductions"; example_payment_line] ["Payments Hours Rate"]
           [ "CAS OrdPay (incCASloading)  3 50.25 15Aug24   150.75 paid";
             example_payment_line ] "a.pdf" 2 example_info);
    [repeat constructor | reflexivity | exact H].
Defined.

(** X9.  A number that cannot be read is not skipped: after a section
    header and any printed ordinary-pay lines, a printed line with such
    a number in its hours, rate or amount makes the call raise, whatever
    follows; the records read before it are not returned. *)
Theorem X9_unreadable_number_raises
        (header ls after : list string) (f : string) (p : Z) (info : PayPeriodInfo.t)
        (recs : list PaymentRecord.t)
        (sp1 h sp2 r sp3 d sp4 a tl : string) :
  payments_header header = true ->
  Forall2 (line_record f p info) ls recs ->
  payment_line_ok sp1 h sp2 r sp3 d sp4 a tl = true ->
  float h = ValueError \/ float r = ValueError \/ float a = ValueError ->
  PaymentParser.extract
    (header ++ ls ++ payment_line sp1 h sp2 r sp3 d sp4 a tl :: after)%list f p info
  = ValueError.
Proof.
  intros Hh Hls Hok Hbad. unfold PaymentParser.extract.
  pose proof (after_header [] header
                (ls ++ payment_line sp1 h sp2 r sp3 d sp4 a tl :: after)%list
                f p info (List.Forall_nil _) Hh) as AH.
  cbn [app List.length Nat.add] in AH. rewrite AH.
  rewrite (payment_lines_loop _ _ _ _ _ _ _ Hls).
  cbn [List.length seq combine for_loop].
  rewrite (payment_line_body _ _ _ _ _ _ _ _ _ _ _ _ _ _ _ Hok).
  destruct Hbad as [E | [E | E]]; rewrite E;
    repeat match goal with
           | |- context [match float ?x with _ => _ end] => destruct (float x)
           end; reflexivity.
Qed.

Lemma X9_unreadable_number_raises_witness :
  payments_header ["Payments Hours Rate"] = true
  /\ Forall2 (line_record "a.pdf" 1 example_info)
             [example_payment_line] [example_payment "a.pdf" 1 example_info]
  /\ payment_line_ok " " "7.6" " " "45.5.0" " " "01Jul24" " " "345.80" "" = true
  /\ (float "7.6" = ValueError \/ float "45.5.0" = ValueError
      \/ float "345.80" = ValueError)
  /\ PaymentParser.extract
       ["Payments Hours Rate";
        example_payment_line;
        "CAS OrdPay (incCASloading) 7.6 45.5.0 01Jul24 345.80";
        "Deductions"]
       "a.pdf" 1 example_info
     = ValueError.
Proof.
  assert (H : Forall2 (line_record "a.pdf" 1 example_info)
                [example_payment_line] [example_payment "a.pdf" 1 example_info]).
  { constructor; [| constructor].
    exists " ", "7.6", " ", "45.50", " ", "01Jul24", " ", "345.80", "",
      (Qred 7.6), (Qred 45.50), (Qred 345.80). repeat split. }
  split; [reflexivity |]. split; [exact H |]. split; [reflexivity |].
  split; [right; left; reflexivity |].
  apply (X9_unreadable_number_raises
           ["Payments Hours Rate"] [example_payment_line] ["Deductions"]
           "a.pdf" 1 example_info [example_payment "a.pdf" 1 example_info]
           " " "7.6" " " "45.5.0" " " "01Jul24" " " "345.80" "");
    [reflexivity | exact H | reflexivity | right; left; reflexivity].
Defined.

(** ** PDFProcessor: pages and their records *)

Lemma process_page_ok (self self' : PDFProcessor.t) (text : string) (n : Z) :
  PDFProcessor._process_page self text n = Ok self' ->
  exists payments summary,
    PaymentParser.extract (split_lines text) (PDFProcessor.pdf_filename self) n
                          (PayPeriodParser.extract (split_lines text)) = Ok payments
    /\ SummaryParser.extract (split_lines text) (PDFProcessor.pdf_filename self) n
                             (PayPeriodParser.extract (split_lines text)) = Ok summary
    /\ self' = PDFProcessor.Make (PDFProcessor.pdf_path self)
                 (PDFProcessor.pdf_filename self)
                 (PDFProcessor.payments self ++ payments)%list
                 (PDFProcessor.summaries self ++ [summary])%list.
Proof.
  unfold PDFProcessor._process_page. intros H.
  destruct (PaymentParser.extract _ _ _ _) as [pays|]; [| discriminate].
  cbn [rbind PDFProcessor.pdf_filename PDFProcessor.pdf_path PDFProcessor.payments
       PDFProcessor.summaries] in H.
  destruct (SummaryParser.extract _ _ _ _) as [s|]; [| discriminate].
  cbn [rbind] in H. injection H as <-. eauto.
Qed.

Lemma summary_page_of_extract (lines : list string) (f : string) (n : Z)
      (info : PayPeriodInfo.t) (s : SummaryRecord.t) :
  SummaryParser.extract lines f n info = Ok s -> SummaryRecord.page s = n.
Proof. intros H. now apply summary_extract_identity in H as (_ & H & _). Qed.

(** What a run over the pages adds to the processor. *)
Lemma process_pages_spec (pages : list (option string)) :
  forall (self self' : PDFProcessor.t) (n : Z),
  PDFProcessor.process_pages self pages n = Ok self' ->
  PDFProcessor.pdf_path self' = PDFProcessor.pdf_path self
  /\ PDFProcessor.pdf_filename self' = PDFProcessor.pdf_filename self
  /\ exists payments summaries,
       PDFProcessor.payments self' = (PDFProcessor.payments self ++ payments)%list
       /\ PDFProcessor.summaries self' = (PDFProcessor.summaries self ++ summaries)%list
       /\ map SummaryRecord.page summaries = text_pages pages n
       /\ Forall (summary_of_file (PDFProcessor.pdf_filename self)) summaries
       /\ Forall (payment_of_file (PDFProcessor.pdf_filename self) (text_pages pages n))
                 payments.
Proof.
  induction pages as [|text pages IH]; intros self self' n H;
    cbn [PDFProcessor.process_pages text_pages] in *.
  - injection H as <-. repeat split. exists [], [].
    rewrite !app_nil_r. repeat split; constructor.
  - destruct (PDFProcessor.truthy text) as [t|].
    + destruct (PDFProcessor._process_page self t n) as [self1|] eqn:E;
        [| discriminate].
      cbn [rbind] in H.
      apply process_page_ok in E as (pays & s & Hp & Hs & ->).
      apply IH in H as (P1 & P2 & pays' & sums' & Q1 & Q2 & Q3 & Q4 & Q5).
      cbn [PDFProcessor.pdf_path PDFProcessor.pdf_filename PDFProcessor.payments
           PDFProcessor.summaries] in *.
      split; [exact P1 |]. split; [exact P2 |].
      exists (pays ++ pays')%list, (s :: sums').
      rewrite Q1, Q2, <- !app_assoc.
      assert (Hpage : SummaryRecord.page s = n)
        by (eapply summary_page_of_extract; exact Hs).
      split; [reflexivity |]. split; [reflexivity |].
      split; [cbn [map]; now rewrite Hpage, Q3 |].
      split.
      * constructor; [| exact Q4]. unfold summary_of_file.
        rewrite Hpage. eauto.
      * apply Forall_app. split.
        -- apply List.Forall_forall. intros r Hr.
           assert (Hrp : PaymentRecord.page r = n).
           { pose proof (payment_extract_of_call _ _ _ _ _ Hp) as Hall.
             rewrite List.Forall_forall in Hall. now apply Hall in Hr as (_ & Hr & _). }
           unfold payment_of_file. rewrite Hrp.
           do 3 eexists. split; [exact Hp |]. split; [exact Hr | now left].
        -- revert Q5; apply List.Forall_impl.
           intros r (l & i & ps & R1 & R2 & R3).
           exists l, i, ps. split; [exact R1 |]. split; [exact R2 | now right].
    + apply IH in H as (P1 & P2 & pays' & sums' & Q1 & Q2 & Q3 & Q4 & Q5).
      split; [exact P1 |]. split; [exact P2 |]. exists pays', sums'. auto.
Qed.

(** X10.  A document gets one summary per page that has text, in page
    order and numbered by the page's position in the document, pages
    without text counted; every summary and every payment carries the
    processor's file name, and every payment the number of such a page. *)
Theorem X10_one_summary_per_text_page
        (pdf_path file_name : string) (pdf_filename : option string)
        (pages : list (option string)) (self' : PDFProcessor.t)
        (payments : list PaymentRecord.t) (summaries : list SummaryRecord.t) :
  PDFProcessor.process (PDFProcessor.init pdf_path pdf_filename file_name) pages
  = Ok (self', (payments, summaries)) ->
  let f := PDFProcessor.pdf_filename (PDFProcessor.init pdf_path pdf_filename file_name) in
  map SummaryRecord.page summaries = text_pages pages 1
  /\ Forall (fun s => SummaryRecord.pdf_file s = f) summaries
  /\ Forall (fun r => PaymentRecord.pdf_file r = f
                      /\ In (PaymentRecord.page r) (text_pages pages 1)) payments.
Proof.
  intros H f. unfold PDFProcessor.process in H.
  destruct (PDFProcessor.process_pages _ pages 1) as [self1|] eqn:E; [| discriminate].
  cbn [rbind] in H. injection H as <- <- <-.
  apply process_pages_spec in E as (_ & _ & pays & sums & Q1 & Q2 & Q3 & Q4 & Q5).
  cbn [PDFProcessor.init PDFProcessor.payments PDFProcessor.summaries app] in Q1, Q2.
  rewrite Q1, Q2. split; [exact Q3 |]. split.
  - revert Q4; apply List.Forall_impl. intros s (l & i & Hs).
    now apply summary_extract_identity in Hs as (Hs & _).
  - revert Q5; apply List.Forall_impl. intros r (l & i & ps & R1 & R2 & R3).
    split; [| exact R3].
    pose proof (payment_extract_of_call _ _ _ _ _ R1) as Hall.
    rewrite List.Forall_forall in Hall. now apply Hall in R2 as (R2 & _).
Qed.

Lemma X10_one_summary_per_text_page_witness :
  PDFProcessor.process (PDFProcessor.init "data/a.pdf" None "a.pdf") example_pages
  = Ok (PDFProcessor.Make "data/a.pdf" "a.pdf"
          [example_payment "a.pdf" 1 example_info]
          [example_summary1 "a.pdf";
           SummaryRecord.Make "a.pdf" 3 None None (Some (Qred 10.00)) None None
                              (Some (Qred 20.00)) None None None],
        ([example_payment "a.pdf" 1 example_info],
         [example_summary1 "a.pdf";
          SummaryRecord.Make "a.pdf" 3 None None (Some (Qred 10.00)) None None
                             (Some (Qred 20.00)) None None None]))
  /\ (map SummaryRecord.page
          [example_summary1 "a.pdf";
           SummaryRecord.Make "a.pdf" 3 None None (Some (Qred 10.00)) None None
                              (Some (Qred 20.00)) None None None]
      = text_pages example_pages 1
      /\ Forall (fun s => SummaryRecord.pdf_file s = "a.pdf")
                [example_summary1 "a.pdf";
                 SummaryRecord.Make "a.pdf" 3 None None (Some (Qred 10.00)) None None
                                    (Some (Qred 20.00)) None None None]
      /\ Forall (fun r => PaymentRecord.pdf_file r = "a.pdf"
                          /\ In (PaymentRecord.page r) (text_pages example_pages 1))
                [example_payment "a.pdf" 1 example_info]).
Proof.
  split; [vm_compute; reflexivity |].
  apply (X10_one_summary_per_text_page "data/a.pdf" "a.pdf" None example_pages
           (PDFProcessor.Make "data/a.pdf" "a.pdf"
              [example_payment "a.pdf" 1 example_info]
              [example_summary1 "a.pdf";
               SummaryRecord.Make "a.pdf" 3 None None (Some (Qred 10.00)) None None
                                  (Some (Qred 20.00)) None None None])).
  vm_compute; reflexivity.
Defined.

(** X11.  A document none of whose pages has text is not an error: the
    processor comes back as it was, and a fresh one returns two empty
    lists. *)
Theorem X11_document_without_text
        (self : PDFProcessor.t) (pages : list (option string)) :
  Forall (fun text => PDFProcessor.truthy text = None) pages ->
  PDFProcessor.process self pages
  = Ok (self, (PDFProcessor.payments self, PDFProcessor.summaries self)).
Proof.
  intros H. unfold PDFProcessor.process.
  assert (E : forall n, PDFProcessor.process_pages self pages n = Ok self).
  { induction H as [|t pages Ht _ IH]; intros n; cbn [PDFProcessor.process_pages];
      [reflexivity |]. rewrite Ht. apply IH. }
  now rewrite E.
Qed.

Lemma X11_document_without_text_witness :
  Forall (fun text => PDFProcessor.truthy text = None) [None; Some ""; None]
  /\ PDFProcessor.process (PDFProcessor.init "data/a.pdf" None "a.pdf")
                          [None; Some ""; None]
     = Ok (PDFProcessor.init "data/a.pdf" None "a.pdf", ([], [])).
Proof.
  split; [repeat constructor |].
  apply (X11_document_without_text (PDFProcessor.init "data/a.pdf" None "a.pdf")
           [None; Some ""; None]).
  repeat constructor.
Defined.

(** ** The driver: documents in order, errors, and what is written *)

Lemma process_single_pdf_spec (self : PayslipProcessor.t) (f : pdf_file) (w : World) :
  PayslipProcessor._process_single_pdf self f w
  = (if document_raises f then ValueError
     else Ok (PayslipProcessor.Make
                (PayslipProcessor.all_payments self ++ document_payments f)%list
                (PayslipProcessor.all_summaries self ++ document_summaries f)%list),
     MkWorld (console w ++ document_messages f)%list (files w)).
Proof.
  unfold PayslipProcessor._process_single_pdf, document_raises, document_payments,
    document_summaries, document_messages, document_result.
  destruct (PDFProcessor.process _ _) as [[st [pays sums]]|]; unfold print;
    cbn [console files]; rewrite <- ?app_assoc; reflexivity.
Qed.

(** The loop over the files: the records of the files in order, unless
    one raises; the console gets the messages of the files reached and no
    file is written. *)
Lemma process_each_spec (fs : list pdf_file) : forall (self : PayslipProcessor.t) (w : World),
  PayslipProcessor.process_each self fs w
  = (if existsb document_raises fs then ValueError
     else Ok (PayslipProcessor.Make
                (PayslipProcessor.all_payments self ++ flat_map document_payments fs)%list
                (PayslipProcessor.all_summaries self ++ flat_map document_summaries fs)%list),
     MkWorld (console w ++ flat_map document_messages (reached fs))%list (files w)).
Proof.
  induction fs as [|f fs IH]; intros self w;
    cbn [PayslipProcessor.process_each existsb flat_map reached].
  - rewrite !app_nil_r. now destruct self, w.
  - rewrite process_single_pdf_spec.
    destruct (document_raises f); cbn [orb flat_map].
    + now rewrite app_nil_r.
    + rewrite IH. cbn [PayslipProcessor.all_payments PayslipProcessor.all_summaries
                       console files].
      now rewrite <- !app_assoc.
Qed.

(** X12.  When no document raises and a payment is found, the two frames
    hold the payments and the summaries of all documents, in the order
    the documents were found and, within a document, in page order; the
    summaries of documents without payments are included. *)
Theorem X12_frames_hold_all_documents_in_order
        (pdf_files : list pdf_file) (w : World) :
  existsb document_raises pdf_files = false ->
  flat_map document_payments pdf_files <> [] ->
  fst (PayslipProcessor.process_all_pdfs PayslipProcessor.init pdf_files w)
  = Ok (PayslipProcessor.Make (flat_map document_payments pdf_files)
                              (flat_map document_summaries pdf_files),
        (map payment_to_dict (flat_map document_payments pdf_files),
         map summary_to_dict (flat_map document_summaries pdf_files))).
Proof.
  intros Hok Hne. unfold PayslipProcessor.process_all_pdfs.
  destruct pdf_files as [|f fs]; [now contradiction Hne |].
  rewrite process_each_spec, Hok.
  cbn [PayslipProcessor.init PayslipProcessor.all_payments
       PayslipProcessor.all_summaries app].
  destruct (flat_map document_payments (f :: fs)); [now contradiction Hne |].
  reflexivity.
Qed.

Lemma X12_frames_hold_all_documents_in_order_witness :
  existsb document_raises [summary_only_pdf; example_pdf] = false
  /\ flat_map document_payments [summary_only_pdf; example_pdf] <> []
  /\ fst (PayslipProcessor.process_all_pdfs PayslipProcessor.init
            [summary_only_pdf; example_pdf] (MkWorld [] []))
     = Ok (PayslipProcessor.Make
             (flat_map document_payments [summary_only_pdf; example_pdf])
             (flat_map document_summaries [summary_only_pdf; example_pdf]),
           (map payment_to_dict
                (flat_map document_payments [summary_only_pdf; example_pdf]),
            map summary_to_dict
                (flat_map document_summaries [summary_only_pdf; example_pdf])))
  /\ map SummaryRecord.pdf_file
         (flat_map document_summaries [summary_only_pdf; example_pdf])
     = ["b.pdf"; "a.pdf"; "a.pdf"].
Proof.
  split; [vm_compute; reflexivity |].
  split; [vm_compute; discriminate |].
  split; [| vm_compute; reflexivity].
  apply (X12_frames_hold_all_documents_in_order
           [summary_only_pdf; example_pdf] (MkWorld [] []));
    [vm_compute; reflexivity | vm_compute; discriminate].
Defined.

(** X13.  A document that raises aborts the run: [main] raises, the
    documents after it are not reached, the console shows the documents
    reached and ends with the name of the one that raised, and no file
    is written, the records of the earlier documents included. *)
Theorem X13_raising_document_aborts_the_run
        (pdf_files : list pdf_file) (w : World) :
  existsb document_raises pdf_files = true ->
  main pdf_files w
  = (ValueError,
     MkWorld (console w ++ MsgFound (List.length pdf_files)
                :: flat_map document_messages (reached pdf_files))%list
             (files w)).
Proof.
  intros H. unfold main, PayslipProcessor.process_all_pdfs.
  destruct pdf_files as [|f fs]; [discriminate |].
  rewrite process_each_spec, H. unfold print. cbn [console files].
  now rewrite <- app_assoc.
Qed.

Lemma X13_raising_document_aborts_the_run_witness :
  existsb document_raises [example_pdf; broken_pdf; summary_only_pdf] = true
  /\ main [example_pdf; broken_pdf; summary_only_pdf] (MkWorld [] [])
     = (ValueError,
        MkWorld [ MsgFound 3; MsgProcessing "a.pdf"; MsgPaymentCount 1;
                  MsgSummaryCount 2; MsgProcessing "c.pdf" ] []).
Proof.
  split; [vm_compute; reflexivity |].
  rewrite (X13_raising_document_aborts_the_run
             [example_pdf; broken_pdf; summary_only_pdf] (MkWorld [] []));
    vm_compute; reflexivity.
Defined.

(** X14.  [main] writes a file exactly when it returns frames: then it
    is one workbook, payslip_details.xlsx, holding the two frames
    returned, the first of them not empty.  When it returns nothing or
    raises, the files are as before. *)
Theorem X14_main_writes_one_workbook_or_none
        (pdf_files : list pdf_file) (w : World) :
  match main pdf_files w with
  | (Ok (Some (payments_df, summaries_df)), w') =>
      payments_df <> []
      /\ files w' = (files w ++ [("payslip_details.xlsx", (payments_df, summaries_df))])%list
  | (Ok None, w') => files w' = files w
  | (ValueError, w') => files w' = files w
  end.
Proof.
  unfold main, PayslipProcessor.process_all_pdfs.
  destruct pdf_files as [|f fs]; [reflexivity |].
  rewrite process_each_spec.
  destruct (existsb document_raises (f :: fs)); [reflexivity |].
  cbn [PayslipProcessor.init PayslipProcessor.all_payments
       PayslipProcessor.all_summaries app].
  destruct (flat_map document_payments (f :: fs)) as [|r rs]; [reflexivity |].
  cbn [DataExporter.to_dataframes map df_empty negb].
  split; [discriminate | reflexivity].
Qed.

(** X15.  When no document has a payment line, nothing is exported even
    if summaries were extracted: [main] returns nothing, writes no file,
    and the console ends with the message that no data was found. *)
Theorem X15_no_payments_no_export
        (f : pdf_file) (fs : list pdf_file) (w : World) :
  existsb document_raises (f :: fs) = false ->
  flat_map document_payments (f :: fs) = [] ->
  main (f :: fs) w
  = (Ok None,
     MkWorld (console w ++ MsgFound (List.length (f :: fs))
                :: flat_map document_messages (f :: fs) ++ [MsgNoData])%list
             (files w)).
Proof.
  intros Hok Hnone. unfold main, PayslipProcessor.process_all_pdfs.
  rewrite process_each_spec, Hok, Hnone.
  cbn [PayslipProcessor.init PayslipProcessor.all_payments
       PayslipProcessor.all_summaries app df_empty negb].
  unfold print. cbn [console files].
  assert (Hr : forall l, existsb document_raises l = false -> reached l = l).
  { induction l as [|x l IH]; cbn [existsb reached]; [reflexivity |].
    intros E. apply orb_false_elim in E as [E1 E2]. now rewrite E1, IH. }
  rewrite (Hr _ Hok). f_equal. f_equal.
  rewrite <- !app_assoc. reflexivity.
Qed.

Lemma X15_no_payments_no_export_witness :
  existsb document_raises [summary_only_pdf] = false
  /\ flat_map document_payments [summary_only_pdf] = []
  /\ flat_map document_summaries [summary_only_pdf]
     = [SummaryRecord.Make "b.pdf" 1 None None (Some (Qred 10.00)) None None
                           (Some (Qred 20.00)) None None None]
  /\ main [summary_only_pdf] (MkWorld [] [])
     = (Ok None,
        MkWorld [ MsgFound 1; MsgProcessing "b.pdf"; MsgPaymentCount 0;
                  MsgSummaryCount 1; MsgNoData ] []).
Proof.
  split; [vm_compute; reflexivity |]. split; [vm_compute; reflexivity |].
  split; [vm_compute; reflexivity |].
  rewrite (X15_no_payments_no_export summary_only_pdf [] (MkWorld [] []));
    vm_compute; reflexivity.
Defined.

Lemma document_summaries_from_parser (f : pdf_file) :
  Forall (fun s => exists lines g p info, SummaryParser.extract lines g p info = Ok s)
         (document_summaries f).
Proof.
  unfold document_summaries, document_result, PDFProcessor.process.
  destruct (PDFProcessor.process_pages _ (pages f) 1) as [self1|] eqn:E;
    cbn [rbind]; [| constructor].
  apply process_pages_spec in E as (_ & _ & pays & sums & _ & Q2 & _ & Q4 & _).
  cbn [PDFProcessor.init PDFProcessor.summaries app] in Q2. rewrite Q2.
  revert Q4. apply List.Forall_impl. intros s (l & i & Hs). eauto.
Qed.

Lemma summary_row_tax_cells (s : SummaryRecord.t) :
  SummaryRecord.tax s = None -> SummaryRecord.ytd_tax s = None ->
  tax_cells_empty (summary_to_dict s).
Proof.
  intros H1 H2. unfold tax_cells_empty, summary_to_dict.
  cbn [DataExporter.lookup_column String.eqb Ascii.eqb Bool.eqb].
  now rewrite H1, H2.
Qed.

(** X16.  Whatever the documents hold, every row of the exported Summary
    sheet has its Tax and YTD Tax cells empty. *)
Theorem X16_exported_tax_cells_are_empty
        (pdf_files : list pdf_file) (w w' : World) (payments_df summaries_df : DataFrame) :
  main pdf_files w = (Ok (Some (payments_df, summaries_df)), w') ->
  Forall tax_cells_empty summaries_df.
Proof.
  unfold main, PayslipProcessor.process_all_pdfs.
  destruct pdf_files as [|f fs]; [discriminate |].
  rewrite process_each_spec.
  destruct (existsb document_raises (f :: fs)); [discriminate |].
  cbn [PayslipProcessor.init PayslipProcessor.all_payments
       PayslipProcessor.all_summaries app].
  destruct (flat_map document_payments (f :: fs)) as [|r rs]; [discriminate |].
  cbn [DataExporter.to_dataframes map df_empty negb].
  intros [= _ <- _].
  apply List.Forall_forall. intros x Hx.
  apply in_map_iff in Hx as (s & <- & Hs).
  change (In s (flat_map document_summaries (f :: fs))) in Hs.
  apply in_flat_map in Hs as (d & _ & Hs).
  pose proof (document_summaries_from_parser d) as Hall.
  rewrite List.Forall_forall in Hall.
  destruct (Hall _ Hs) as (l & g & p & i & Hext).
  unfold SummaryParser.extract in Hext. apply summary_loop_tax in Hext as [T1 T2].
  now apply summary_row_tax_cells.
Qed.

Lemma X16_exported_tax_cells_are_empty_witness :
  main [example_pdf] (MkWorld [] [])
  = (Ok (Some (DataExporter.to_dataframes (document_payments example_pdf)
                                          (document_summaries example_pdf))),
     snd (main [example_pdf] (MkWorld [] [])))
  /\ Forall tax_cells_empty (map summary_to_dict (document_summaries example_pdf)).
Proof.
  split; [vm_compute; reflexivity |].
  apply (X16_exported_tax_cells_are_empty [example_pdf] (MkWorld [] [])
           (snd (main [example_pdf] (MkWorld [] [])))
           (map payment_to_dict (document_payments example_pdf))).
  vm_compute; reflexivity.
Defined.

(** ** DateParser: further behaviour *)

Lemma strftime_not_lenient (d : date) : is_lenient_format (strftime d) = false.
Proof. reflexivity. Qed.

(** X17.  Parsing is idempotent: a rendered date is not a compact token,
    so parsing a result again returns it unchanged. *)
Theorem X17_parse_reference_date_idempotent (tok : string) :
  DateParser.parse_reference_date (DateParser.parse_reference_date tok)
  = DateParser.parse_reference_date tok.
Proof.
  unfold DateParser.parse_reference_date at 2 3.
  destruct (strptime tok) as [d|] eqn:E.
  - apply parse_not_lenient, strftime_not_lenient.
  - unfold DateParser.parse_reference_date. now rewrite E.
Qed.

Lemma compact_token_match (d m yy : nat) :
  1 <= d <= 31 -> 1 <= m <= 12 -> yy < 100 ->
  re_match REFERENCE_DATE_REGEX (compact_token d m yy)
  = Some (RMatch [pad2 d; nth (m - 1) month_abbr ""; pad2 yy]
                 (String.length (compact_token d m yy))).
Proof.
  intros Hd Hm Hy.
  pose proof (proj1 (List.Forall_forall _ _) run_day_month d
                    ltac:(apply in_seq; lia)) as Hrun.
  pose proof (proj1 (List.Forall_forall _ _) Hrun m ltac:(apply in_seq; lia)) as Hrun'.
  pose proof (proj1 (List.Forall_forall _ _) month_index_abbr m
                    ltac:(apply in_seq; lia)) as [_ Hlen].
  cbv beta in Hrun'.
  assert (Hlen7 : String.length (compact_token d m yy) = 7).
  { unfold compact_token, pad2. cbn [String.append String.length].
    rewrite length_append, Hlen. reflexivity. }
  rewrite Hlen7. unfold re_match, first_match, REFERENCE_DATE_REGEX, compact_token.
  rewrite run_seq_assoc.
  change (run ((Group day_regex ~~ Group month_regex) ~~ Group year_regex) ?st)
    with (flat_map (run (Group year_regex))
                   (run (Group day_regex ~~ Group month_regex) st)).
  rewrite Hrun'. cbn [flat_map]. unfold pad2.
  rewrite (run_year 5) by apply is_digit_digit_char. reflexivity.
Qed.

(** X18.  A compact token that names a day the month does not have, such
    as 31Jun24 or 29Feb23, is returned unchanged. *)
Theorem X18_nonexistent_day_is_returned_unchanged (d m yy : nat) :
  1 <= m <= 12 -> yy < 100 ->
  days_in_month (century yy) m < d <= 31 ->
  DateParser.parse_reference_date (compact_token d m yy) = compact_token d m yy.
Proof.
  intros Hm Hy Hd.
  assert (Hd1 : 1 <= d <= 31).
  { split; [| lia]. unfold days_in_month in Hd.
    do 13 (destruct m as [|m]; [try destruct (is_leap _); lia |]). lia. }
  unfold DateParser.parse_reference_date, strptime.
  rewrite (compact_token_match d m yy Hd1 Hm Hy).
  cbn [mend group groups nth Nat.sub]. rewrite Nat.eqb_refl. cbn [negb].
  pose proof (proj1 (List.Forall_forall _ _) month_index_abbr m
                    ltac:(apply in_seq; lia)) as [Hidx _].
  pose proof (proj1 (List.Forall_forall _ _) int_pad2 yy
                    ltac:(apply in_seq; lia)) as Hyy.
  pose proof (proj1 (List.Forall_forall _ _) int_pad2 d
                    ltac:(apply in_seq; lia)) as Hdd.
  cbv beta in Hyy, Hdd. rewrite Hdd, Hidx, Hyy.
  replace (if (yy <=? 68)%nat then yy + 2000 else yy + 1900) with (century yy)
    by (unfold century; destruct (yy <=? 68)%nat; lia).
  replace (d <=? days_in_month (century yy) m)%nat with false
    by (symmetry; apply Nat.leb_gt; lia).
  now rewrite andb_false_r.
Qed.

Lemma X18_nonexistent_day_is_returned_unchanged_witness :
  1 <= 2 <= 12 /\ 23 < 100 /\ days_in_month (century 23) 2 < 29 <= 31
  /\ DateParser.parse_reference_date "29Feb23" = "29Feb23".
Proof.
  split; [lia |]. split; [lia |]. split; [simpl; lia |].
  apply (X18_nonexistent_day_is_returned_unchanged 29 2 23); simpl; lia.
Defined.

Lemma digit_le_9 (c : ascii) : is_digit c = true -> N.to_nat (code c) - 48 <= 9.
Proof.
  unfold is_digit. intros H. apply andb_prop in H as [_ H].
  apply N.leb_le in H. lia.
Qed.

Lemma int_two_digits (a b : ascii) :
  is_digit a = true -> is_digit b = true ->
  int (String a (String b "")) <= 99.
Proof.
  intros Ha Hb. unfold int. cbn [lstrip].
  assert (Hs : is_space a = false).
  { destruct a as [[] [] [] [] [] [] [] []]; try reflexivity; discriminate Ha. }
  rewrite Hs. cbn [int_digits].
  pose proof (digit_le_9 a Ha). pose proof (digit_le_9 b Hb). lia.
Qed.

Lemma month_index_of_abbr (a b c : ascii) :
  is_month_abbr a b c = true ->
  1 <= month_index (lower_string (String a (String b (String c "")))) a_month 1 <= 12.
Proof.
  unfold is_month_abbr. generalize (lower_string (String a (String b (String c "")))).
  intros s H. cbn [existsb a_month] in H.
  repeat match goal with
         | H : _ || _ = true |- _ => apply orb_prop in H as [H | H]
         end;
    try discriminate H;
    apply String.eqb_eq in H; subst s; cbn; lia.
Qed.

Lemma sem_day_caps (w : string) (cs : list string) : sem day_regex w cs -> cs = [].
Proof.
  unfold day_regex. cbn [sem].
  intros [H | [H | [H | [H | H]]]];
    repeat match goal with
           | H : exists _, _ |- _ => destruct H
           | H : _ /\ _ |- _ => destruct H
           end; subst; reflexivity.
Qed.

Lemma sem_month_caps (w : string) (cs : list string) : sem month_regex w cs -> cs = [].
Proof.
  unfold month_regex. cbn [sem]. intros H.
  repeat match goal with
         | H : _ \/ _ |- _ => destruct H as [H | H]
         end; now destruct H.
Qed.

Lemma sem_year_caps (w : string) (cs : list string) : sem year_regex w cs -> cs = [].
Proof.
  unfold year_regex. cbn [sem]. intros H.
  repeat match goal with
         | H : exists _, _ |- _ => destruct H
         | H : _ /\ _ |- _ => destruct H
         end; subst; reflexivity.
Qed.

(** The date [strptime] builds is a day of the calendar between 1969
    and 2068. *)
Lemma strptime_range (tok : string) (d : date) :
  strptime tok = Ok d ->
  1969 <= year d <= 2068 /\ 1 <= month d <= 12
  /\ 1 <= day d <= days_in_month (year d) (month d).
Proof.
  unfold strptime. intros H.
  destruct (re_match REFERENCE_DATE_REGEX tok) as [found|] eqn:E; [| discriminate].
  destruct (negb _); [discriminate |].
  apply first_match_sound in E as (w & tl & _ & _ & Hsem).
  unfold REFERENCE_DATE_REGEX in Hsem. cbn [sem] in Hsem.
  destruct Hsem as (w1 & w23 & c1 & c23 & _ & Hg & (cd & Hd & ->)
                    & (w2 & w3 & c2 & c3 & _ & -> & (cm & Hm & ->) & (cy & Hy & ->))).
  rewrite (sem_day_caps _ _ Hd), (sem_month_caps _ _ Hm), (sem_year_caps _ _ Hy) in Hg.
  cbn [app] in Hg. unfold group in H. rewrite Hg in H. cbn [nth Nat.sub] in H.
  apply sem_month in Hm as (a & b & c & -> & Hm).
  apply sem_year in Hy as (y1 & y2 & -> & Hy1 & Hy2).
  pose proof (int_two_digits _ _ Hy1 Hy2) as Hyy.
  pose proof (month_index_of_abbr _ _ _ Hm) as Hmi.
  destruct ((1 <=? int w1)%nat && _) eqn:Hday; [| discriminate].
  injection H as <-. cbn [year month day].
  apply andb_prop in Hday as [D1 D2]. apply Nat.leb_le in D1, D2.
  split; [| split; [exact Hmi | split; assumption]].
  destruct (int (String y1 (String y2 "")) <=? 68)%nat eqn:P.
  - apply Nat.leb_le in P. lia.
  - apply Nat.leb_gt in P. lia.
Qed.

(** X19.  The result of parsing is the token itself or the ISO
    rendering of a day of the calendar between 1969-01-01 and
    2068-12-31: a two-digit year never lands outside that range. *)
Theorem X19_parsed_date_is_a_calendar_day (tok : string) :
  DateParser.parse_reference_date tok = tok
  \/ exists y m d,
       1969 <= y <= 2068 /\ 1 <= m <= 12 /\ 1 <= d <= days_in_month y m
       /\ DateParser.parse_reference_date tok = iso y m d.
Proof.
  unfold DateParser.parse_reference_date.
  destruct (strptime tok) as [d|] eqn:E; [right | now left].
  apply strptime_range in E as (Hy & Hm & Hd).
  exists (year d), (month d), (day d). repeat split; try apply Hy; try apply Hm;
    try apply Hd.
Qed.

(** ** PayPeriodParser: further behaviour *)

Lemma run_ends_in_eol (r : regex) : forall st st',
  ends_in_eol r = true -> In st' (run r st) ->
  rest st' = "" \/ rest st' = newline.
Proof.
  induction r as [s | s | p | p | p | r1 IH1 r2 IH2 | r1 IH1 r2 IH2 | r IH | |];
    intros st st' He H; try discriminate He; cbn [run ends_in_eol] in *.
  - apply in_flat_map in H as (mid & _ & H). eapply IH2; eauto.
  - destruct (String.eqb (rest st) "") eqn:E1.
    + destruct H as [<- | []]. left. now apply String.eqb_eq.
    + destruct (String.eqb (rest st) newline) eqn:E2; cbn [orb] in H;
        [| contradiction].
      destruct H as [<- | []]. right. now apply String.eqb_eq.
Qed.

Lemma search_from_sound_eol (r : regex) (s : string) : forall start m,
  ends_in_eol r = true ->
  search_from r start s = Some m ->
  exists pre w tl,
    s = pre ++ w ++ tl /\ (tl = "" \/ tl = newline) /\ sem r w (groups m).
Proof.
  assert (F : forall start s m, ends_in_eol r = true ->
              first_match r start s = Some m ->
              exists w tl, s = w ++ tl /\ (tl = "" \/ tl = newline)
                           /\ sem r w (groups m)).
  { intros start s0 m He. unfold first_match.
    destruct (run r _) as [|st l] eqn:E; [discriminate |]. intros [= <-].
    assert (H : In st (run r (MState start s0 []))) by (rewrite E; now left).
    pose proof (run_ends_in_eol _ _ _ He H) as Htl.
    apply run_sound in H as (w & cs & Hr & Hp & Hc & Hs). simpl in *.
    exists w, (rest st). subst cs. auto. }
  induction s as [|c s IH]; intros start m He H; simpl in H.
  - destruct (first_match r start "") eqn:E; [| discriminate].
    injection H as <-. apply F in E as (w & tl & Hs & Htl & Hsem); [| exact He].
    exists "", w, tl. auto.
  - destruct (first_match r start (String c s)) eqn:E.
    + injection H as <-. apply F in E as (w & tl & Hs & Htl & Hsem); [| exact He].
      exists "", w, tl. auto.
    + apply IH in H as (pre & w & tl & Hs & Htl & Hsem); [| exact He].
      exists (String c pre), w, tl. simpl. rewrite Hs. auto.
Qed.

Lemma pay_period_sem (w : string) (cs : list string) :
  sem PatternConfig.PAY_PERIOD_PATTERN w cs ->
  exists X Y Z,
    w = "Pay Period " ++ X ++ " to " ++ Y ++ " Paid " ++ Z
    /\ cs = [X; Y; Z] /\ X <> "" /\ Y <> "" /\ Z <> ""
    /\ all_chars is_not_newline X = true /\ all_chars is_not_newline Y = true
    /\ all_chars is_not_newline Z = true.
Proof.
  unfold PatternConfig.PAY_PERIOD_PATTERN. cbn [sem].
  intros (w0 & r0 & c0 & d0 & -> & -> & [-> ->]
          & (X & r1 & c1 & d1 & -> & -> & (cx & (NX & HX & ->) & ->)
             & (w2 & r2 & c2 & d2 & -> & -> & [-> ->]
                & (Y & r3 & c3 & d3 & -> & -> & (cy & (NY & HY & ->) & ->)
                   & (w4 & r4 & c4 & d4 & -> & -> & [-> ->]
                      & (Z & r5 & c5 & d5 & -> & -> & (cz & (NZ & HZ & ->) & ->)
                         & [-> ->])))))).
  exists X, Y, Z. rewrite append_empty_r. cbn [app]. repeat split; assumption.
Qed.

(** X20.  The result has both fields or neither.  When it has them, they
    are cut from one line of the page: the line reads, from some point
    to its end (a final line feed apart), "Pay Period X to Y Paid Z",
    with [X], [Y] and [Z] not empty and without line feed; the period is
    "X to Y" and the paid date is [Z]. *)
Theorem X20_pay_period_is_cut_from_one_line (lines : list string) :
  PayPeriodParser.extract lines = PayPeriodInfo.Make None None
  \/ exists line pre X Y Z tl,
       In line lines
       /\ line = pre ++ ("Pay Period " ++ X ++ " to " ++ Y ++ " Paid " ++ Z) ++ tl
       /\ (tl = "" \/ tl = newline)
       /\ X <> "" /\ Y <> "" /\ Z <> ""
       /\ all_chars is_not_newline X = true /\ all_chars is_not_newline Y = true
       /\ all_chars is_not_newline Z = true
       /\ PayPeriodParser.extract lines
          = PayPeriodInfo.Make (Some (X ++ " to " ++ Y)) (Some Z).
Proof.
  induction lines as [|l lines IH]; [now left |].
  destruct (pay_period_match l) as [m|] eqn:E.
  - right. rewrite (pay_period_hit _ _ _ E).
    unfold pay_period_match in E.
    destruct (contains "Pay Period" l && contains "Paid" l); [| discriminate].
    apply search_from_sound_eol in E as (pre & w & tl & Hl & Htl & Hsem);
      [| reflexivity].
    apply pay_period_sem in Hsem as (X & Y & Z & -> & Hg & NX & NY & NZ & HX & HY & HZ).
    unfold group. rewrite Hg. cbn [nth Nat.sub].
    exists l, pre, X, Y, Z, tl. split; [now left |]. repeat split; assumption.
  - rewrite (pay_period_skip _ _ E).
    destruct IH as [IH | (line & pre & X & Y & Z & tl & Hin & H)]; [now left |].
    right. exists line, pre, X, Y, Z, tl. split; [now right | exact H].
Qed.

(** X21.  The test for the two markers rejects no line the pattern
    matches: a line on which the pattern is found holds "Pay Period" and
    "Paid", so the parser finds the first line the pattern matches. *)
Theorem X21_marker_test_is_implied_by_the_pattern (line : string) :
  pay_period_match line = re_search PatternConfig.PAY_PERIOD_PATTERN line.
Proof.
  unfold pay_period_match.
  destruct (re_search PatternConfig.PAY_PERIOD_PATTERN line) as [m|] eqn:E;
    [| now destruct (_ && _)].
  apply search_from_sound in E as (pre & w & tl & -> & Hsem).
  apply pay_period_sem in Hsem as (X & Y & Z & -> & _).
  replace (contains "Pay Period"
             (pre ++ ("Pay Period " ++ X ++ " to " ++ Y ++ " Paid " ++ Z) ++ tl))
    with true.
  2:{ symmetry.
      replace (pre ++ ("Pay Period " ++ X ++ " to " ++ Y ++ " Paid " ++ Z) ++ tl)
        with (pre ++ "Pay Period" ++ (" " ++ X ++ " to " ++ Y ++ " Paid " ++ Z) ++ tl)
        by reflexivity.
      apply contains_append. }
  replace (contains "Paid"
             (pre ++ ("Pay Period " ++ X ++ " to " ++ Y ++ " Paid " ++ Z) ++ tl))
    with true; [reflexivity |].
  symmetry.
  replace (pre ++ ("Pay Period " ++ X ++ " to " ++ Y ++ " Paid " ++ Z) ++ tl)
    with ((pre ++ "Pay Period " ++ X ++ " to " ++ Y ++ " ") ++ "Paid" ++ (" " ++ Z) ++ tl).
  - apply contains_append.
  - rewrite !append_assoc. reflexivity.
Qed.

(** ** SummaryParser: the disbursement amount *)

Lemma summary_step_disbursement_hit (line : string) (m : rmatch)
      (s s' : SummaryRecord.t) :
  disbursement_match line = Some m ->
  SummaryParser.step line s = Ok s' ->
  exists a, float (group m 1) = Ok a /\ s' = SummaryRecord.set_disbursement a s.
Proof.
  unfold disbursement_match, starts_with_label, SummaryParser.step.
  destruct (startswith "Gross Pay" (strip line)); [discriminate |].
  destruct (startswith "Tax" (strip line) && negb (startswith "Tax" line));
    [discriminate |].
  destruct (startswith "Nett Pay" (strip line)); [discriminate |].
  cbn [orb]. destruct (contains _ line); [| discriminate].
  intros -> H. destruct (float (group m 1)) as [a|]; [| discriminate].
  injection H as <-. eauto.
Qed.

Lemma summary_step_disbursement_miss (line : string) (s s' : SummaryRecord.t) :
  disbursement_match line = None ->
  SummaryParser.step line s = Ok s' ->
  SummaryRecord.disbursement_amount s' = SummaryRecord.disbursement_amount s.
Proof.
  unfold disbursement_match, starts_with_label, SummaryParser.step.
  destruct (startswith "Gross Pay" (strip line)).
  { intros _ H. destruct (re_search _ line); [| now injection H as <-].
    destruct (float _); [| discriminate]. destruct (float _); [| discriminate].
    now injection H as <-. }
  destruct (startswith "Tax" (strip line) && negb (startswith "Tax" line)).
  { intros _ H. destruct (re_search _ line); [| now injection H as <-].
    destruct (float _); [| discriminate]. destruct (float _); [| discriminate].
    now injection H as <-. }
  destruct (startswith "Nett Pay" (strip line)).
  { intros _ H. destruct (re_search _ line); [| now injection H as <-].
    destruct (float _); [| discriminate]. destruct (float _); [| discriminate].
    now injection H as <-. }
  cbn [orb]. destruct (contains _ line); [| intros _ H; now injection H as <-].
  intros -> H. now injection H as <-.
Qed.

Lemma space_not_digit (c : ascii) : is_space c = true -> is_digit c = false.
Proof. destruct c as [[] [] [] [] [] [] [] []]; intros H; try reflexivity; discriminate H. Qed.

Lemma digit_not_space (c : ascii) : is_digit c = true -> is_space c = false.
Proof. destruct c as [[] [] [] [] [] [] [] []]; intros H; try reflexivity; discriminate H. Qed.

(** A printed bank line is matched, with the amount as its group. *)
Lemma bank_line_matches (sp1 account sp2 amount tl : string) :
  bank_line_ok sp1 account sp2 amount tl = true ->
  exists e,
    disbursement_match (bank_line sp1 account sp2 amount tl)
    = Some (RMatch [amount] e).
Proof.
  unfold bank_line_ok. intros H.
  repeat match goal with
         | H : _ && _ = true |- _ => apply andb_prop in H as [H ?]
         end.
  repeat match goal with
         | H : token _ _ = true |- _ => apply token_elim in H as [? ?]
         end.
  pose (n0 := String.length "Commonwealth Bank of Australia").
  pose proof (run_lit "Commonwealth Bank of Australia"
                (sp1 ++ account ++ sp2 ++ amount ++ tl) 0 []) as R0.
  edestruct (run_plus_greedy is_space sp1 (account ++ sp2 ++ amount ++ tl)
               (0 + n0) []) as [l1 R1]; [eassumption | assumption | |].
  { eapply stops_disjoint; [exact digit_not_space | eassumption | assumption]. }
  edestruct (run_plus_greedy is_digit account (sp2 ++ amount ++ tl)
               (0 + n0 + String.length sp1) []) as [l2 R2];
    [eassumption | assumption | |].
  { eapply stops_disjoint; [exact space_not_digit | eassumption | assumption]. }
  edestruct (run_plus_greedy is_space sp2 (amount ++ tl)
               (0 + n0 + String.length sp1 + String.length account) [])
    as [l3 R3]; [eassumption | assumption | |].
  { eapply stops_disjoint; [exact digit_or_dot_not_space | eassumption | assumption]. }
  edestruct (run_group_plus_greedy is_digit_or_dot amount tl
               (0 + n0 + String.length sp1 + String.length account
                + String.length sp2) [])
    as [l4 R4]; [eassumption | assumption | assumption |].
  destruct (run_seq_head _ _ _ _ _ _ _ R3 R4) as [k3 S3].
  destruct (run_seq_head _ _ _ _ _ _ _ R2 S3) as [k2 S2].
  destruct (run_seq_head _ _ _ _ _ _ _ R1 S2) as [k1 S1].
  destruct (run_seq_head _ _ _ _ _ _ _ R0 S1) as [k0 S0].
  unfold disbursement_match, starts_with_label.
  assert (Hs : exists t, strip (bank_line sp1 account sp2 amount tl) = String "C" t).
  { unfold strip, bank_line. cbn [String.append lstrip].
    replace (is_space "C") with false by reflexivity.
    now apply rstrip_head. }
  destruct Hs as [t ->]. cbn [startswith Ascii.eqb Bool.eqb andb orb].
  replace (contains "Commonwealth Bank of Australia"
             (bank_line sp1 account sp2 amount tl)) with true
    by (symmetry;
        exact (contains_append "Commonwealth Bank of Australia" ""
                 (sp1 ++ account ++ sp2 ++ amount ++ tl))).
  unfold re_search, PatternConfig.DISBURSEMENT_PATTERN, bank_line.
  eexists.
  destruct ("Commonwealth Bank of Australia" ++ sp1 ++ account ++ sp2 ++ amount ++ tl);
    cbn [search_from]; unfold first_match; rewrite S0; reflexivity.
Qed.

(** X22.  The disbursement amount of a returned summary is the number of
    the last line that sets it.  A printed bank line, the bank name
    followed by an account number and an amount, sets it to the amount,
    not to the account number. *)
Theorem X22_disbursement_from_last_bank_line
        (before after : list string) (f : string) (p : Z) (info : PayPeriodInfo.t)
        (sp1 account sp2 amount tl : string) (s : SummaryRecord.t) :
  bank_line_ok sp1 account sp2 amount tl = true ->
  Forall (fun l => disbursement_match l = None) after ->
  SummaryParser.extract
    (before ++ bank_line sp1 account sp2 amount tl :: after)%list f p info = Ok s ->
  exists a, float amount = Ok a /\ SummaryRecord.disbursement_amount s = Some a.
Proof.
  intros Hok Hafter H. unfold SummaryParser.extract in H.
  rewrite summary_loop_app in H.
  destruct (SummaryParser.loop before _) as [s0|]; [| discriminate].
  cbn [rbind SummaryParser.loop] in H.
  destruct (SummaryParser.step _ s0) as [s1|] eqn:E; [| discriminate].
  cbn [rbind] in H.
  destruct (bank_line_matches _ _ _ _ _ Hok) as [e He].
  destruct (summary_step_disbursement_hit _ _ _ _ He E) as (a & Fa & ->).
  exists a. split; [exact Fa |].
  apply (summary_loop_inv
           (fun s => SummaryRecord.disbursement_amount s = Some a) after) in H;
    [exact H | | reflexivity].
  intros l x y Hin Hx Hstep. rewrite List.Forall_forall in Hafter.
  now rewrite (summary_step_disbursement_miss _ _ _ (Hafter _ Hin) Hstep).
Qed.

Lemma X22_disbursement_from_last_bank_line_witness :
  bank_line_ok " " "12345678" "  " "1100.00" "" = true
  /\ Forall (fun l => disbursement_match l = None)
            ["Nett Pay 1100.00 22000.00 Commonwealth Bank of Australia 1 9.99"]
  /\ SummaryParser.extract
       [ "Commonwealth Bank of Australia 1 5.00";
         "Commonwealth Bank of Australia 12345678  1100.00";
         "Nett Pay 1100.00 22000.00 Commonwealth Bank of Australia 1 9.99" ]
       "a.pdf" 1 example_info
     = Ok (SummaryRecord.Make "a.pdf" 1
             (Some "01/07/2024 to 14/07/2024") (Some "18/07/2024")
             None None (Some (Qred 1100.00)) None None (Some (Qred 22000.00))
             (Some (Qred 1100.00)))
  /\ exists a, float "1100.00" = Ok a /\ Some (Qred 1100.00) = Some a.
Proof.
  split; [reflexivity |]. split; [repeat constructor |].
  split; [vm_compute; reflexivity |].
  apply (X22_disbursement_from_last_bank_line
           ["Commonwealth Bank of Australia 1 5.00"]
           ["Nett Pay 1100.00 22000.00 Commonwealth Bank of Australia 1 9.99"]
           "a.pdf" 1 example_info " " "12345678" "  " "1100.00" ""
           (SummaryRecord.Make "a.pdf" 1
             (Some "01/07/2024 to 14/07/2024") (Some "18/07/2024")
             None None (Some (Qred 1100.00)) None None (Some (Qred 22000.00))
             (Some (Qred 1100.00))));
    [reflexivity | repeat constructor | vm_compute; reflexivity].
Defined.

(** ** Export rows and page lines *)

(** X23.  The export loses nothing: two payments with the same row are
    the same payment, and two summaries with the same row are the same
    summary. *)
Theorem X23_rows_determine_records
        (p q : PaymentRecord.t) (s t : SummaryRecord.t) :
  (payment_to_dict p = payment_to_dict q -> p = q)
  /\ (summary_to_dict s = summary_to_dict t -> s = t).
Proof.
  assert (Hs : forall a b, opt_str a = opt_str b -> a = b).
  { intros [a|] [b|] H; simpl in H; congruence. }
  assert (Hf : forall a b, opt_float a = opt_float b -> a = b).
  { intros [a|] [b|] H; simpl in H; congruence. }
  split.
  - destruct p, q. intros H. unfold payment_to_dict in H.
    cbn [PaymentRecord.pdf_file PaymentRecord.page PaymentRecord.pay_period
         PaymentRecord.paid_date PaymentRecord.work_date PaymentRecord.hours
         PaymentRecord.rate PaymentRecord.amount] in H.
    injection H as H1 H2 H3 H4 H5 H6 H7 H8.
    apply Hs in H3, H4. congruence.
  - destruct s, t. intros H. unfold summary_to_dict in H.
    cbn [SummaryRecord.pdf_file SummaryRecord.page SummaryRecord.pay_period
         SummaryRecord.paid_date SummaryRecord.gross_pay SummaryRecord.tax
         SummaryRecord.nett_pay SummaryRecord.ytd_gross_pay SummaryRecord.ytd_tax
         SummaryRecord.ytd_nett_pay SummaryRecord.disbursement_amount] in H.
    injection H as H1 H2 H3 H4 H5 H6 H7 H8 H9 H10 H11.
    apply Hs in H3, H4. apply Hf in H5, H6, H7, H8, H9, H10, H11. congruence.
Qed.

Lemma X23_rows_determine_records_witness :
  (payment_to_dict (example_payment "a.pdf" 1 example_info)
   = payment_to_dict (example_payment "a.pdf" 1 example_info)
   /\ example_payment "a.pdf" 1 example_info = example_payment "a.pdf" 1 example_info)
  /\ (summary_to_dict (example_summary "a.pdf" 3) = summary_to_dict (example_summary "a.pdf" 3)
      /\ example_summary "a.pdf" 3 = example_summary "a.pdf" 3).
Proof.
  pose proof (X23_rows_determine_records
                (example_payment "a.pdf" 1 example_info)
                (example_payment "a.pdf" 1 example_info)
                (example_summary "a.pdf" 3) (example_summary "a.pdf" 3)) as [H1 H2].
  split; (split; [reflexivity |]); [apply H1 | apply H2]; reflexivity.
Defined.

Lemma split_lines_nonempty (text : string) : split_lines text <> [].
Proof.
  destruct text as [|c text]; simpl; [discriminate |].
  destruct (code c =? 10)%N; [discriminate |].
  destruct (split_lines text); discriminate.
Qed.

(** X24.  The lines a page is cut into hold no line feed, and joined by
    line feeds they give the page text back: the parsers see every
    character of the page but the line feeds, once and in order. *)
Theorem X24_page_lines_partition_the_text (text : string) :
  Forall (fun l => all_chars is_not_newline l = true) (split_lines text)
  /\ join_lines (split_lines text) = text.
Proof.
  induction text as [|c text [IH1 IH2]]; [split; [repeat constructor | reflexivity] |].
  cbn [split_lines]. pose proof (split_lines_nonempty text) as Hne.
  destruct (code c =? 10)%N eqn:E.
  - split; [constructor; [reflexivity | exact IH1] |].
    apply N.eqb_eq in E.
    assert (Hc : c = ascii_of_N 10).
    { unfold code in E. rewrite <- (ascii_N_embedding c), E. reflexivity. }
    destruct (split_lines text) as [|l ls] eqn:S; [contradiction |].
    change (join_lines ("" :: l :: ls)) with ("" ++ newline ++ join_lines (l :: ls)).
    rewrite IH2. unfold newline. now rewrite Hc.
  - destruct (split_lines text) as [|l ls] eqn:S; [contradiction |].
    inversion IH1 as [|? ? Hl Hls]. split.
    + constructor; [| exact Hls]. cbn [all_chars]. unfold is_not_newline at 1.
      now rewrite E, Hl.
    + rewrite <- IH2. destruct ls as [|l' ls]; reflexivity.
Qed.

(** ** SummaryParser: a number that cannot be read *)

(** X25.  A printed Gross Pay line one of whose two numbers cannot be
    read makes the call raise, wherever the line stands on the page: no
    summary is returned for the page. *)
Theorem X25_unreadable_gross_pay_raises
        (before after : list string) (f : string) (p : Z) (info : PayPeriodInfo.t)
        (indent sp1 a sp2 b tl : string) :
  all_chars is_space indent = true ->
  token is_space sp1 = true -> token is_digit_or_dot a = true ->
  token is_space sp2 = true -> token is_digit_or_dot b = true ->
  stops is_digit_or_dot tl = true ->
  float a = ValueError \/ float b = ValueError ->
  SummaryParser.extract
    (before ++ (indent ++ "Gross Pay" ++ sp1 ++ a ++ sp2 ++ b ++ tl)%string :: after)%list
    f p info
  = ValueError.
Proof.
  intros Hi Hs1 Ha Hs2 Hb Htl Hbad.
  apply token_elim in Hs1 as [Hs1 Ns1]. apply token_elim in Ha as [Ha Na].
  apply token_elim in Hs2 as [Hs2 Ns2]. apply token_elim in Hb as [Hb Nb].
  destruct (gross_pay_line_matches indent sp1 a sp2 b tl
              Hi Hs1 Ns1 Ha Na Hs2 Ns2 Hb Nb Htl) as [e He].
  unfold SummaryParser.extract. rewrite summary_loop_app.
  destruct (SummaryParser.loop before _) as [s0|]; [| reflexivity].
  cbn [rbind SummaryParser.loop].
  replace (SummaryParser.step
             (indent ++ "Gross Pay" ++ sp1 ++ a ++ sp2 ++ b ++ tl) s0)
    with (@ValueError SummaryRecord.t); [reflexivity |].
  symmetry. unfold gross_pay_match in He. unfold SummaryParser.step.
  destruct (startswith "Gross Pay" (strip _)); [| discriminate].
  rewrite He. cbn [group groups nth Nat.sub].
  destruct Hbad as [E | E]; rewrite E; [reflexivity |].
  now destruct (float a).
Qed.

Lemma X25_unreadable_gross_pay_raises_witness :
  all_chars is_space "  " = true
  /\ token is_space " " = true /\ token is_digit_or_dot "1.200.00" = true
  /\ token is_space " " = true /\ token is_digit_or_dot "24000.00" = true
  /\ stops is_digit_or_dot "" = true
  /\ (float "1.200.00" = ValueError \/ float "24000.00" = ValueError)
  /\ SummaryParser.extract
       ["Nett Pay 1100.00 22000.00"; "  Gross Pay 1.200.00 24000.00"; "Page 1"]
       "a.pdf" 1 example_info
     = ValueError.
Proof.
  repeat (split; [reflexivity |]). split; [left; reflexivity |].
  apply (X25_unreadable_gross_pay_raises
           ["Nett Pay 1100.00 22000.00"] ["Page 1"] "a.pdf" 1 example_info
           "  " " " "1.200.00" " " "24000.00" "");
    try reflexivity. left; reflexivity.
Defined.
